(** * codewiki-go-analyzer: identifier scheme and call resolution

    A shallow embedding of the analyzer package (the [GoAnalyzer] of a
    repository, with type facts; the earlier [GoAnalyzer] of one file; and
    the bits of the Go standard library they call), followed by the
    properties of the identifier scheme, the symbol collector and the call
    resolver.

    Go strings are byte sequences: they are modelled by [string], whose
    characters are the bytes.  Go [int] values only ever hold offsets and
    line numbers here and are modelled by [Z]. *)

From Stdlib Require Import ZArith Lia Bool List Ascii String Permutation.
From stdpp Require Import base option list gmap strings.

Local Open Scope string_scope.
Local Open Scope Z_scope.

Set Warnings "-register-all".

(** Strings are appended with [+:+]; [++] is for lists. *)
#[local] Disable Notation "x ++ y" : string_scope.

(* ===================================================================== *)
(** * Go strings, runes and the library functions used by the analyzer *)
(* ===================================================================== *)

Module GoString.

(** A byte of a string as a number in [0, 256). *)
Definition byteZ (c : ascii) : Z := Z.of_N (N_of_ascii c).

Definition byteOf (z : Z) : ascii := ascii_of_N (Z.to_N z).

(** [len(s)] *)
Definition len (s : string) : Z := Z.of_nat (String.length s).

(** [s[lo:hi]] for indices already known to be in range. *)
Definition slice (s : string) (lo hi : Z) : string :=
  String.substring (Z.to_nat lo) (Z.to_nat (hi - lo)) s.

(** [strings.HasPrefix(s, prefix)] *)
Definition HasPrefix (s prefix : string) : bool := String.prefix prefix s.

(** [strings.HasSuffix(s, suffix)]:
    [len(s) >= len(suffix) && s[len(s)-len(suffix):] == suffix] *)
Definition HasSuffix (s suffix : string) : bool :=
  (len suffix <=? len s) &&
  String.eqb (slice s (len s - len suffix) (len s)) suffix.

(** The rune produced for a byte that does not start a valid encoding. *)
Definition RuneError : Z := 65533.

Definition isCont (lo hi : Z) (c : ascii) : bool :=
  (lo <=? byteZ c) && (byteZ c <=? hi).

(** Payload bits of a continuation byte ([b & 0x3F]). *)
Definition contBits (c : ascii) : Z := Z.land (byteZ c) 63.

(** The accepted range of the second byte, by first byte (the [first] and
    [acceptRanges] tables of unicode/utf8). *)
Definition acceptRange (b0 : Z) : Z * Z :=
  if b0 =? 224 then (160, 191)
  else if b0 =? 237 then (128, 159)
  else if b0 =? 240 then (144, 191)
  else if b0 =? 244 then (128, 143)
  else (128, 191).

(** Encoded size announced by the first byte; [0] for a byte that cannot
    start an encoding (0x80-0xC1 and 0xF5-0xFF). *)
Definition seqLen (b0 : Z) : Z :=
  if b0 <? 128 then 1
  else if b0 <? 194 then 0
  else if b0 <? 224 then 2
  else if b0 <? 240 then 3
  else if b0 <? 245 then 4
  else 0.

(** [for _, c := range s]: the runes of [s] in order.  A byte that does not
    start a valid encoding yields [RuneError] and advances by one byte. *)
Fixpoint runes (s : string) : list Z :=
  match s with
  | EmptyString => []
  | String c0 r0 =>
      let b0 := byteZ c0 in
      let '(lo, hi) := acceptRange b0 in
      let bad := RuneError :: runes r0 in
      if seqLen b0 =? 1 then b0 :: runes r0
      else if seqLen b0 =? 0 then bad
      else
        match r0 with
        | EmptyString => bad
        | String c1 r1 =>
            if negb (isCont lo hi c1) then bad
            else if seqLen b0 =? 2 then
              (Z.shiftl (Z.land b0 31) 6 + contBits c1) :: runes r1
            else
              match r1 with
              | EmptyString => bad
              | String c2 r2 =>
                  if negb (isCont 128 191 c2) then bad
                  else if seqLen b0 =? 3 then
                    (Z.shiftl (Z.land b0 15) 12 + Z.shiftl (contBits c1) 6
                     + contBits c2) :: runes r2
                  else
                    match r2 with
                    | EmptyString => bad
                    | String c3 r3 =>
                        if negb (isCont 128 191 c3) then bad
                        else
                          (Z.shiftl (Z.land b0 7) 18
                           + Z.shiftl (contBits c1) 12
                           + Z.shiftl (contBits c2) 6 + contBits c3)
                          :: runes r3
                    end
              end
        end
  end.

Definition str1 (z : Z) : string := String (byteOf z) EmptyString.

(** [string(c)] for a rune [c]: its UTF-8 encoding; surrogates and values
    out of range encode as [RuneError]. *)
Definition runeString (c : Z) : string :=
  if (0 <=? c) && (c <? 128) then str1 c
  else if (128 <=? c) && (c <? 2048) then
    str1 (192 + Z.shiftr c 6) +:+ str1 (128 + Z.land c 63)
  else if (c <? 0) || (1114111 <? c) || ((55296 <=? c) && (c <=? 57343)) then
    str1 239 +:+ str1 191 +:+ str1 189
  else if c <? 65536 then
    str1 (224 + Z.shiftr c 12) +:+ str1 (128 + Z.land (Z.shiftr c 6) 63)
    +:+ str1 (128 + Z.land c 63)
  else
    str1 (240 + Z.shiftr c 18) +:+ str1 (128 + Z.land (Z.shiftr c 12) 63)
    +:+ str1 (128 + Z.land (Z.shiftr c 6) 63) +:+ str1 (128 + Z.land c 63).

(** [uint8(c)] for a rune [c]: the low eight bits. *)
Definition uint8 (c : Z) : Z := Z.land c 255.

(** ['/'], the path separator (the Unix build of package os). *)
Definition PathSeparator : Z := 47.

(** [os.IsPathSeparator(c)] *)
Definition IsPathSeparator (c : Z) : bool := c =? PathSeparator.

(** The loop of [filepath.Ext], scanning from the last byte backwards;
    [acc] is [path[i+1:]]. *)
Fixpoint extScan (rpath : list ascii) (acc : string) : string :=
  match rpath with
  | [] => ""
  | c :: rest =>
      if IsPathSeparator (byteZ c) then ""
      else if byteZ c =? 46 then String c acc
      else extScan rest (String c acc)
  end.

(** [filepath.Ext(path)]: the suffix beginning at the final dot of the
    final element of [path], empty if there is none. *)
Definition Ext (path : string) : string :=
  extScan (rev (list_ascii_of_string path)) "".

(** [strings.Split(s, "\n")], with [cur] the piece read so far. *)
Fixpoint splitLines (s : string) (cur : string) : list string :=
  match s with
  | EmptyString => [cur]
  | String c r =>
      if byteZ c =? 10 then cur :: splitLines r ""
      else splitLines r (cur +:+ String c "")
  end.

(** [strings.Join(elems, "\n")] *)
Fixpoint joinLines (elems : list string) : string :=
  match elems with
  | [] => ""
  | [e] => e
  | e :: rest => e +:+ String (byteOf 10) (joinLines rest)
  end.

End GoString.

(* ===================================================================== *)
(** * go/token and go/ast: the syntax the analyzer walks *)
(* ===================================================================== *)

(** Pointers are compared by address only: an address stands for the node. *)
Definition ptr := Z.

Module token.

(** [token.Pos] *)
Definition Pos := Z.
Definition NoPos : Pos := 0.

(** [token.Position] *)
Record Position := {
  Filename : string;
  Offset : Z;
  Line : Z;
  Column : Z;
}.

(** A [*token.FileSet], seen through its [Position] method. *)
Definition FileSet := Pos -> Position.

Inductive Token := IMPORT | CONST | TYPE | VAR.

End token.

Module ast.

(** [*ast.Ident] *)
Record Ident := {
  IdentPtr : ptr;
  NamePos : token.Pos;
  Name : string;
}.

(** [*ast.Comment]: [Text] includes the comment markers. *)
Record Comment := {
  Slash : token.Pos;
  Text : string;
}.

(** [*ast.CommentGroup]: [List], of which go/ast documents [len(List) > 0]. *)
Record CommentGroup := {
  ListHead : Comment;
  ListTail : list Comment;
}.

Definition List (g : CommentGroup) : list Comment := ListHead g :: ListTail g.

(** [g.Pos()] is [g.List[0].Pos()]. *)
Definition CommentGroup_Pos (g : CommentGroup) : token.Pos := Slash (ListHead g).

(** [ast.Node].  The kinds the analyzer dispatches on have their own
    constructor, with the fields it reads and the sub-nodes in the order
    [ast.Walk] visits them; every other kind of node is an [OtherNode] with
    its sub-nodes.  Where the analyzer asks a node for [Pos()] or [End()],
    the answer is a field of the node.  A nil [Field.Type] is an
    [OtherNode] without sub-nodes. *)
Inductive Node : Type :=
| EIdent (i : Ident)
| StarExpr (X : Node)
| SelectorExpr (p : ptr) (X : Node) (Sel : Ident)
| IndexExpr (X : Node) (Index : Node)
| IndexListExpr (X : Node) (Indices : list Node)
| CallExpr (CallPos : token.Pos) (Fun : Node) (Args : list Node)
| StructType (Fields : list Field)
| InterfaceType (Methods : list Field)
| TypeSpec (Doc : option CommentGroup) (TName : Ident)
           (TypeParams : list Field) (Typ : Node) (TEnd : token.Pos)
| GenDecl (Doc : option CommentGroup) (Tok : token.Token) (Specs : list Node)
| FuncDecl (Doc : option CommentGroup) (Recv : option (list Field))
           (FName : Ident) (TypeParams : list Field)
           (Params : option (list Field)) (Results : list Field)
           (Body : option Node) (FPos FEnd : token.Pos)
| OtherNode (children : list Node)
with Field : Type :=
| mkField (Names : list Ident) (FType : Node).

Definition Names (f : Field) : list Ident := let 'mkField ns _ := f in ns.
Definition FType (f : Field) : Node := let 'mkField _ t := f in t.

(** [*ast.File] *)
Record File := {
  Package : token.Pos;
  FileName : Ident;
  Decls : list Node;
}.

(** [f.Pos()] *)
Definition File_Pos (f : File) : token.Pos := Package f.

(** The nodes on which [ast.Inspect(n, f)] calls [f], in order, for an [f]
    that always returns true: [n] itself, then its sub-nodes depth first.
    (The calls [f(nil)] and the calls on comments, fields and field lists
    are left out: no callback of the analyzer acts on them.) *)
Fixpoint Inspect (n : Node) : list Node :=
  n ::
  match n with
  | EIdent _ => []
  | StarExpr x => Inspect x
  | SelectorExpr _ x sel => Inspect x ++ [EIdent sel]
  | IndexExpr x i => Inspect x ++ Inspect i
  | IndexListExpr x l => Inspect x ++ flat_map Inspect l
  | CallExpr _ f args => Inspect f ++ flat_map Inspect args
  | StructType fs => flat_map InspectField fs
  | InterfaceType ms => flat_map InspectField ms
  | TypeSpec _ name tps t _ =>
      EIdent name :: flat_map InspectField tps ++ Inspect t
  | GenDecl _ _ specs => flat_map Inspect specs
  | FuncDecl _ recv name tps params results body _ _ =>
      match recv with Some l => flat_map InspectField l | None => [] end
      ++ EIdent name
      :: flat_map InspectField tps
      ++ match params with Some l => flat_map InspectField l | None => [] end
      ++ flat_map InspectField results
      ++ match body with Some b => Inspect b | None => [] end
  | OtherNode cs => flat_map Inspect cs
  end
with InspectField (f : Field) : list Node :=
  match f with
  | mkField names t => map EIdent names ++ Inspect t
  end.

(** [ast.Inspect(file, f)] *)
Definition InspectFile (f : File) : list Node :=
  EIdent (FileName f) :: flat_map Inspect (Decls f).

(** ** The [Text] method of a comment group *)

Definition isWhitespace (ch : ascii) : bool :=
  let b := GoString.byteZ ch in
  (b =? 32) || (b =? 9) || (b =? 10) || (b =? 13).

(** [stripTrailingWhitespace], on the reversed string. *)
Fixpoint dropLeadingWhitespace (r : list ascii) : list ascii :=
  match r with
  | c :: rest => if isWhitespace c then dropLeadingWhitespace rest else r
  | [] => []
  end.

Definition stripTrailingWhitespace (s : string) : string :=
  string_of_list_ascii
    (rev (dropLeadingWhitespace (rev (list_ascii_of_string s)))).

Definition isLowerOrDigit (ch : ascii) : bool :=
  let b := GoString.byteZ ch in
  ((97 <=? b) && (b <=? 122)) || ((48 <=? b) && (b <=? 57)).

(** The test [//[a-z0-9]+:[a-z0-9]] of [isDirective]: [seen] tells whether
    a character came before the colon. *)
Fixpoint directiveShape (c : string) (seen : bool) : bool :=
  match c with
  | String ch rest =>
      if GoString.byteZ ch =? 58 then
        seen && match rest with
                | String nx _ => isLowerOrDigit nx
                | EmptyString => false
                end
      else isLowerOrDigit ch && directiveShape rest true
  | EmptyString => false
  end.

(** [isDirective(c)], for [c] without its leading [//]. *)
Definition isDirective (c : string) : bool :=
  GoString.HasPrefix c "line " || GoString.HasPrefix c "extern "
  || GoString.HasPrefix c "export " || directiveShape c false.

(** What one comment contributes before the lines are split: the text
    without its markers, or nothing for a directive. *)
Definition unmarked (c : string) : option string :=
  match c with
  | String _ (String m body) =>
      if GoString.byteZ m =? 47 then
        match body with
        | EmptyString => Some ""
        | String sp rest =>
            if GoString.byteZ sp =? 32 then Some rest
            else if isDirective body then None
            else Some body
        end
      else if GoString.byteZ m =? 42 then
        Some (GoString.slice body 0 (GoString.len body - 2))
      else Some c
  | _ => Some c
  end.

Definition commentLines (c : Comment) : list string :=
  match unmarked (Text c) with
  | Some body => map stripTrailingWhitespace (GoString.splitLines body "")
  | None => []
  end.

(** Leading blank lines go, runs of blank lines shrink to one: a line is
    kept when it is not blank or when the last line kept is not blank. *)
Definition keepLine (kept : list string) (line : string) : list string :=
  if negb (String.eqb line "")
     || match List.last kept "" with "" => false | _ => true end
  then kept ++ [line] else kept.

Definition CommentGroup_Text (g : CommentGroup) : string :=
  let lines := flat_map commentLines (List g) in
  let kept := fold_left keepLine lines [] in
  let kept :=
    match List.last kept "" with
    | "" => kept
    | _ => kept ++ [""]
    end in
  GoString.joinLines kept.

(** [g.Text()] of a possibly nil group. *)
Definition Doc_Text (g : option CommentGroup) : string :=
  match g with Some g => CommentGroup_Text g | None => "" end.

End ast.

(* ===================================================================== *)
(** * go/types, go/packages and the output model *)
(* ===================================================================== *)

Module types.

(** [*types.Package], with the value of its [Name] method. *)
Record Package := {
  PackagePtr : ptr;
  PackageName : string;
}.

(** [pkg == typePkg] compares pointers. *)
Definition Package_eqb (p q : Package) : bool :=
  Z.eqb (PackagePtr p) (PackagePtr q).

(** [types.Type]: pointers and signatures have structure the analyzer
    looks into; the other types are only ever printed. *)
Inductive Type_ : Type :=
| Pointer (Elem : Type_)
| Signature (Recv : option Type_)
| Named (pkg : option Package) (name : string)
| OtherType (repr : string).

(** [*types.Func], with the values of its methods. *)
Record Func := {
  Func_Pos : token.Pos;
  Func_Name : string;
  Func_Pkg : option Package;
  Func_Type : Type_;
}.

(** [types.Object], by dynamic type. *)
Inductive Object : Type :=
| FuncObj (fn : Func)
| Builtin
| PkgName
| OtherObj.

(** [*types.Selection] *)
Record Selection := {
  Selection_Obj : Object;
  Selection_Recv : Type_;
}.

(** [*types.Info]: the two maps the analyzer reads, keyed by node. *)
Record Info := {
  Uses : gmap ptr Object;
  Selections : gmap ptr Selection;
}.

End types.

Module packages.

(** [*packages.Package] *)
Record Package := {
  Syntax : list ast.File;
  TypesInfo : option types.Info;
  Types : option types.Package;
}.

End packages.

Module models.

Record Node := {
  ID : string;
  Name : string;
  ComponentType : string;
  FilePath : string;
  RelativePath : string;
  DependsOn : list string;
  SourceCode : string;
  StartLine : Z;
  EndLine : Z;
  HasDocstring : bool;
  Docstring : string;
  Parameters : list string;
  NodeType : string;
  BaseClasses : list string;
  ClassName : string;
  DisplayName : string;
  ComponentID : string;
}.

Record CallRelationship := {
  Caller : string;
  Callee : string;
  CallLine : Z;
  IsResolved : bool;
  RelationshipType : string;
}.

End models.

(* ===================================================================== *)
(** * Outcomes: a value, a returned error, or a run-time panic *)
(* ===================================================================== *)

Inductive result (A : Type) : Type :=
| Ok (x : A)
| Failed (err : string)
| Panic.

Arguments Ok {A} x.
Arguments Failed {A} err.
Arguments Panic {A}.

#[global] Instance result_ret : MRet result := fun A x => Ok x.

#[global] Instance result_bind : MBind result := fun A B f m =>
  match m with
  | Ok x => f x
  | Failed e => Failed e
  | Panic => Panic
  end.

(** [for _, x := range l { ... }] with a body that may fail. *)
Fixpoint forM {A S : Type} (body : A -> S -> result S) (l : list A) (s : S)
  : result S :=
  match l with
  | [] => Ok s
  | x :: rest => s' ← body x s; forM body rest s'
  end.

(* ===================================================================== *)
(** * What the analyzer gets from outside *)
(* ===================================================================== *)

(** The operating system, the package loader and the run time, as far as the
    analyzer relies on them.  An absent result is a returned error.
    [moduleRoots] is what [findModuleRoots] finds on disk, [loadedFileSet]
    the analyzer's file set once the loader has entered the files in it.
    The order in which [range] goes over a map is the run time's choice,
    made anew for each loop: [mapRange i m] is the order of the [i]-th
    loop. *)
Class Env := {
  filepath_Abs : string -> option string;
  filepath_Rel : string -> string -> option string;
  filepath_Clean : string -> string;
  os_ReadFile : string -> result string;
  types_TypeString : types.Type_ -> (types.Package -> string) -> string;
  moduleRoots : string -> result (list string);
  packages_Load : string -> result (list packages.Package);
  loadedFileSet : token.FileSet;
  mapRange : forall {V : Type}, nat -> gmap string V -> list (string * V);
  mapRange_perm : forall (V : Type) (i : nat) (m : gmap string V),
      mapRange i m ≡ₚ map_to_list m;
}.

(* ===================================================================== *)
(** * Package analyzer *)
(* ===================================================================== *)

Module analyzer.

Import GoString.

Record GoAnalyzer := {
  RepoPath : string;
  RepoAbs : string;
  FileSet : token.FileSet;
  Nodes : list models.Node;
  Relationships : list models.CallRelationship;
  CollectedNodeIDs : gmap string bool;
}.

Record fileInfo := {
  file : ast.File;
  info : option types.Info;
  pkg : option types.Package;
  content : string;
}.

(** [m[key]] for a [map[string]bool]: false for a missing key. *)
Definition lookupID (m : gmap string bool) (key : string) : bool :=
  default false (m !! key).

(** [a.CollectedNodeIDs[id] = true] *)
Definition registerID (id : string) (a : GoAnalyzer) : GoAnalyzer :=
  {| RepoPath := RepoPath a; RepoAbs := RepoAbs a; FileSet := FileSet a;
     Nodes := Nodes a; Relationships := Relationships a;
     CollectedNodeIDs := <[id := true]> (CollectedNodeIDs a) |}.

(** [a.Nodes = append(a.Nodes, node)] *)
Definition appendNode (node : models.Node) (a : GoAnalyzer) : GoAnalyzer :=
  {| RepoPath := RepoPath a; RepoAbs := RepoAbs a; FileSet := FileSet a;
     Nodes := Nodes a ++ [node]; Relationships := Relationships a;
     CollectedNodeIDs := CollectedNodeIDs a |}.

(** [a.Relationships = append(a.Relationships, rel)] *)
Definition appendRel (rel : models.CallRelationship) (a : GoAnalyzer)
  : GoAnalyzer :=
  {| RepoPath := RepoPath a; RepoAbs := RepoAbs a; FileSet := FileSet a;
     Nodes := Nodes a; Relationships := Relationships a ++ [rel];
     CollectedNodeIDs := CollectedNodeIDs a |}.

Definition isTestFile (path : string) : bool := HasSuffix path "_test.go".

Definition builtinFuncs : list string :=
  [ "append"; "cap"; "clear"; "close"; "complex";
    "copy"; "delete"; "imag"; "len"; "max"; "min";
    "make"; "new"; "panic"; "print"; "println";
    "real"; "recover" ].

Definition builtinTypes : list string :=
  [ "bool"; "byte"; "complex64"; "complex128";
    "error"; "float32"; "float64";
    "int"; "int8"; "int16"; "int32"; "int64";
    "rune"; "string";
    "uint"; "uint8"; "uint16"; "uint32"; "uint64"; "uintptr";
    "any"; "comparable" ].

Definition builtinConsts : list string := [ "true"; "false"; "nil"; "iota" ].

(** The three tables map their keys to true: a lookup is a membership
    test. *)
Definition isBuiltin (name : string) : bool :=
  existsb (String.eqb name) builtinFuncs
  || existsb (String.eqb name) builtinTypes
  || existsb (String.eqb name) builtinConsts.

Fixpoint typeToString (expr : ast.Node) : string :=
  match expr with
  | ast.EIdent t => ast.Name t
  | ast.StarExpr x => "*" +:+ typeToString x
  | ast.SelectorExpr _ x sel => typeToString x +:+ "." +:+ ast.Name sel
  | ast.IndexExpr x index =>
      typeToString x +:+ "[" +:+ typeToString index +:+ "]"
  | ast.IndexListExpr x indices =>
      let indices :=
        (fix loop (first : bool) (l : list ast.Node) : string :=
           match l with
           | [] => ""
           | idx :: rest =>
               (if first then "" else ", ") +:+ typeToString idx
               +:+ loop false rest
           end) true indices in
      typeToString x +:+ "[" +:+ indices +:+ "]"
  | _ => ""
  end.

(** [if len(typeStr) > 0 && typeStr[0] == '*' { typeStr[1:] } else { typeStr }] *)
Definition stripStar (typeStr : string) : string :=
  match typeStr with
  | String c rest => if byteZ c =? 42 then rest else typeStr
  | EmptyString => typeStr
  end.

(** [s[lo:hi]] of a byte slice: a run-time panic unless
    [0 <= lo <= hi <= cap(s)].  The capacity is not modelled; the length,
    which never exceeds it, stands in for it. *)
Definition sliceBytes (s : string) (lo hi : Z) : result string :=
  if (0 <=? lo) && (lo <=? hi) && (hi <=? len s)
  then Ok (slice s lo hi) else Panic.

(** The "Capture source code" step shared by [visitTypeSpec] and
    [visitFuncDecl]: [sourceCode] stays empty unless the guard holds. *)
Definition captureSource (content : string) (startOffset endOffset : Z)
  : result string :=
  if (startOffset >=? 0) && (endOffset <=? len content)
     && (startOffset <=? endOffset)
  then sliceBytes content startOffset endOffset
  else Ok "".

Section WithEnv.

Context {E : Env}.

(** [relPath, _ := filepath.Rel(base, target)]: empty on error. *)
Definition relOrEmpty (base target : string) : string :=
  default "" (filepath_Rel base target).

(** The loop of [getComponentIDForFile] that builds [modulePath]. *)
Definition modulePath (pathNoExt : string) : string :=
  fold_left
    (fun modulePath c =>
       if IsPathSeparator (uint8 c) then modulePath +:+ "."
       else modulePath +:+ runeString c)
    (runes pathNoExt) "".

Definition getComponentIDForFile (a : GoAnalyzer)
    (filePath name receiverType : string) : string :=
  let relPath := relOrEmpty (RepoAbs a) filePath in
  let ext := Ext relPath in
  let pathNoExt := slice relPath 0 (len relPath - len ext) in
  let modulePath := modulePath pathNoExt in
  if negb (String.eqb receiverType "") then
    modulePath +:+ "." +:+ receiverType +:+ "." +:+ name
  else modulePath +:+ "." +:+ name.

(** [absPath, err := filepath.Abs(filename); if err == nil { filename = absPath }] *)
Definition absOrSame (filename : string) : string :=
  default filename (filepath_Abs filename).

(** [a.FileSet] is set by [NewGoAnalyzer] and never nil. *)
Definition getComponentIDForPos (a : GoAnalyzer) (pos : token.Pos)
    (name receiverType : string) : string :=
  if pos =? token.NoPos then ""
  else
    let filename := token.Filename (FileSet a pos) in
    if String.eqb filename "" then ""
    else getComponentIDForFile a (absOrSame filename) name receiverType.

Definition isPathInRepo (repoAbs path : string) : bool :=
  let repoAbs := filepath_Clean repoAbs in
  let path := filepath_Clean path in
  if String.eqb repoAbs path then true
  else HasPrefix path (repoAbs +:+ str1 PathSeparator).

Definition isPosInRepo (a : GoAnalyzer) (pos : token.Pos) : bool :=
  if pos =? token.NoPos then false
  else
    let filename := token.Filename (FileSet a pos) in
    if String.eqb filename "" then false
    else isPathInRepo (RepoAbs a) (absOrSame filename).

(** [ts] is given by its fields [Doc], [Name], [Type] and its [End()]. *)
Definition visitTypeSpec (tsDoc : option ast.CommentGroup)
    (tsName : ast.Ident) (tsType : ast.Node) (tsEnd : token.Pos)
    (genDeclDoc : option ast.CommentGroup) (filePath content : string)
    (a : GoAnalyzer) : result GoAnalyzer :=
  match
    match tsType with
    | ast.InterfaceType _ => Some "interface"
    | ast.StructType _ => Some "struct"
    | _ => None
    end
  with
  | None => Ok a
  | Some nodeType =>
      let relativePath := relOrEmpty (RepoAbs a) filePath in
      let componentID := getComponentIDForFile a filePath (ast.Name tsName) "" in
      let startPos := FileSet a (ast.NamePos tsName) in
      let endPos := FileSet a tsEnd in
      let doc := match tsDoc with Some d => Some d | None => genDeclDoc end in
      let startOffset :=
        match doc with
        | Some d => token.Offset (FileSet a (ast.CommentGroup_Pos d))
        | None => token.Offset startPos
        end in
      let endOffset := token.Offset endPos in
      sourceCode ← captureSource content startOffset endOffset;
      let node :=
        {| models.ID := componentID;
           models.Name := ast.Name tsName;
           models.ComponentType := "class";
           models.FilePath := filePath;
           models.RelativePath := relativePath;
           models.DependsOn := [];
           models.SourceCode := sourceCode;
           models.StartLine := token.Line startPos;
           models.EndLine := token.Line endPos;
           models.HasDocstring :=
             match doc with Some _ => true | None => false end;
           models.Docstring := ast.Doc_Text doc;
           models.Parameters := [];
           models.NodeType := nodeType;
           models.BaseClasses := [];
           models.ClassName := "";
           models.DisplayName := nodeType +:+ " " +:+ ast.Name tsName;
           models.ComponentID := componentID |} in
      Ok (appendNode node (registerID componentID a))
  end.

(** The receiver loop of [visitFuncDecl]: the last field decides. *)
Definition recvTypeOf (fields : list ast.Field) : string :=
  fold_left (fun _ field => stripStar (typeToString (ast.FType field)))
            fields "".

(** The receiver loop of [visitFuncBodyForCalls]: [(recvName, recvType)]. *)
Definition recvOf (fields : list ast.Field) : string * string :=
  fold_left
    (fun '(recvName, _) field =>
       let recvType := stripStar (typeToString (ast.FType field)) in
       match ast.Names field with
       | n :: _ => (ast.Name n, recvType)
       | [] => (recvName, recvType)
       end)
    fields ("", "").

(** [fn] is given by its fields [Doc], [Recv], [Name], [Type.Params] and
    its [Pos()] and [End()]. *)
Definition visitFuncDecl (fnDoc : option ast.CommentGroup)
    (fnRecv : option (list ast.Field)) (fnName : ast.Ident)
    (fnParams : option (list ast.Field)) (fnPos fnEnd : token.Pos)
    (filePath content : string) (a : GoAnalyzer) : result GoAnalyzer :=
  let relativePath := relOrEmpty (RepoAbs a) filePath in
  let startPos := FileSet a fnPos in
  let endPos := FileSet a fnEnd in
  let '(componentID, className, displayName) :=
    match fnRecv with
    | Some fields =>
        let recvType := recvTypeOf fields in
        (getComponentIDForFile a filePath (ast.Name fnName) recvType,
         recvType,
         "method " +:+ recvType +:+ "." +:+ ast.Name fnName)
    | None =>
        (getComponentIDForFile a filePath (ast.Name fnName) "",
         "",
         "func " +:+ ast.Name fnName)
    end in
  let componentType :=
    match fnRecv with Some _ => "method" | None => "function" end in
  let nodeType :=
    match fnRecv with Some _ => "method" | None => "function" end in
  let startOffset :=
    match fnDoc with
    | Some d => token.Offset (FileSet a (ast.CommentGroup_Pos d))
    | None => token.Offset startPos
    end in
  let endOffset := token.Offset endPos in
  sourceCode ← captureSource content startOffset endOffset;
  let params :=
    match fnParams with
    | Some l => flat_map (fun p => map ast.Name (ast.Names p)) l
    | None => []
    end in
  let node :=
    {| models.ID := componentID;
       models.Name := ast.Name fnName;
       models.ComponentType := componentType;
       models.FilePath := filePath;
       models.RelativePath := relativePath;
       models.DependsOn := [];
       models.SourceCode := sourceCode;
       models.StartLine := token.Line startPos;
       models.EndLine := token.Line endPos;
       models.HasDocstring :=
         match fnDoc with Some _ => true | None => false end;
       models.Docstring := ast.Doc_Text fnDoc;
       models.Parameters := params;
       models.NodeType := nodeType;
       models.BaseClasses := [];
       models.ClassName := className;
       models.DisplayName := displayName;
       models.ComponentID := componentID |} in
  Ok (appendNode node (registerID componentID a)).

(** The callback of [collectNodes], called on node [n]. *)
Definition collectNode (filePath content : string) (n : ast.Node)
    (a : GoAnalyzer) : result GoAnalyzer :=
  match n with
  | ast.GenDecl doc tok specs =>
      match tok with
      | token.TYPE =>
          forM (fun spec a =>
                  match spec with
                  | ast.TypeSpec tsDoc tsName _ tsType tsEnd =>
                      visitTypeSpec tsDoc tsName tsType tsEnd doc
                                    filePath content a
                  | _ => Ok a
                  end) specs a
      | _ => Ok a
      end
  | ast.FuncDecl doc recv name _ params _ _ fpos fend =>
      visitFuncDecl doc recv name params fpos fend filePath content a
  | _ => Ok a
  end.

Definition collectNodes (filePath : string) (info : fileInfo)
    (a : GoAnalyzer) : result GoAnalyzer :=
  forM (collectNode filePath (content info))
       (ast.InspectFile (file info)) a.

Definition receiverTypeString (t : types.Type_) : string :=
  match t with
  | types.Signature sigRecv =>
      match sigRecv with
      | None => ""
      | Some recvType =>
          let recvType :=
            match recvType with
            | types.Pointer elem => elem
            | _ => recvType
            end in
          types_TypeString recvType (fun _ => "")
      end
  | _ => ""
  end.

(** [call] is given by its field [Fun]. *)
Definition resolveCallWithTypes (a : GoAnalyzer) (callFun : ast.Node)
    (typeInfo : types.Info) (typePkg : types.Package)
  : string * bool * bool :=
  match callFun with
  | ast.EIdent fun_ =>
      match types.Uses typeInfo !! ast.IdentPtr fun_ with
      | Some (types.FuncObj fn) =>
          let calleeName :=
            getComponentIDForPos a (types.Func_Pos fn) (types.Func_Name fn) "" in
          if negb (String.eqb calleeName "")
             && isPosInRepo a (types.Func_Pos fn)
          then (calleeName, lookupID (CollectedNodeIDs a) calleeName, true)
          else
            match types.Func_Pkg fn with
            | Some p =>
                (types.PackageName p +:+ "." +:+ types.Func_Name fn,
                 false, true)
            | None => (types.Func_Name fn, false, true)
            end
      | Some types.Builtin => (ast.Name fun_, false, true)
      | _ => ("", false, false)
      end
  | ast.SelectorExpr funPtr x sel_ =>
      match types.Selections typeInfo !! funPtr with
      | Some sel =>
          match types.Selection_Obj sel with
          | types.FuncObj fn =>
              let recvType := receiverTypeString (types.Func_Type fn) in
              let calleeName :=
                getComponentIDForPos a (types.Func_Pos fn)
                                     (types.Func_Name fn) recvType in
              if negb (String.eqb calleeName "")
                 && isPosInRepo a (types.Func_Pos fn)
              then (calleeName, lookupID (CollectedNodeIDs a) calleeName, true)
              else
                let recvStr :=
                  types_TypeString (types.Selection_Recv sel)
                    (fun pkg =>
                       if types.Package_eqb pkg typePkg then ""
                       else types.PackageName pkg) in
                (recvStr +:+ "." +:+ types.Func_Name fn, false, true)
          | _ => ("", false, false)
          end
      | None =>
          match x with
          | ast.EIdent xIdent =>
              match types.Uses typeInfo !! ast.IdentPtr xIdent with
              | Some types.PkgName =>
                  match types.Uses typeInfo !! ast.IdentPtr sel_ with
                  | Some (types.FuncObj fn) =>
                      let calleeName :=
                        getComponentIDForPos a (types.Func_Pos fn)
                                             (types.Func_Name fn) "" in
                      if negb (String.eqb calleeName "")
                         && isPosInRepo a (types.Func_Pos fn)
                      then (calleeName,
                            lookupID (CollectedNodeIDs a) calleeName, true)
                      else
                        (ast.Name xIdent +:+ "." +:+ types.Func_Name fn,
                         false, true)
                  | _ => ("", false, false)
                  end
              | _ => ("", false, false)
              end
          | _ => ("", false, false)
          end
      end
  | _ => ("", false, false)
  end.

(** The callee name of the second half of [processCall], which works
    from the syntax alone. *)
Definition heuristicCallee (a : GoAnalyzer) (recvName recvType : string)
    (callFun : ast.Node) (filePath : string) : string :=
  match callFun with
  | ast.EIdent fun_ =>
      let calleeName := ast.Name fun_ in
      if negb (isBuiltin calleeName)
      then getComponentIDForFile a filePath calleeName ""
      else calleeName
  | ast.SelectorExpr _ (ast.EIdent xIdent) sel_ =>
      if negb (String.eqb recvName "") && negb (String.eqb recvType "")
         && String.eqb (ast.Name xIdent) recvName
      then getComponentIDForFile a filePath (ast.Name sel_) recvType
      else ast.Name xIdent +:+ "." +:+ ast.Name sel_
  | _ => ""
  end.

Definition mkRel (a : GoAnalyzer) (callerID calleeName : string)
    (callPos : token.Pos) (resolved : bool) : models.CallRelationship :=
  {| models.Caller := callerID;
     models.Callee := calleeName;
     models.CallLine := token.Line (FileSet a callPos);
     models.IsResolved := resolved;
     models.RelationshipType := "calls" |}.

(** [call] is given by its [Pos()] and its field [Fun]. *)
Definition processCall (callerID recvName recvType : string)
    (callPos : token.Pos) (callFun : ast.Node)
    (typeInfo : option types.Info) (typePkg : option types.Package)
    (filePath : string) (a : GoAnalyzer) : GoAnalyzer :=
  let heuristic :=
    let calleeName := heuristicCallee a recvName recvType callFun filePath in
    if negb (String.eqb calleeName "")
    then appendRel (mkRel a callerID calleeName callPos
                          (lookupID (CollectedNodeIDs a) calleeName)) a
    else a in
  match typeInfo, typePkg with
  | Some typeInfo, Some typePkg =>
      let '(calleeName, resolved, ok) :=
        resolveCallWithTypes a callFun typeInfo typePkg in
      if ok then
        if negb (String.eqb calleeName "")
        then appendRel (mkRel a callerID calleeName callPos resolved) a
        else a
      else heuristic
  | _, _ => heuristic
  end.

(** The callback of the inner [ast.Inspect] of [visitFuncBodyForCalls]. *)
Definition visitCall (callerID recvName recvType : string)
    (typeInfo : option types.Info) (typePkg : option types.Package)
    (filePath : string) (a : GoAnalyzer) (n : ast.Node) : GoAnalyzer :=
  match n with
  | ast.CallExpr callPos callFun _ =>
      processCall callerID recvName recvType callPos callFun
                  typeInfo typePkg filePath a
  | _ => a
  end.

(** [fn] is given by its fields [Recv], [Name] and [Body]. *)
Definition visitFuncBodyForCalls (fnRecv : option (list ast.Field))
    (fnName : ast.Ident) (fnBody : option ast.Node) (filePath : string)
    (typeInfo : option types.Info) (typePkg : option types.Package)
    (a : GoAnalyzer) : GoAnalyzer :=
  match fnBody with
  | None => a
  | Some body =>
      let '(callerID, recvName, recvType) :=
        match fnRecv with
        | Some fields =>
            let '(recvName, recvType) := recvOf fields in
            (getComponentIDForFile a filePath (ast.Name fnName) recvType,
             recvName, recvType)
        | None =>
            (getComponentIDForFile a filePath (ast.Name fnName) "", "", "")
        end in
      fold_left (visitCall callerID recvName recvType typeInfo typePkg filePath)
                (ast.Inspect body) a
  end.

(** The callback of [collectCalls], called on node [n]. *)
Definition collectCall (filePath : string) (info : fileInfo)
    (a : GoAnalyzer) (n : ast.Node) : GoAnalyzer :=
  match n with
  | ast.FuncDecl _ recv name _ _ _ body _ _ =>
      visitFuncBodyForCalls recv name body filePath
                            (analyzer.info info) (pkg info) a
  | _ => a
  end.

Definition collectCalls (filePath : string) (info : fileInfo)
    (a : GoAnalyzer) : GoAnalyzer :=
  fold_left (collectCall filePath info) (ast.InspectFile (file info)) a.

(** One round of the innermost loop of [Analyze], for [file] of [pkg]:
    the file is skipped, or read and entered under its name. *)
Definition addFile (a : GoAnalyzer) (pkg : packages.Package)
    (file : ast.File) (fileInfos : gmap string fileInfo)
  : result (gmap string fileInfo) :=
  let filename := token.Filename (FileSet a (ast.File_Pos file)) in
  if String.eqb filename "" || isTestFile filename then Ok fileInfos
  else
    let filename := absOrSame filename in
    if negb (isPathInRepo (RepoAbs a) filename) then Ok fileInfos
    else
      match fileInfos !! filename with
      | Some _ => Ok fileInfos
      | None =>
          content ← os_ReadFile filename;
          Ok (<[filename :=
                  {| file := file;
                     info := packages.TypesInfo pkg;
                     pkg := packages.Types pkg;
                     content := content |}]> fileInfos)
      end.

Definition addPackage (a : GoAnalyzer) (pkg : packages.Package)
    (fileInfos : gmap string fileInfo) : result (gmap string fileInfo) :=
  forM (addFile a pkg) (packages.Syntax pkg) fileInfos.

Definition addRoot (a : GoAnalyzer) (root : string)
    (fileInfos : gmap string fileInfo) : result (gmap string fileInfo) :=
  pkgs ← packages_Load root;
  forM (addPackage a) pkgs fileInfos.

(** The first part of [Analyze]: the files to analyze. *)
Definition gatherFiles (a : GoAnalyzer) : result (gmap string fileInfo) :=
  moduleRoots ← moduleRoots (RepoAbs a);
  let moduleRoots :=
    match moduleRoots with [] => [RepoAbs a] | _ => moduleRoots end in
  forM (addRoot a) moduleRoots ∅.

(** "First pass: Collect nodes". *)
Definition firstPass (files : list (string * fileInfo)) (a : GoAnalyzer)
  : result GoAnalyzer :=
  forM (fun '(filename, info) => collectNodes filename info) files a.

(** "Second pass: Collect relationships". *)
Definition secondPass (files : list (string * fileInfo)) (a : GoAnalyzer)
  : GoAnalyzer :=
  fold_left (fun a '(filename, info) => collectCalls filename info a)
            files a.

(** [Analyze]: the analyzer it leaves behind, or the error it returns
    (in which case the analyzer is as it was). *)
Definition Analyze (a : GoAnalyzer) : result GoAnalyzer :=
  fileInfos ← gatherFiles a;
  a ← firstPass (mapRange 0 fileInfos) a;
  Ok (secondPass (mapRange 1 fileInfos) a).

End WithEnv.

Definition NewGoAnalyzer {E : Env} (repoPath : string) : result GoAnalyzer :=
  match filepath_Abs repoPath with
  | None => Failed "filepath.Abs"
  | Some repoAbs =>
      Ok {| RepoPath := repoPath; RepoAbs := repoAbs;
            FileSet := loadedFileSet;
            Nodes := []; Relationships := []; CollectedNodeIDs := ∅ |}
  end.

End analyzer.

(* ===================================================================== *)
(** * The analyzer of one file (analyzer/analyzer.go) *)
(* ===================================================================== *)

(** The earlier analyzer works on one file, named when the analyzer is made,
    and has no type facts.  Its identifier scheme, its visit of a type and its
    treatment of a call are modelled here, next to those of the analyzer of a
    repository. *)
Module analyzer1.

Import GoString.

Record GoAnalyzer := {
  FilePath : string;
  Content : string;
  RepoPath : string;
  FileSet : token.FileSet;
  Nodes : list models.Node;
  Relationships : list models.CallRelationship;
  PackageName : string;
  CollectedNodeIDs : gmap string bool;
}.

(** [a.CollectedNodeIDs[id] = true] *)
Definition registerID (id : string) (a : GoAnalyzer) : GoAnalyzer :=
{| FilePath := FilePath a; Content := Content a; RepoPath := RepoPath a;
   FileSet := FileSet a; Nodes := Nodes a; Relationships := Relationships a;
   PackageName := PackageName a;
   CollectedNodeIDs := <[id := true]> (CollectedNodeIDs a) |}.

(** [a.Nodes = append(a.Nodes, node)] *)
Definition appendNode (node : models.Node) (a : GoAnalyzer) : GoAnalyzer :=
{| FilePath := FilePath a; Content := Content a; RepoPath := RepoPath a;
   FileSet := FileSet a; Nodes := Nodes a ++ [node];
   Relationships := Relationships a; PackageName := PackageName a;
   CollectedNodeIDs := CollectedNodeIDs a |}.

(** [a.Relationships = append(a.Relationships, rel)] *)
Definition appendRel (rel : models.CallRelationship) (a : GoAnalyzer)
  : GoAnalyzer :=
{| FilePath := FilePath a; Content := Content a; RepoPath := RepoPath a;
   FileSet := FileSet a; Nodes := Nodes a;
   Relationships := Relationships a ++ [rel]; PackageName := PackageName a;
   CollectedNodeIDs := CollectedNodeIDs a |}.

Section WithEnv.

Context {E : Env}.

Definition getComponentID (a : GoAnalyzer) (name receiverType : string)
  : string :=
  let relPath := analyzer.relOrEmpty (RepoPath a) (FilePath a) in
  let ext := Ext relPath in
  let pathNoExt := slice relPath 0 (len relPath - len ext) in
  let modulePath := analyzer.modulePath pathNoExt in
  if negb (String.eqb receiverType "") then
    modulePath +:+ "." +:+ receiverType +:+ "." +:+ name
  else modulePath +:+ "." +:+ name.

(** [ts] is given by its fields [Doc], [Name], [Type] and its [End()]. *)
Definition visitTypeSpec (tsDoc : option ast.CommentGroup)
    (tsName : ast.Ident) (tsType : ast.Node) (tsEnd : token.Pos)
    (genDeclDoc : option ast.CommentGroup) (a : GoAnalyzer)
  : result GoAnalyzer :=
  match
    match tsType with
    | ast.InterfaceType _ => Some "interface"
    | ast.StructType _ => Some "struct"
    | _ => None
    end
  with
  | None => Ok a
  | Some nodeType =>
      let relativePath := analyzer.relOrEmpty (RepoPath a) (FilePath a) in
      let componentID := getComponentID a (ast.Name tsName) "" in
      let startPos := FileSet a (ast.NamePos tsName) in
      let endPos := FileSet a tsEnd in
      let doc := match tsDoc with Some d => Some d | None => genDeclDoc end in
      let startOffset :=
        match doc with
        | Some d => token.Offset (FileSet a (ast.CommentGroup_Pos d))
        | None => token.Offset startPos
        end in
      let endOffset := token.Offset endPos in
      sourceCode ← analyzer.captureSource (Content a) startOffset endOffset;
      let node :=
        {| models.ID := componentID;
           models.Name := ast.Name tsName;
           models.ComponentType := "class";
           models.FilePath := FilePath a;
           models.RelativePath := relativePath;
           models.DependsOn := [];
           models.SourceCode := sourceCode;
           models.StartLine := token.Line startPos;
           models.EndLine := token.Line endPos;
           models.HasDocstring :=
             match doc with Some _ => true | None => false end;
           models.Docstring := ast.Doc_Text doc;
           models.Parameters := [];
           models.NodeType := nodeType;
           models.BaseClasses := [];
           models.ClassName := "";
           models.DisplayName := nodeType +:+ " " +:+ ast.Name tsName;
           models.ComponentID := componentID |} in
      Ok (appendNode node (registerID componentID a))
  end.

(** [call] is given by its [Pos()] and its field [Fun]. *)
Definition processCall (callerID : string) (callPos : token.Pos)
    (callFun : ast.Node) (a : GoAnalyzer) : GoAnalyzer :=
  let calleeName :=
    match callFun with
    | ast.EIdent fun_ =>
        let calleeName := ast.Name fun_ in
        if negb (analyzer.isBuiltin calleeName)
        then getComponentID a calleeName ""
        else calleeName
    | ast.SelectorExpr _ (ast.EIdent xIdent) sel_ =>
        ast.Name xIdent +:+ "." +:+ ast.Name sel_
    | _ => ""
    end in
  if negb (String.eqb calleeName "") then
    appendRel
      {| models.Caller := callerID;
         models.Callee := calleeName;
         models.CallLine := token.Line (FileSet a callPos);
         models.IsResolved := analyzer.lookupID (CollectedNodeIDs a) calleeName;
         models.RelationshipType := "calls" |} a
  else a.

End WithEnv.

(** The analyzer of a repository that stands where the analyzer of one file
    stands: same root, same output so far. *)
Definition asRepo (a : GoAnalyzer) : analyzer.GoAnalyzer :=
{| analyzer.RepoPath := RepoPath a;
   analyzer.RepoAbs := RepoPath a;
   analyzer.FileSet := FileSet a;
   analyzer.Nodes := Nodes a;
   analyzer.Relationships := Relationships a;
   analyzer.CollectedNodeIDs := CollectedNodeIDs a |}.

End analyzer1.

(* ===================================================================== *)
(** * A concrete machine, for running the analyzer on examples *)
(* ===================================================================== *)

Module World.

Import GoString.

(** A source file on disk: where its positions start in the file set, its
    absolute path, its text. *)
Record SourceFile := {
  Base : Z;
  Path : string;
  Src : string;
}.

Fixpoint countNewlines (s : string) (n : nat) : Z :=
  match n, s with
  | S n, String c r => (if byteZ c =? 10 then 1 else 0) + countNewlines r n
  | _, _ => 0
  end.

(** The position of [p]: the file whose range holds it, the offset in it,
    the line by counting the newlines before it. *)
Fixpoint position (files : list SourceFile) (p : token.Pos) : token.Position :=
  match files with
  | [] => {| token.Filename := ""; token.Offset := 0;
             token.Line := 0; token.Column := 0 |}
  | f :: rest =>
      if (Base f <=? p) && (p <=? Base f + len (Src f)) then
        {| token.Filename := Path f;
           token.Offset := p - Base f;
           token.Line := 1 + countNewlines (Src f) (Z.to_nat (p - Base f));
           token.Column := 0 |}
      else position rest p
  end.

Fixpoint readFile (files : list SourceFile) (name : string) : result string :=
  match files with
  | [] => Failed "no such file"
  | f :: rest => if String.eqb (Path f) name then Ok (Src f) else readFile rest name
  end.

(** [filepath.Rel] on clean absolute paths, for a target at or below the
    base.  (A target elsewhere gets a path through [..] from the library;
    no example has one, and it is an error here.) *)
Definition relBelow (base target : string) : option string :=
  if String.eqb base target then Some "."
  else if HasPrefix target (base +:+ "/")
  then Some (slice target (len base + 1) (len target))
  else None.

(** [types.TypeString] on the types the examples use. *)
Fixpoint typeString (t : types.Type_) (qualifier : types.Package -> string)
  : string :=
  match t with
  | types.Pointer e => "*" +:+ typeString e qualifier
  | types.Named (Some p) n =>
      match qualifier p with
      | "" => n
      | q => q +:+ "." +:+ n
      end
  | types.Named None n => n
  | types.Signature _ => "func()"
  | types.OtherType r => r
  end.

(** A machine with the given files on disk, on which every path given is
    absolute and clean, with one module at the repository root, whose
    packages are [pkgs]; maps are ranged over in key order. *)
Definition env (files : list SourceFile) (pkgs : list packages.Package) : Env :=
  {| filepath_Abs := fun p => Some p;
     filepath_Rel := relBelow;
     filepath_Clean := fun p => p;
     os_ReadFile := readFile files;
     types_TypeString := typeString;
     moduleRoots := fun root => Ok [root];
     packages_Load := fun _ => Ok pkgs;
     loadedFileSet := position files;
     mapRange := fun V _ m => map_to_list m;
     mapRange_perm := fun V _ m => reflexivity _ |}.

(** Syntax trees for the examples. *)
Definition ident (p : ptr) (pos : token.Pos) (name : string) : ast.Ident :=
  {| ast.IdentPtr := p; ast.NamePos := pos; ast.Name := name |}.

Definition lineComment (pos : token.Pos) (text : string) : ast.CommentGroup :=
  {| ast.ListHead := {| ast.Slash := pos; ast.Text := text |};
     ast.ListTail := [] |}.

(** A block statement or an expression statement: nodes the analyzer walks
    through. *)
Definition block (stmts : list ast.Node) : ast.Node := ast.OtherNode stmts.
Definition exprStmt (e : ast.Node) : ast.Node := ast.OtherNode [e].

(** [func name() { body }] without receiver, parameters or doc. *)
Definition funcDecl (name : ast.Ident) (body : list ast.Node)
    (pos end_ : token.Pos) : ast.Node :=
  ast.FuncDecl None None name [] (Some []) [] (Some (block body)) pos end_.

(** [func (recvName *recvType) name() { body }] *)
Definition methodDecl (recvName recvType name : ast.Ident)
    (body : list ast.Node) (pos end_ : token.Pos) : ast.Node :=
  ast.FuncDecl None
    (Some [ast.mkField [recvName] (ast.StarExpr (ast.EIdent recvType))])
    name [] (Some []) [] (Some (block body)) pos end_.

End World.

(* ===================================================================== *)
(** * Vocabulary of the properties *)
(* ===================================================================== *)

Module Props.

Import GoString analyzer.

(** [s] contains the byte ['.']. *)
Fixpoint hasDot (s : string) : bool :=
  match s with
  | EmptyString => false
  | String c r => (byteZ c =? 46) || hasDot r
  end.

(** The string of one newline. *)
Definition newline : string := str1 10.

(** [s] contains a newline. *)
Fixpoint hasNewline (s : string) : bool :=
  match s with
  | EmptyString => false
  | String c r => (byteZ c =? 10) || hasNewline r
  end.

(** Every byte of [s] is ASCII (below 0x80). *)
Fixpoint isASCII (s : string) : bool :=
  match s with
  | EmptyString => true
  | String c r => (byteZ c <? 128) && isASCII r
  end.

(** [s] with every path separator replaced by ['.'], byte by byte. *)
Fixpoint dotted (s : string) : string :=
  match s with
  | EmptyString => ""
  | String c r =>
      String (if IsPathSeparator (byteZ c) then byteOf 46 else c) (dotted r)
  end.

(** The identifier the scheme is described to give for a relative path. *)
Definition schemeID (relPath name enclosingType : string) : string :=
  let stem := slice relPath 0 (len relPath - len (Ext relPath)) in
  if String.eqb enclosingType "" then dotted stem +:+ "." +:+ name
  else dotted stem +:+ "." +:+ enclosingType +:+ "." +:+ name.

(** The offsets are out of bounds for the buffer. *)
Definition outOfBounds (content : string) (startOffset endOffset : Z) : Prop :=
  startOffset < 0 \/ len content < endOffset \/ endOffset < startOffset.

(** The analyzer states that differ from [a] in the output only: the states
    a pass can be in when it started from [a]. *)
Definition sameSetting (a b : GoAnalyzer) : Prop :=
  RepoPath b = RepoPath a /\ RepoAbs b = RepoAbs a /\ FileSet b = FileSet a.

(** The relationships [b] has beyond those of [a]. *)
Definition emitted (a b : GoAnalyzer) (new : list models.CallRelationship)
  : Prop :=
  Relationships b = Relationships a ++ new
  /\ Nodes b = Nodes a /\ CollectedNodeIDs b = CollectedNodeIDs a
  /\ sameSetting a b.

(** The type-informed path is not taken, or declines the call. *)
Definition heuristicPath {E : Env} (a : GoAnalyzer) (callFun : ast.Node)
    (typeInfo : option types.Info) (typePkg : option types.Package) : Prop :=
  match typeInfo, typePkg with
  | Some ti, Some tp => snd (resolveCallWithTypes a callFun ti tp) = false
  | _, _ => True
  end.

(** The object the type facts give for the callee of a call, following the
    call forms [resolveCallWithTypes] distinguishes. *)
Definition calleeObject (callFun : ast.Node) (typeInfo : types.Info)
  : option types.Object :=
  match callFun with
  | ast.EIdent f => types.Uses typeInfo !! ast.IdentPtr f
  | ast.SelectorExpr p x sel =>
      match types.Selections typeInfo !! p with
      | Some s => Some (types.Selection_Obj s)
      | None =>
          match x with
          | ast.EIdent xi =>
              match types.Uses typeInfo !! ast.IdentPtr xi with
              | Some types.PkgName => types.Uses typeInfo !! ast.IdentPtr sel
              | _ => None
              end
          | _ => None
          end
      end
  | _ => None
  end.

(** The name under which the type-informed path emits a callee [fn] that is
    declared outside the repository: qualified by the package of [fn], by
    the receiver type of the selection, or by the identifier before the
    dot, according to the form of the call. *)
Definition externalName {E : Env} (callFun : ast.Node) (typeInfo : types.Info)
    (typePkg : types.Package) (fn : types.Func) : string :=
  match callFun with
  | ast.EIdent _ =>
      match types.Func_Pkg fn with
      | Some p => types.PackageName p +:+ "." +:+ types.Func_Name fn
      | None => types.Func_Name fn
      end
  | ast.SelectorExpr p x _ =>
      match types.Selections typeInfo !! p with
      | Some s =>
          types_TypeString (types.Selection_Recv s)
            (fun pkg => if types.Package_eqb pkg typePkg then ""
                        else types.PackageName pkg)
          +:+ "." +:+ types.Func_Name fn
      | None =>
          match x with
          | ast.EIdent xi => ast.Name xi +:+ "." +:+ types.Func_Name fn
          | _ => ""
          end
      end
  | _ => ""
  end.

(** [n] is a declaration for which the collector makes a node in file
    [filePath], with the name and the enclosing type of that node. *)
Inductive declares : ast.Node -> string -> string -> Prop :=
| declares_func doc name tps params results body fpos fend :
    declares (ast.FuncDecl doc None name tps params results body fpos fend)
             (ast.Name name) ""
| declares_method doc fields name tps params results body fpos fend :
    declares (ast.FuncDecl doc (Some fields) name tps params results body fpos fend)
             (ast.Name name) (recvTypeOf fields)
| declares_struct gdoc specs doc name tps fs tend :
    In (ast.TypeSpec doc name tps (ast.StructType fs) tend) specs ->
    declares (ast.GenDecl gdoc token.TYPE specs) (ast.Name name) ""
| declares_interface gdoc specs doc name tps ms tend :
    In (ast.TypeSpec doc name tps (ast.InterfaceType ms) tend) specs ->
    declares (ast.GenDecl gdoc token.TYPE specs) (ast.Name name) "".

End Props.

(* ===================================================================== *)
(** * Facts about strings *)
(* ===================================================================== *)

Module StringFacts.

Import GoString Props.

Lemma sapp_cons (c : ascii) (s t : string) :
  String c s +:+ t = String c (s +:+ t).
Proof. reflexivity. Qed.

Lemma sapp_nil_l (t : string) : "" +:+ t = t.
Proof. reflexivity. Qed.

Lemma sapp_assoc (s t u : string) : (s +:+ t) +:+ u = s +:+ t +:+ u.
Proof.
  induction s as [|c s IH]; [reflexivity |].
  rewrite !sapp_cons. now rewrite IH.
Qed.

Lemma sapp_nil_r (s : string) : s +:+ "" = s.
Proof.
  induction s as [|c s IH]; [reflexivity |].
  rewrite sapp_cons. now rewrite IH.
Qed.

Lemma sapp_cancel_l (s x y : string) : s +:+ x = s +:+ y -> x = y.
Proof.
  induction s as [|c s IH]; rewrite ?sapp_cons, ?sapp_nil_l; intros H;
    [exact H |].
  injection H as H. now apply IH.
Qed.

Lemma eqb_empty_false (s : string) : s <> "" -> String.eqb s "" = false.
Proof. intros H. now apply String.eqb_neq. Qed.

Lemma hasDot_app (s t : string) : hasDot (s +:+ t) = hasDot s || hasDot t.
Proof.
  induction s as [|c s IH]; [reflexivity |].
  rewrite sapp_cons. simpl. rewrite IH. now rewrite orb_assoc.
Qed.

(** Two strings cut at their first dot agree on both sides of it. *)
Lemma split_first_dot (c1 n1 c2 n2 : string) :
  hasDot c1 = false -> hasDot c2 = false ->
  c1 +:+ "." +:+ n1 = c2 +:+ "." +:+ n2 -> c1 = c2 /\ n1 = n2.
Proof.
  revert c2. induction c1 as [|x c1 IH]; intros [|y c2];
    rewrite ?sapp_cons, ?sapp_nil_l; intros H1 H2 H.
  - injection H as H. now split.
  - injection H as Hx H. subst y. simpl in H2. discriminate H2.
  - injection H as Hx H. subst x. simpl in H1. discriminate H1.
  - injection H as Hx H. subst y. simpl in H1, H2.
    apply orb_false_elim in H1 as [_ H1]. apply orb_false_elim in H2 as [_ H2].
    destruct (IH c2 H1 H2 H) as [-> ->]. now split.
Qed.

Lemma len_nonneg (s : string) : 0 <= len s.
Proof. unfold len. lia. Qed.

Lemma len_app (s t : string) : len (s +:+ t) = len s + len t.
Proof.
  unfold len. induction s as [|c s IH]; [rewrite sapp_nil_l; simpl; lia |].
  rewrite sapp_cons. simpl String.length. rewrite !Nat2Z.inj_succ. lia.
Qed.

End StringFacts.

(* ===================================================================== *)
(** * Facts about loops that may fail *)
(* ===================================================================== *)

Module LoopFacts.

Lemma bind_Ok {A B : Type} (m : result A) (f : A -> result B) (b : B) :
  (m ≫= f) = Ok b -> exists x, m = Ok x /\ f x = Ok b.
Proof. destruct m as [x| |]; simpl; intros H; try discriminate. eauto. Qed.

Section ForM.

Context {A S : Type} (body : A -> S -> result S).

Lemma forM_cons (x : A) (l : list A) (s s' : S) :
  forM body (x :: l) s = Ok s' ->
  exists s1, body x s = Ok s1 /\ forM body l s1 = Ok s'.
Proof. simpl. apply bind_Ok. Qed.

(** A loop whose body cannot fail does not fail. *)
Lemma forM_total (l : list A) :
  (forall x s, In x l -> exists s', body x s = Ok s') ->
  forall s, exists s', forM body l s = Ok s'.
Proof.
  induction l as [|x l IH]; intros Hb s; simpl; [eauto |].
  destruct (Hb x s (or_introl eq_refl)) as [s1 ->]. simpl.
  apply IH. intros y t Hy. apply Hb. now right.
Qed.

(** A reflexive and transitive relation that holds across each round
    holds across the loop. *)
Lemma forM_rel (R : S -> S -> Prop) (l : list A) :
  (forall s, R s s) ->
  (forall s t u, R s t -> R t u -> R s u) ->
  (forall x s s', In x l -> body x s = Ok s' -> R s s') ->
  forall s s', forM body l s = Ok s' -> R s s'.
Proof.
  intros Hrefl Htrans. induction l as [|x l IH]; intros Hb s s' H.
  - simpl in H. injection H as <-. apply Hrefl.
  - apply forM_cons in H as (s1 & H1 & H2).
    apply Htrans with s1.
    + apply (Hb x); [now left | exact H1].
    + apply IH; [| exact H2]. intros y t t' Hy. apply Hb. now right.
Qed.

(** The round of an element of the list, within the loop. *)
Lemma forM_round (l : list A) (x : A) :
  In x l ->
  forall s s', forM body l s = Ok s' ->
  exists l1 l2 s1 s2,
    l = l1 ++ x :: l2 /\ forM body l1 s = Ok s1
    /\ body x s1 = Ok s2 /\ forM body l2 s2 = Ok s'.
Proof.
  induction l as [|y l IH]; intros Hin s s' H; [destruct Hin |].
  apply forM_cons in H as (t & H1 & H2).
  destruct Hin as [-> | Hin].
  - exists [], l, s, t. repeat split; auto.
  - destruct (IH Hin t s' H2) as (l1 & l2 & s1 & s2 & -> & Ha & Hb & Hc).
    exists (y :: l1), l2, s1, s2. repeat split; auto.
    simpl. rewrite H1. exact Ha.
Qed.

End ForM.

(** The same for loops that cannot fail. *)
Section Fold.

Context {A S : Type} (body : S -> A -> S).

Lemma fold_rel (R : S -> S -> Prop) (l : list A) :
  (forall s, R s s) ->
  (forall s t u, R s t -> R t u -> R s u) ->
  (forall x s, In x l -> R s (body s x)) ->
  forall s, R s (fold_left body l s).
Proof.
  intros Hrefl Htrans. induction l as [|x l IH]; intros Hb s; simpl.
  - apply Hrefl.
  - apply Htrans with (body s x).
    + apply Hb. now left.
    + apply IH. intros y t Hy. apply Hb. now right.
Qed.

End Fold.

End LoopFacts.

(* ===================================================================== *)
(** * Facts about the collector *)
(* ===================================================================== *)

Module CollectorFacts.

Import GoString Props analyzer StringFacts LoopFacts.

(** ** Source capture *)

Lemma captureSource_inside (content : string) (s e : Z) :
  0 <= s -> s <= e -> e <= len content ->
  captureSource content s e = Ok (slice content s e).
Proof.
  intros H1 H2 H3. unfold captureSource, sliceBytes.
  assert (Hg : (s >=? 0) && (e <=? len content) && (s <=? e) = true).
  { rewrite !andb_true_iff. repeat split; lia. }
  assert (Hs : (0 <=? s) && (s <=? e) && (e <=? len content) = true).
  { rewrite !andb_true_iff. repeat split; lia. }
  now rewrite Hg, Hs.
Qed.

Lemma captureSource_outside (content : string) (s e : Z) :
  outOfBounds content s e -> captureSource content s e = Ok "".
Proof.
  intros H. unfold captureSource.
  assert (Hg : (s >=? 0) && (e <=? len content) && (s <=? e) = false).
  { rewrite !andb_false_iff. unfold outOfBounds in H. lia. }
  now rewrite Hg.
Qed.

Lemma captureSource_cases (content : string) (s e : Z) :
  (0 <= s /\ s <= e /\ e <= len content) \/ outOfBounds content s e.
Proof. unfold outOfBounds. lia. Qed.

(** Capturing the source never panics and never fails. *)
Lemma captureSource_total (content : string) (s e : Z) :
  exists src, captureSource content s e = Ok src.
Proof.
  destruct (captureSource_cases content s e) as [(H1 & H2 & H3) | H].
  - rewrite captureSource_inside by assumption. eauto.
  - rewrite captureSource_outside by assumption. eauto.
Qed.

Section WithEnv.

Context {E : Env}.

(** ** The identifier depends on the repository root only *)

Lemma getComponentIDForFile_setting (a b : GoAnalyzer) fp name recv :
  RepoAbs b = RepoAbs a ->
  getComponentIDForFile b fp name recv = getComponentIDForFile a fp name recv.
Proof. intros H. unfold getComponentIDForFile. now rewrite H. Qed.

(** The identifier, with the test on the receiver type decided. *)
Lemma getComponentIDForFile_eq (a : GoAnalyzer) fp name recv :
  getComponentIDForFile a fp name recv =
  modulePath (let relPath := relOrEmpty (RepoAbs a) fp in
              slice relPath 0 (len relPath - len (Ext relPath)))
  +:+ "." +:+ (if String.eqb recv "" then name else recv +:+ "." +:+ name).
Proof.
  unfold getComponentIDForFile. cbv zeta.
  destruct (String.eqb recv ""); reflexivity.
Qed.

Lemma getComponentIDForFile_hasDot (a : GoAnalyzer) fp name recv :
  hasDot (getComponentIDForFile a fp name recv) = true.
Proof.
  rewrite getComponentIDForFile_eq, hasDot_app.
  apply orb_true_iff. right. reflexivity.
Qed.

Lemma getComponentIDForFile_nonempty (a : GoAnalyzer) fp name recv :
  String.eqb (getComponentIDForFile a fp name recv) "" = false.
Proof.
  apply String.eqb_neq. intros H.
  pose proof (getComponentIDForFile_hasDot a fp name recv) as Hd.
  rewrite H in Hd. discriminate Hd.
Qed.

(** ** One node more *)

(** [b] is [a] with [node] registered and appended, [node] being a node
    of file [fp] that carries the identifier of its own fields. *)
Definition adds (fp : string) (node : models.Node) (a b : GoAnalyzer) : Prop :=
  b = appendNode node (registerID (models.ID node) a)
  /\ models.FilePath node = fp
  /\ models.ComponentID node = models.ID node
  /\ getComponentIDForFile a fp (models.Name node) (models.ClassName node)
     = models.ID node
  /\ (models.ComponentType node = "method" \/ models.ClassName node = "").

(** What a stretch of the first pass does: the setting and the
    relationships stay, nodes are appended, and the identifiers
    registered are those of the nodes appended. *)
Definition extends (F : string -> Prop) (a b : GoAnalyzer) : Prop :=
  sameSetting a b
  /\ Relationships b = Relationships a
  /\ exists new,
      Nodes b = Nodes a ++ new
      /\ (forall n, In n new ->
            F (models.FilePath n)
            /\ getComponentIDForFile a (models.FilePath n) (models.Name n)
                 (models.ClassName n) = models.ID n
            /\ (models.ComponentType n = "method"
                \/ models.ClassName n = ""))
      /\ (forall id, lookupID (CollectedNodeIDs b) id = true <->
            lookupID (CollectedNodeIDs a) id = true
            \/ exists n, In n new /\ models.ID n = id).

Lemma extends_refl (F : string -> Prop) (a : GoAnalyzer) : extends F a a.
Proof.
  split; [repeat split |]. split; [reflexivity |].
  exists []. rewrite app_nil_r. split; [reflexivity |]. split.
  - intros n [].
  - intros id. split; [auto |]. intros [H | (n & [] & _)]. exact H.
Qed.

Lemma extends_trans (F : string -> Prop) (a b c : GoAnalyzer) :
  extends F a b -> extends F b c -> extends F a c.
Proof.
  intros ((P1 & A1 & S1) & R1 & new1 & N1 & G1 & I1)
         ((P2 & A2 & S2) & R2 & new2 & N2 & G2 & I2).
  split; [repeat split; congruence |].
  split; [congruence |].
  exists (new1 ++ new2). split; [| split].
  - rewrite N2, N1. now rewrite <- app_assoc.
  - intros n Hn. apply in_app_or in Hn as [Hn | Hn].
    + now apply G1.
    + destruct (G2 n Hn) as (HF & Hid & Hc). split; [exact HF |].
      split; [| exact Hc].
      rewrite <- Hid. symmetry. now apply getComponentIDForFile_setting.
  - intros id. rewrite I2, I1. split.
    + intros [[H | (n & Hn & Hid)] | (n & Hn & Hid)]; auto.
      * right. exists n. split; [apply in_or_app; now left | exact Hid].
      * right. exists n. split; [apply in_or_app; now right | exact Hid].
    + intros [H | (n & Hn & Hid)]; auto.
      apply in_app_or in Hn as [Hn | Hn]; eauto.
Qed.

Lemma extends_weaken (F G : string -> Prop) (a b : GoAnalyzer) :
  (forall fp, F fp -> G fp) -> extends F a b -> extends G a b.
Proof.
  intros HFG (Hs & Hr & new & Hn & Hg & Hi).
  split; [exact Hs |]. split; [exact Hr |].
  exists new. split; [exact Hn |]. split; [| exact Hi].
  intros n Hin. destruct (Hg n Hin) as (HF & Hid & Hc). auto.
Qed.

Lemma lookupID_insert (m : gmap string bool) (id id' : string) :
  lookupID (<[id := true]> m) id' = true <-> lookupID m id' = true \/ id = id'.
Proof.
  unfold lookupID. destruct (decide (id = id')) as [-> | Hne].
  - rewrite lookup_insert_eq. simpl. tauto.
  - rewrite lookup_insert_ne by exact Hne. tauto.
Qed.

Lemma adds_extends (F : string -> Prop) fp node (a b : GoAnalyzer) :
  F fp -> adds fp node a b -> extends F a b.
Proof.
  intros HF (-> & Hfp & _ & Hid & Hc).
  split; [repeat split |]. split; [reflexivity |].
  exists [node]. split; [reflexivity |]. split.
  - intros n [<- | []]. rewrite Hfp. auto.
  - intros id. simpl. rewrite lookupID_insert. split.
    + intros [H | H]; auto. right. exists node. split; [now left | exact H].
    + intros [H | (n & [<- | []] & H)]; auto.
Qed.

Lemma extends_ids (F : string -> Prop) (a b : GoAnalyzer) (id : string) :
  extends F a b -> lookupID (CollectedNodeIDs a) id = true ->
  lookupID (CollectedNodeIDs b) id = true.
Proof. intros (_ & _ & new & _ & _ & Hi) H. apply Hi. now left. Qed.

Lemma extends_nodes (F : string -> Prop) (a b : GoAnalyzer) (n : models.Node) :
  extends F a b -> In n (Nodes a) -> In n (Nodes b).
Proof.
  intros (_ & _ & new & Hn & _ & _) H. rewrite Hn. apply in_or_app. now left.
Qed.

Lemma extends_setting (F : string -> Prop) (a b : GoAnalyzer) :
  extends F a b -> sameSetting a b.
Proof. now intros (H & _). Qed.

(** The declaration [name] with enclosing type [cls] of file [fp] has its
    node in [a] and its identifier registered. *)
Definition registered (a : GoAnalyzer) (fp name cls : string) : Prop :=
  lookupID (CollectedNodeIDs a) (getComponentIDForFile a fp name cls) = true
  /\ exists node,
      In node (Nodes a)
      /\ models.ID node = getComponentIDForFile a fp name cls
      /\ models.Name node = name
      /\ models.ClassName node = cls
      /\ models.FilePath node = fp.

Lemma registered_extends (F : string -> Prop) (a b : GoAnalyzer) fp name cls :
  extends F a b -> registered a fp name cls -> registered b fp name cls.
Proof.
  intros Hx (Hid & node & Hin & Hn). unfold registered.
  destruct (extends_setting _ _ _ Hx) as (_ & Habs & _).
  rewrite (getComponentIDForFile_setting a b) by exact Habs.
  split; [now apply (extends_ids F a b) |].
  exists node. split; [now apply (extends_nodes F a b) | exact Hn].
Qed.

Lemma adds_registered fp node (a b : GoAnalyzer) :
  adds fp node a b ->
  registered b fp (models.Name node) (models.ClassName node).
Proof.
  intros (-> & Hfp & _ & Hid & _). unfold registered.
  rewrite (getComponentIDForFile_setting a) by reflexivity.
  rewrite Hid. split.
  - simpl. apply lookupID_insert. now right.
  - exists node. simpl. split; [apply in_or_app; right; now left |].
    repeat split; auto.
Qed.

(** ** Type declarations *)

(** Takes the node that the goal shows appended to [a] as the witness. *)
Ltac exhibit_node a :=
  lazymatch goal with
  | |- context [appendNode ?n (registerID _ a)] => exists n
  end.

(** The documentation that counts for a type: its own, else the one of
    the declaration group. *)
Definition effectiveDoc (tsDoc genDeclDoc : option ast.CommentGroup)
  : option ast.CommentGroup :=
  match tsDoc with Some d => Some d | None => genDeclDoc end.

(** Where the captured source of a declaration starts. *)
Definition startOffsetOf (a : GoAnalyzer) (doc : option ast.CommentGroup)
    (pos : token.Pos) : Z :=
  match doc with
  | Some d => token.Offset (FileSet a (ast.CommentGroup_Pos d))
  | None => token.Offset (FileSet a pos)
  end.

Definition isStructOrInterface (t : ast.Node) : bool :=
  match t with
  | ast.StructType _ | ast.InterfaceType _ => true
  | _ => false
  end.

Lemma visitTypeSpec_skips tsDoc tsName tsType tsEnd genDeclDoc fp content a :
  isStructOrInterface tsType = false ->
  visitTypeSpec tsDoc tsName tsType tsEnd genDeclDoc fp content a = Ok a.
Proof. intros H. destruct tsType; simpl in H; try discriminate; reflexivity. Qed.

Lemma visitTypeSpec_adds tsDoc tsName tsType tsEnd genDeclDoc fp content a :
  isStructOrInterface tsType = true ->
  exists node,
    visitTypeSpec tsDoc tsName tsType tsEnd genDeclDoc fp content a
    = Ok (appendNode node (registerID (models.ID node) a))
    /\ adds fp node a (appendNode node (registerID (models.ID node) a))
    /\ models.Name node = ast.Name tsName
    /\ models.ClassName node = ""
    /\ models.HasDocstring node
       = match effectiveDoc tsDoc genDeclDoc with Some _ => true | None => false end
    /\ models.Docstring node = ast.Doc_Text (effectiveDoc tsDoc genDeclDoc)
    /\ captureSource content
         (startOffsetOf a (effectiveDoc tsDoc genDeclDoc) (ast.NamePos tsName))
         (token.Offset (FileSet a tsEnd))
       = Ok (models.SourceCode node).
Proof.
  intros H.
  destruct (captureSource_total content
              (startOffsetOf a (effectiveDoc tsDoc genDeclDoc) (ast.NamePos tsName))
              (token.Offset (FileSet a tsEnd))) as [src Hsrc].
  destruct tsType; simpl in H; try discriminate;
    unfold visitTypeSpec; cbv zeta;
    fold (effectiveDoc tsDoc genDeclDoc);
    fold (startOffsetOf a (effectiveDoc tsDoc genDeclDoc) (ast.NamePos tsName));
    rewrite Hsrc; simpl;
    exhibit_node a;
    (split; [reflexivity |]);
    (split; [repeat split; auto |]);
    repeat split; auto.
Qed.

(** ** Function declarations *)

Definition classOf (fnRecv : option (list ast.Field)) : string :=
  match fnRecv with Some fields => recvTypeOf fields | None => "" end.

Lemma visitFuncDecl_adds fnDoc fnRecv fnName fnParams fnPos fnEnd fp content a :
  exists node,
    visitFuncDecl fnDoc fnRecv fnName fnParams fnPos fnEnd fp content a
    = Ok (appendNode node (registerID (models.ID node) a))
    /\ adds fp node a (appendNode node (registerID (models.ID node) a))
    /\ models.Name node = ast.Name fnName
    /\ models.ClassName node = classOf fnRecv
    /\ captureSource content (startOffsetOf a fnDoc fnPos)
         (token.Offset (FileSet a fnEnd))
       = Ok (models.SourceCode node).
Proof.
  destruct (captureSource_total content (startOffsetOf a fnDoc fnPos)
              (token.Offset (FileSet a fnEnd))) as [src Hsrc].
  unfold visitFuncDecl. cbv zeta.
  destruct fnRecv as [fields |]; cbv beta iota;
    fold (startOffsetOf a fnDoc fnPos);
    rewrite Hsrc; simpl;
    exhibit_node a;
    (split; [reflexivity |]);
    (split; [repeat split; auto |]);
    repeat split; auto.
Qed.

(** ** The callback of the first pass *)

(** The body of the loop over the specs of a type declaration. *)
Definition visitSpec (doc : option ast.CommentGroup) (fp content : string)
    (spec : ast.Node) (a : GoAnalyzer) : result GoAnalyzer :=
  match spec with
  | ast.TypeSpec tsDoc tsName _ tsType tsEnd =>
      visitTypeSpec tsDoc tsName tsType tsEnd doc fp content a
  | _ => Ok a
  end.

Lemma collectNode_GenDecl doc specs fp content a :
  collectNode fp content (ast.GenDecl doc token.TYPE specs) a
  = forM (visitSpec doc fp content) specs a.
Proof. reflexivity. Qed.

Lemma visitTypeSpec_total tsDoc tsName tsType tsEnd genDeclDoc fp content a :
  exists b, visitTypeSpec tsDoc tsName tsType tsEnd genDeclDoc fp content a = Ok b.
Proof.
  destruct (isStructOrInterface tsType) eqn:Hk.
  - destruct (visitTypeSpec_adds tsDoc tsName tsType tsEnd genDeclDoc fp content a Hk)
      as (node & H & _). eauto.
  - rewrite visitTypeSpec_skips by exact Hk. eauto.
Qed.

Lemma visitTypeSpec_extends tsDoc tsName tsType tsEnd genDeclDoc fp content a b :
  visitTypeSpec tsDoc tsName tsType tsEnd genDeclDoc fp content a = Ok b ->
  extends (eq fp) a b.
Proof.
  intros H. destruct (isStructOrInterface tsType) eqn:Hk.
  - destruct (visitTypeSpec_adds tsDoc tsName tsType tsEnd genDeclDoc fp content a Hk)
      as (node & H' & Hadd & _).
    rewrite H' in H. injection H as <-.
    now apply (adds_extends (eq fp) fp node).
  - rewrite visitTypeSpec_skips in H by exact Hk. injection H as <-.
    apply extends_refl.
Qed.

Lemma visitSpec_total doc fp content spec a :
  exists b, visitSpec doc fp content spec a = Ok b.
Proof.
  destruct spec; simpl; eauto. apply visitTypeSpec_total.
Qed.

Lemma visitSpec_extends doc fp content spec a b :
  visitSpec doc fp content spec a = Ok b -> extends (eq fp) a b.
Proof.
  destruct spec; simpl; intros H;
    try (injection H as <-; apply extends_refl).
  now apply visitTypeSpec_extends in H.
Qed.

Lemma collectNode_total fp content n a :
  exists b, collectNode fp content n a = Ok b.
Proof.
  destruct n; simpl; eauto.
  - destruct Tok; eauto. apply forM_total. intros x s _.
    apply visitSpec_total.
  - destruct (visitFuncDecl_adds Doc Recv FName Params FPos FEnd fp content a)
      as (node & H & _). eauto.
Qed.

Lemma collectNode_extends fp content n a b :
  collectNode fp content n a = Ok b -> extends (eq fp) a b.
Proof.
  destruct n; simpl; intros H;
    try (injection H as <-; apply extends_refl).
  - destruct Tok; try (injection H as <-; apply extends_refl).
    revert H. apply forM_rel.
    + apply extends_refl.
    + apply extends_trans.
    + intros x s s' _. apply visitSpec_extends.
  - destruct (visitFuncDecl_adds Doc Recv FName Params FPos FEnd fp content a)
      as (node & H' & Hadd & _).
    rewrite H' in H. injection H as <-.
    now apply (adds_extends (eq fp) fp node).
Qed.

(** A declaration the callback is called on is registered afterwards. *)
Lemma collectNode_declares fp content n name cls a b :
  declares n name cls ->
  collectNode fp content n a = Ok b -> registered b fp name cls.
Proof.
  intros Hd H. destruct Hd as
    [doc name tps params results body fpos fend
    |doc fields name tps params results body fpos fend
    |gdoc specs doc name tps fs tend Hin
    |gdoc specs doc name tps ms tend Hin].
  - simpl in H.
    destruct (visitFuncDecl_adds doc None name params fpos fend fp content a)
      as (node & H' & Hadd & Hn & Hc & _).
    rewrite H' in H. injection H as <-.
    rewrite <- Hn. change "" with (classOf None). rewrite <- Hc.
    now apply adds_registered with a.
  - simpl in H.
    destruct (visitFuncDecl_adds doc (Some fields) name params fpos fend fp content a)
      as (node & H' & Hadd & Hn & Hc & _).
    rewrite H' in H. injection H as <-.
    rewrite <- Hn. change (recvTypeOf fields) with (classOf (Some fields)).
    rewrite <- Hc. now apply adds_registered with a.
  - rewrite collectNode_GenDecl in H.
    destruct (forM_round _ _ _ Hin _ _ H)
      as (l1 & l2 & s1 & s2 & _ & _ & Hstep & Hrest).
    simpl in Hstep.
    destruct (visitTypeSpec_adds doc name (ast.StructType fs) tend gdoc fp content s1
                eq_refl) as (node & H' & Hadd & Hn & Hc & _).
    rewrite H' in Hstep. injection Hstep as <-.
    apply (registered_extends (eq fp)) with (appendNode node (registerID (models.ID node) s1)).
    + revert Hrest. apply forM_rel.
      * apply extends_refl.
      * apply extends_trans.
      * intros x s s' _. apply visitSpec_extends.
    + rewrite <- Hn, <- Hc. now apply adds_registered with s1.
  - rewrite collectNode_GenDecl in H.
    destruct (forM_round _ _ _ Hin _ _ H)
      as (l1 & l2 & s1 & s2 & _ & _ & Hstep & Hrest).
    simpl in Hstep.
    destruct (visitTypeSpec_adds doc name (ast.InterfaceType ms) tend gdoc fp content s1
                eq_refl) as (node & H' & Hadd & Hn & Hc & _).
    rewrite H' in Hstep. injection Hstep as <-.
    apply (registered_extends (eq fp)) with (appendNode node (registerID (models.ID node) s1)).
    + revert Hrest. apply forM_rel.
      * apply extends_refl.
      * apply extends_trans.
      * intros x s s' _. apply visitSpec_extends.
    + rewrite <- Hn, <- Hc. now apply adds_registered with s1.
Qed.

(** ** One file, and the whole first pass *)

Lemma collectNodes_total fp info a : exists b, collectNodes fp info a = Ok b.
Proof.
  unfold collectNodes. apply forM_total. intros n s _. apply collectNode_total.
Qed.

Lemma collectNodes_extends fp info a b :
  collectNodes fp info a = Ok b -> extends (eq fp) a b.
Proof.
  unfold collectNodes. apply forM_rel.
  - apply extends_refl.
  - apply extends_trans.
  - intros n s s' _. apply collectNode_extends.
Qed.

Lemma collectNodes_declares fp info n name cls a b :
  In n (ast.InspectFile (file info)) -> declares n name cls ->
  collectNodes fp info a = Ok b -> registered b fp name cls.
Proof.
  unfold collectNodes. intros Hin Hd H.
  destruct (forM_round _ _ _ Hin _ _ H)
    as (l1 & l2 & s1 & s2 & _ & _ & Hstep & Hrest).
  apply (registered_extends (eq fp)) with s2.
  - revert Hrest. apply forM_rel.
    + apply extends_refl.
    + apply extends_trans.
    + intros x s s' _. apply collectNode_extends.
  - now apply (collectNode_declares fp (content info) n name cls s1).
Qed.

(** The files of a list of map entries. *)
Definition fileOf (files : list (string * fileInfo)) (fp : string) : Prop :=
  exists info, In (fp, info) files.

Lemma firstPass_total files a : exists b, firstPass files a = Ok b.
Proof.
  unfold firstPass. apply forM_total. intros [fp info] s _.
  apply collectNodes_total.
Qed.

Lemma firstPass_extends files a b :
  firstPass files a = Ok b -> extends (fileOf files) a b.
Proof.
  unfold firstPass. apply forM_rel.
  - apply extends_refl.
  - apply extends_trans.
  - intros [fp info] s s' Hin H.
    apply extends_weaken with (eq fp).
    + intros ? <-. now exists info.
    + now apply collectNodes_extends in H.
Qed.

Lemma firstPass_declares files fp info n name cls a b :
  In (fp, info) files ->
  In n (ast.InspectFile (file info)) -> declares n name cls ->
  firstPass files a = Ok b -> registered b fp name cls.
Proof.
  unfold firstPass. intros Hf Hin Hd H.
  destruct (forM_round _ _ _ Hf _ _ H)
    as (l1 & l2 & s1 & s2 & _ & _ & Hstep & Hrest).
  apply (registered_extends (fun _ => True)) with s2.
  - revert Hrest. apply forM_rel.
    + apply extends_refl.
    + apply extends_trans.
    + intros [fp' info'] s s' _ H'.
      apply extends_weaken with (eq fp'); [easy |].
      now apply collectNodes_extends in H'.
  - now apply (collectNodes_declares fp info n name cls s1).
Qed.

End WithEnv.

End CollectorFacts.

(* ===================================================================== *)
(** * Facts about the resolver *)
(* ===================================================================== *)

Module ResolverFacts.

Import GoString Props analyzer StringFacts LoopFacts CollectorFacts.

Section WithEnv.

Context {E : Env}.

Lemma emitted_setting a b new : emitted a b new -> sameSetting a b.
Proof. now intros (_ & _ & _ & H). Qed.

Lemma emitted_appendRel rel a : emitted a (appendRel rel a) [rel].
Proof. repeat split. Qed.

Lemma emitted_nil a : emitted a a [].
Proof. unfold emitted. rewrite app_nil_r. repeat split. Qed.

Lemma emitted_trans a b c new1 new2 :
  emitted a b new1 -> emitted b c new2 -> emitted a c (new1 ++ new2).
Proof.
  intros (R1 & N1 & I1 & P1 & A1 & S1) (R2 & N2 & I2 & P2 & A2 & S2).
  unfold emitted, sameSetting.
  rewrite R2, R1, <- app_assoc. repeat split; congruence.
Qed.

(** ** The type-informed path *)

(** The flag of the type-informed path is a lookup that succeeded, or
    false. *)
Lemma resolveCallWithTypes_flag a callFun ti tp callee resolved ok :
  resolveCallWithTypes a callFun ti tp = (callee, resolved, ok) ->
  resolved = true ->
  ok = true /\ lookupID (CollectedNodeIDs a) callee = true.
Proof.
  unfold resolveCallWithTypes. intros H Hr. subst resolved.
  repeat case_match; simplify_eq; auto.
Qed.

(** ** One call *)

(** The relationship [processCall] appends on the heuristic path, if
    any. *)
Definition heuristicRels (a : GoAnalyzer) (callerID recvName recvType : string)
    (callPos : token.Pos) (callFun : ast.Node) (filePath : string)
  : list models.CallRelationship :=
  let callee := heuristicCallee a recvName recvType callFun filePath in
  if String.eqb callee "" then []
  else [mkRel a callerID callee callPos (lookupID (CollectedNodeIDs a) callee)].

Lemma processCall_heuristic callerID recvName recvType callPos callFun
    typeInfo typePkg filePath a :
  heuristicPath a callFun typeInfo typePkg ->
  emitted a (processCall callerID recvName recvType callPos callFun
                         typeInfo typePkg filePath a)
          (heuristicRels a callerID recvName recvType callPos callFun filePath).
Proof.
  unfold heuristicPath, processCall, heuristicRels. cbv zeta. intros H.
  assert (Hh :
    emitted a
      (if negb (String.eqb (heuristicCallee a recvName recvType callFun filePath) "")
       then appendRel (mkRel a callerID
                 (heuristicCallee a recvName recvType callFun filePath) callPos
                 (lookupID (CollectedNodeIDs a)
                    (heuristicCallee a recvName recvType callFun filePath))) a
       else a)
      (if String.eqb (heuristicCallee a recvName recvType callFun filePath) ""
       then []
       else [mkRel a callerID
               (heuristicCallee a recvName recvType callFun filePath) callPos
               (lookupID (CollectedNodeIDs a)
                  (heuristicCallee a recvName recvType callFun filePath))])).
  { destruct (String.eqb _ ""); simpl.
    - apply emitted_nil.
    - apply emitted_appendRel. }
  destruct typeInfo as [ti |]; [| exact Hh].
  destruct typePkg as [tp |]; [| exact Hh].
  destruct (resolveCallWithTypes a callFun ti tp) as [[callee resolved] ok].
  simpl in H. subst ok. exact Hh.
Qed.

(** What holds of every relationship [processCall] appends. *)
Definition fromCall (a : GoAnalyzer) (callerID : string)
    (r : models.CallRelationship) : Prop :=
  models.Caller r = callerID
  /\ models.RelationshipType r = "calls"
  /\ (models.IsResolved r = true ->
      lookupID (CollectedNodeIDs a) (models.Callee r) = true).

Lemma processCall_emitted callerID recvName recvType callPos callFun
    typeInfo typePkg filePath a :
  exists new,
    emitted a (processCall callerID recvName recvType callPos callFun
                           typeInfo typePkg filePath a) new
    /\ Forall (fromCall a callerID) new.
Proof.
  assert (Hh : heuristicPath a callFun typeInfo typePkg ->
    exists new,
      emitted a (processCall callerID recvName recvType callPos callFun
                             typeInfo typePkg filePath a) new
      /\ Forall (fromCall a callerID) new).
  { intros H. eexists. split; [now apply processCall_heuristic |].
    unfold heuristicRels. cbv zeta. destruct (String.eqb _ ""); constructor.
    - repeat split; auto.
    - constructor. }
  destruct typeInfo as [ti |]; [| now apply Hh].
  destruct typePkg as [tp |]; [| now apply Hh].
  destruct (resolveCallWithTypes a callFun ti tp) as [[callee resolved] ok] eqn:Hr.
  destruct ok; [| apply Hh; simpl; now rewrite Hr].
  unfold processCall. rewrite Hr.
  destruct (String.eqb callee ""); simpl.
  - exists []. split; [apply emitted_nil | constructor].
  - eexists. split; [apply emitted_appendRel |].
    constructor; [| constructor]. repeat split; auto. simpl.
    intros Hres. now apply (resolveCallWithTypes_flag a callFun ti tp callee resolved true).
Qed.

(** ** Stretches of the second pass *)

(** [s] is a state of a second pass that started from [a0]: the
    identifiers, the nodes and the setting are those of [a0]. *)
Definition frozen (a0 s : GoAnalyzer) : Prop :=
  CollectedNodeIDs s = CollectedNodeIDs a0
  /\ Nodes s = Nodes a0 /\ sameSetting a0 s.

(** From [a] to [b], relationships that satisfy [Q] were appended and
    nothing else changed. *)
Definition stage (Q : models.CallRelationship -> Prop) (a b : GoAnalyzer)
  : Prop :=
  exists new, emitted a b new /\ Forall Q new.

Lemma frozen_refl a : frozen a a.
Proof. repeat split. Qed.

Lemma stage_refl Q a : stage Q a a.
Proof. exists []. split; [apply emitted_nil | constructor]. Qed.

Lemma stage_trans Q a b c : stage Q a b -> stage Q b c -> stage Q a c.
Proof.
  intros (n1 & E1 & F1) (n2 & E2 & F2). exists (n1 ++ n2).
  split; [now apply emitted_trans with b | now apply Forall_app].
Qed.

Lemma stage_weaken (Q Q' : models.CallRelationship -> Prop) a b :
  (forall r, Q r -> Q' r) -> stage Q a b -> stage Q' a b.
Proof.
  intros HQ (new & He & Hf). exists new. split; [exact He |].
  revert Hf. apply List.Forall_impl. exact HQ.
Qed.

Lemma stage_frozen Q a0 a b : frozen a0 a -> stage Q a b -> frozen a0 b.
Proof.
  intros (I0 & N0 & P0 & A0 & S0) (new & (_ & N1 & I1 & P1 & A1 & S1) & _).
  unfold frozen, sameSetting. repeat split; congruence.
Qed.

(** A loop of the second pass, from its rounds. *)
Lemma fold_stage {A : Type} (body : GoAnalyzer -> A -> GoAnalyzer)
    (Q : models.CallRelationship -> Prop) (a0 : GoAnalyzer) (l : list A) :
  (forall x s, In x l -> frozen a0 s -> stage Q s (body s x)) ->
  forall s, frozen a0 s -> stage Q s (fold_left body l s).
Proof.
  induction l as [|x l IH]; intros Hb s Hs; simpl; [apply stage_refl |].
  assert (H1 : stage Q s (body s x)) by (apply Hb; [now left | exact Hs]).
  apply stage_trans with (body s x); [exact H1 |].
  apply IH.
  - intros y t Hy. apply Hb. now right.
  - now apply stage_frozen with Q s.
Qed.

Lemma fromCall_frozen a0 s callerID r :
  frozen a0 s -> fromCall s callerID r -> fromCall a0 callerID r.
Proof. intros (Hi & _) (H1 & H2 & H3). repeat split; auto. now rewrite <- Hi. Qed.

Lemma processCall_stage a0 callerID recvName recvType callPos callFun
    typeInfo typePkg filePath s :
  frozen a0 s ->
  stage (fromCall a0 callerID) s
        (processCall callerID recvName recvType callPos callFun
                     typeInfo typePkg filePath s).
Proof.
  intros Hs.
  destruct (processCall_emitted callerID recvName recvType callPos callFun
              typeInfo typePkg filePath s) as (new & He & Hf).
  exists new. split; [exact He |]. revert Hf. apply List.Forall_impl.
  intros r. now apply fromCall_frozen.
Qed.

Lemma visitCall_stage a0 callerID recvName recvType typeInfo typePkg filePath s n :
  frozen a0 s ->
  stage (fromCall a0 callerID) s
        (visitCall callerID recvName recvType typeInfo typePkg filePath s n).
Proof.
  intros Hs. destruct n; simpl; try apply stage_refl.
  now apply processCall_stage.
Qed.

(** The two receiver loops agree on the receiver type. *)
Lemma recvOf_type (fields : list ast.Field) :
  snd (recvOf fields) = recvTypeOf fields.
Proof.
  unfold recvOf, recvTypeOf.
  generalize "" at 2 3. generalize "" at 1.
  induction fields as [|f fields IH]; intros n t; [reflexivity |].
  simpl. destruct (ast.Names f) as [|i ?]; apply IH.
Qed.

(** The caller identifier and the receiver that [visitFuncBodyForCalls]
    hands to [processCall]. *)
Definition callerOf (a : GoAnalyzer) (fnRecv : option (list ast.Field))
    (fnName : ast.Ident) (filePath : string) : string :=
  getComponentIDForFile a filePath (ast.Name fnName) (classOf fnRecv).

Definition recvNameOf (fnRecv : option (list ast.Field)) : string :=
  match fnRecv with Some fields => fst (recvOf fields) | None => "" end.

Lemma visitFuncBodyForCalls_eq fnRecv fnName body filePath typeInfo typePkg a :
  visitFuncBodyForCalls fnRecv fnName (Some body) filePath typeInfo typePkg a
  = fold_left (visitCall (callerOf a fnRecv fnName filePath)
                         (recvNameOf fnRecv) (classOf fnRecv)
                         typeInfo typePkg filePath)
              (ast.Inspect body) a.
Proof.
  unfold visitFuncBodyForCalls, callerOf, recvNameOf, classOf.
  destruct fnRecv as [fields |]; [| reflexivity].
  rewrite <- recvOf_type. destruct (recvOf fields) as [rn rt]. reflexivity.
Qed.

Lemma visitFuncBodyForCalls_stage a0 fnRecv fnName fnBody filePath typeInfo typePkg s :
  frozen a0 s ->
  stage (fromCall a0 (callerOf a0 fnRecv fnName filePath)) s
        (visitFuncBodyForCalls fnRecv fnName fnBody filePath typeInfo typePkg s).
Proof.
  intros Hs. destruct fnBody as [body |]; [| apply stage_refl].
  rewrite visitFuncBodyForCalls_eq.
  assert (Hc : callerOf s fnRecv fnName filePath = callerOf a0 fnRecv fnName filePath).
  { destruct Hs as (_ & _ & _ & Habs & _). unfold callerOf.
    now apply getComponentIDForFile_setting. }
  rewrite Hc. apply (fold_stage _ _ a0); [| exact Hs].
  intros n t _ Ht. now apply visitCall_stage.
Qed.

(** [r] was appended for a call in the body of declaration [n] of file
    [fp]. *)
Definition fromDecl (a0 : GoAnalyzer) (fp : string) (n : ast.Node)
    (r : models.CallRelationship) : Prop :=
  exists name cls,
    declares n name cls
    /\ fromCall a0 (getComponentIDForFile a0 fp name cls) r.

Lemma collectCall_stage a0 fp info s n :
  frozen a0 s -> stage (fromDecl a0 fp n) s (collectCall fp info s n).
Proof.
  intros Hs. destruct n; simpl; try apply stage_refl.
  apply stage_weaken with (fromCall a0 (callerOf a0 Recv FName fp)).
  - intros r Hr. exists (ast.Name FName), (classOf Recv). split; [| exact Hr].
    destruct Recv; constructor.
  - now apply visitFuncBodyForCalls_stage.
Qed.

Definition fromFile (a0 : GoAnalyzer) (fp : string) (info : fileInfo)
    (r : models.CallRelationship) : Prop :=
  exists n, In n (ast.InspectFile (file info)) /\ fromDecl a0 fp n r.

Lemma collectCalls_stage a0 fp info s :
  frozen a0 s -> stage (fromFile a0 fp info) s (collectCalls fp info s).
Proof.
  intros Hs. unfold collectCalls. apply (fold_stage _ _ a0); [| exact Hs].
  intros n t Hn Ht. apply stage_weaken with (fromDecl a0 fp n).
  - intros r Hr. now exists n.
  - now apply collectCall_stage.
Qed.

Definition fromFiles (a0 : GoAnalyzer) (files : list (string * fileInfo))
    (r : models.CallRelationship) : Prop :=
  exists fp info, In (fp, info) files /\ fromFile a0 fp info r.

Lemma secondPass_stage a0 files s :
  frozen a0 s -> stage (fromFiles a0 files) s (secondPass files s).
Proof.
  intros Hs. unfold secondPass. apply (fold_stage _ _ a0); [| exact Hs].
  intros [fp info] t Hin Ht. apply stage_weaken with (fromFile a0 fp info).
  - intros r Hr. now exists fp, info.
  - now apply collectCalls_stage.
Qed.

End WithEnv.

End ResolverFacts.

(* ===================================================================== *)
(** * Facts about a whole run *)
(* ===================================================================== *)

Module RunFacts.

Import GoString Props analyzer StringFacts LoopFacts CollectorFacts ResolverFacts.

Section WithEnv.

Context {E : Env}.

(** Every loop over the map goes over its entries, all of them. *)
Lemma mapRange_In {V : Type} (i : nat) (m : gmap string V) (k : string) (v : V) :
  In (k, v) (mapRange i m) <-> m !! k = Some v.
Proof.
  rewrite <- elem_of_map_to_list, <- list_elem_of_In.
  now rewrite (mapRange_perm V i m).
Qed.

(** ** The files gathered *)

(** The name under which the loader reports a file. *)
Definition reportedName (a : GoAnalyzer) (f : ast.File) : string :=
  token.Filename (FileSet a (ast.File_Pos f)).

(** An entry of [fileInfos]: a file the loader reported under a name that
    is not empty and not that of a test file, entered under the absolute
    form of that name, which lies in the repository, with the content
    read from there. *)
Definition gatheredEntry (a : GoAnalyzer) (fp : string) (info : fileInfo)
  : Prop :=
  String.eqb (reportedName a (file info)) "" = false
  /\ isTestFile (reportedName a (file info)) = false
  /\ fp = absOrSame (reportedName a (file info))
  /\ isPathInRepo (RepoAbs a) fp = true
  /\ os_ReadFile fp = Ok (content info).

Definition gathered (a : GoAnalyzer) (fileInfos : gmap string fileInfo) : Prop :=
  forall fp info, fileInfos !! fp = Some info -> gatheredEntry a fp info.

Lemma addFile_gathered a pkg f fi fi' :
  addFile a pkg f fi = Ok fi' -> gathered a fi -> gathered a fi'.
Proof.
  unfold addFile. cbv zeta. fold (reportedName a f).
  destruct (String.eqb (reportedName a f) "") eqn:Hn; simpl;
    [intros H; now injection H as <- |].
  destruct (isTestFile (reportedName a f)) eqn:Ht;
    [intros H; now injection H as <- |].
  destruct (isPathInRepo (RepoAbs a) (absOrSame (reportedName a f))) eqn:Hr; simpl;
    [| intros H; now injection H as <-].
  destruct (fi !! absOrSame (reportedName a f)) eqn:Hl;
    [intros H; now injection H as <- |].
  intros H Hg. apply bind_Ok in H as (content & Hc & H). injection H as <-.
  intros fp info Hfp.
  destruct (decide (absOrSame (reportedName a f) = fp)) as [<- | Hne].
  - rewrite lookup_insert_eq in Hfp. injection Hfp as <-.
    repeat split; auto.
  - rewrite lookup_insert_ne in Hfp by exact Hne. now apply Hg.
Qed.

Lemma gatherFiles_gathered a fi : gatherFiles a = Ok fi -> gathered a fi.
Proof.
  unfold gatherFiles. intros H.
  apply bind_Ok in H as (roots & _ & H). cbv zeta in H.
  assert (H0 : gathered a ∅) by (intros fp info Hl; now rewrite lookup_empty in Hl).
  revert H H0.
  apply (forM_rel (addRoot a) (fun s t => gathered a s -> gathered a t)); auto.
  intros root s t _ Hroot. unfold addRoot in Hroot.
  apply bind_Ok in Hroot as (pkgs & _ & Hroot). revert Hroot.
  apply (forM_rel (addPackage a) (fun s t => gathered a s -> gathered a t)); auto.
  intros pkg s' t' _. unfold addPackage.
  apply (forM_rel (addFile a pkg) (fun s t => gathered a s -> gathered a t)); auto.
  intros f s'' t'' _. apply addFile_gathered.
Qed.

(** ** The shape of [Analyze] *)

Lemma Analyze_passes a fi :
  gatherFiles a = Ok fi ->
  exists a1,
    firstPass (mapRange 0 fi) a = Ok a1
    /\ Analyze a = Ok (secondPass (mapRange 1 fi) a1).
Proof.
  intros H. destruct (firstPass_total (mapRange 0 fi) a) as [a1 H1].
  exists a1. split; [exact H1 |].
  unfold Analyze. rewrite H. simpl. rewrite H1. reflexivity.
Qed.

Lemma Analyze_Ok a b :
  Analyze a = Ok b ->
  exists fi a1,
    gatherFiles a = Ok fi
    /\ firstPass (mapRange 0 fi) a = Ok a1
    /\ b = secondPass (mapRange 1 fi) a1.
Proof.
  unfold Analyze. intros H.
  apply bind_Ok in H as (fi & Hg & H).
  apply bind_Ok in H as (a1 & H1 & H). injection H as <-.
  now exists fi, a1.
Qed.

(** ** A fresh analyzer *)

Definition fresh (a : GoAnalyzer) : Prop :=
  Nodes a = [] /\ Relationships a = [] /\ CollectedNodeIDs a = ∅.

Lemma NewGoAnalyzer_fresh repoPath a : NewGoAnalyzer repoPath = Ok a -> fresh a.
Proof.
  unfold NewGoAnalyzer. destruct (filepath_Abs repoPath); [| discriminate].
  intros H. injection H as <-. repeat split.
Qed.

(** After the first pass of a fresh analyzer: the nodes are those of the
    files, each with the identifier of its fields, and the identifiers
    registered are exactly theirs. *)
Lemma firstPass_fresh files a a1 :
  fresh a -> firstPass files a = Ok a1 ->
  sameSetting a a1 /\ Relationships a1 = []
  /\ (forall n, In n (Nodes a1) ->
        fileOf files (models.FilePath n)
        /\ getComponentIDForFile a1 (models.FilePath n) (models.Name n)
             (models.ClassName n) = models.ID n
        /\ (models.ComponentType n = "method" \/ models.ClassName n = ""))
  /\ (forall id, lookupID (CollectedNodeIDs a1) id = true <->
        exists n, In n (Nodes a1) /\ models.ID n = id).
Proof.
  intros (Hn & Hr & Hi) H.
  apply firstPass_extends in H as (Hs & Hr1 & new & Hn1 & Hg & Hid).
  rewrite Hn in Hn1. simpl in Hn1. rewrite Hn1.
  split; [exact Hs |]. split; [congruence |]. split.
  - intros n Hin. destruct (Hg n Hin) as (HF & Hrt & Hc). split; [exact HF |].
    split; [| exact Hc].
    rewrite <- Hrt. apply getComponentIDForFile_setting. now destruct Hs as (_ & ? & _).
  - intros id. rewrite Hid. rewrite Hi. unfold lookupID at 1.
    rewrite lookup_empty. simpl. split.
    + intros [H | H]; [discriminate | exact H].
    + now right.
Qed.

End WithEnv.

End RunFacts.

(* ===================================================================== *)
(** * The analyzer of one file does what the analyzer of a repository does *)
(* ===================================================================== *)

Module OneFileFacts.

Import GoString Props analyzer1.

Section WithEnv.

Context {E : Env}.

(** On the file of the analyzer, [getComponentID] is
    [getComponentIDForFile]: the two share the identifier scheme. *)
Lemma getComponentID_scheme (a : GoAnalyzer) (name receiverType : string) :
  getComponentID a name receiverType
  = analyzer.getComponentIDForFile (asRepo a) (FilePath a) name receiverType.
Proof. reflexivity. Qed.

(** [visitTypeSpec] does to the analyzer of one file what the later
    [visitTypeSpec] does for that file and its content. *)
Lemma visitTypeSpec_same tsDoc tsName tsType tsEnd genDeclDoc (a : GoAnalyzer) :
  match visitTypeSpec tsDoc tsName tsType tsEnd genDeclDoc a with
  | Ok b => Ok (asRepo b)
  | Failed e => Failed e
  | Panic => Panic
  end
  = analyzer.visitTypeSpec tsDoc tsName tsType tsEnd genDeclDoc
                           (FilePath a) (Content a) (asRepo a).
Proof.
  unfold visitTypeSpec, analyzer.visitTypeSpec.
  destruct tsType; try reflexivity;
    cbv zeta; rewrite <- getComponentID_scheme;
    change (analyzer.RepoAbs (asRepo a)) with (RepoPath a);
    change (analyzer.FileSet (asRepo a)) with (FileSet a);
    destruct (analyzer.captureSource _ _ _); reflexivity.
Qed.

(** [processCall] is the heuristic half of the later [processCall], for a
    caller without receiver. *)
Lemma processCall_same callerID callPos callFun (a : GoAnalyzer) :
  asRepo (processCall callerID callPos callFun a)
  = analyzer.processCall callerID "" "" callPos callFun None None
                         (FilePath a) (asRepo a).
Proof.
  unfold processCall, analyzer.processCall. cbv zeta.
  assert (Hc :
    match callFun with
    | ast.EIdent fun_ =>
        if negb (analyzer.isBuiltin (ast.Name fun_))
        then getComponentID a (ast.Name fun_) ""
        else ast.Name fun_
    | ast.SelectorExpr _ (ast.EIdent xIdent) sel_ =>
        ast.Name xIdent +:+ "." +:+ ast.Name sel_
    | _ => ""
    end
    = analyzer.heuristicCallee (asRepo a) "" "" callFun (FilePath a)).
  { destruct callFun; reflexivity. }
  rewrite Hc. now destruct (negb (String.eqb _ "")).
Qed.

End WithEnv.

End OneFileFacts.

(* ===================================================================== *)
(** * Example repositories *)
(* ===================================================================== *)

Module Examples.

Import GoString analyzer World.

(** The analyzer [NewGoAnalyzer] makes for the repository at [/r]. *)
Definition analyzerAt (E : Env) : GoAnalyzer :=
{| RepoPath := "/r"; RepoAbs := "/r"; FileSet := loadedFileSet;
   Nodes := []; Relationships := []; CollectedNodeIDs := ∅ |}.

Definition testpkg : types.Package :=
{| types.PackagePtr := 1; types.PackageName := "testpkg" |}.

(** ** A function that calls a function of its file and one of a package
    (the source of the repository's test [TestIsResolved]) *)

Definition callsSrc : string :=
"package testpkg

func Caller() {
	InternalFunc()  // same file - should be resolved
	fmt.Println()   // external package - should NOT be resolved
}

func InternalFunc() {}
".

Definition callsDisk : list SourceFile :=
[ {| Base := 1; Path := "/r/test_resolved.go"; Src := callsSrc |} ].

Definition callsFile : ast.File :=
{| ast.Package := 1;
   ast.FileName := ident 1 9 "testpkg";
   ast.Decls :=
     [ funcDecl (ident 2 23 "Caller")
         [ exprStmt (ast.CallExpr 35 (ast.EIdent (ident 3 35 "InternalFunc")) []);
           exprStmt (ast.CallExpr 86
                       (ast.SelectorExpr 4 (ast.EIdent (ident 5 86 "fmt"))
                                         (ident 6 90 "Println")) []) ]
         18 148;
       funcDecl (ident 7 155 "InternalFunc") [] 150 172 ] |}.

(** The loader without type facts. *)
Definition callsPkgs : list packages.Package :=
[ {| packages.Syntax := [callsFile]; packages.TypesInfo := None;
     packages.Types := None |} ].

(** The loader with type facts: [InternalFunc] is used at the call, [fmt]
    is not declared. *)
Definition callsInfo : types.Info :=
{| types.Uses :=
     {[ 3 := types.FuncObj {| types.Func_Pos := 155;
                              types.Func_Name := "InternalFunc";
                              types.Func_Pkg := Some testpkg;
                              types.Func_Type := types.Signature None |} ]};
   types.Selections := ∅ |}.

Definition callsTypedPkgs : list packages.Package :=
[ {| packages.Syntax := [callsFile]; packages.TypesInfo := Some callsInfo;
     packages.Types := Some testpkg |} ].

Definition callsEnv : Env := env callsDisk callsPkgs.
Definition callsTypedEnv : Env := env callsDisk callsTypedPkgs.

Definition callsInfoOf (src : string) : fileInfo :=
{| file := callsFile; info := None; pkg := None; content := src |}.

Definition callsFiles : gmap string fileInfo :=
{[ "/r/test_resolved.go" := callsInfoOf callsSrc ]}.

Definition callsTypedFiles : gmap string fileInfo :=
{[ "/r/test_resolved.go" :=
     {| file := callsFile; info := Some callsInfo; pkg := Some testpkg;
        content := callsSrc |} ]}.

(** ** A documented struct (the source of [TestAnalyzeStructSourceExtraction]) *)

Definition structSrc : string :=
"package testpkg

// MyStruct is a test struct
type MyStruct struct {
	Field1 string
}
".

Definition structDoc : ast.CommentGroup :=
lineComment 18 "// MyStruct is a test struct".

Definition structFields : list ast.Field :=
[ ast.mkField [ident 3 71 "Field1"] (ast.EIdent (ident 4 78 "string")) ].

Definition structFile : ast.File :=
{| ast.Package := 1;
   ast.FileName := ident 1 9 "testpkg";
   ast.Decls :=
     [ ast.GenDecl (Some structDoc) token.TYPE
         [ ast.TypeSpec None (ident 2 52 "MyStruct") []
                        (ast.StructType structFields) 86 ] ] |}.

Definition structDisk : list SourceFile :=
[ {| Base := 1; Path := "/r/test_struct.go"; Src := structSrc |} ].

Definition structEnv : Env :=
env structDisk
    [ {| packages.Syntax := [structFile]; packages.TypesInfo := None;
         packages.Types := None |} ].

(** ** A method that calls a method of its type through the receiver (the
    source of [TestAnalyzeMethodCalls]) *)

Definition methodSrc : string :=
"package testpkg

type T struct{}

func (t *T) A() {
	t.B()
}

func (t *T) B() {}
".

Definition methodFile : ast.File :=
{| ast.Package := 1;
   ast.FileName := ident 1 9 "testpkg";
   ast.Decls :=
     [ ast.GenDecl None token.TYPE
         [ ast.TypeSpec None (ident 2 23 "T") [] (ast.StructType []) 33 ];
       methodDecl (ident 3 41 "t") (ident 4 44 "T") (ident 5 47 "A")
         [ exprStmt (ast.CallExpr 54
                       (ast.SelectorExpr 6 (ast.EIdent (ident 7 54 "t"))
                                         (ident 8 56 "B")) []) ]
         35 61;
       methodDecl (ident 9 69 "t") (ident 10 72 "T") (ident 11 75 "B") [] 63 81 ] |}.

Definition methodDisk : list SourceFile :=
[ {| Base := 1; Path := "/r/test_method_calls.go"; Src := methodSrc |} ].

Definition methodFiles : gmap string fileInfo :=
{[ "/r/test_method_calls.go" :=
     {| file := methodFile; info := None; pkg := None; content := methodSrc |} ]}.

Definition methodEnv : Env :=
env methodDisk
    [ {| packages.Syntax := [methodFile]; packages.TypesInfo := None;
         packages.Types := None |} ].

(** ** Two [init] functions in one file *)

Definition initSrc : string :=
"package main

func init() {}

func init() {}
".

Definition initFile : ast.File :=
{| ast.Package := 1;
   ast.FileName := ident 1 9 "main";
   ast.Decls :=
     [ funcDecl (ident 2 20 "init") [] 15 29;
       funcDecl (ident 3 36 "init") [] 31 45 ] |}.

Definition initDisk : list SourceFile :=
[ {| Base := 1; Path := "/r/main.go"; Src := initSrc |} ].

Definition initEnv : Env :=
env initDisk
    [ {| packages.Syntax := [initFile]; packages.TypesInfo := None;
         packages.Types := None |} ].

(** ** A file [fmt.go] that declares [Println] and calls [fmt.Println] of
    the standard library *)

Definition quote : string := String (byteOf 34) "".

Definition fmtSrc : string :=
"package main

import " +:+ quote +:+ "fmt" +:+ quote +:+ "

func Println() {}

func main() {
	fmt.Println()
}
".

Definition fmtFile : ast.File :=
{| ast.Package := 1;
   ast.FileName := ident 1 9 "main";
   ast.Decls :=
     [ ast.GenDecl None token.IMPORT [ ast.OtherNode [] ];
       funcDecl (ident 2 34 "Println") [] 29 46;
       funcDecl (ident 3 53 "main")
         [ exprStmt (ast.CallExpr 63
                       (ast.SelectorExpr 4 (ast.EIdent (ident 5 63 "fmt"))
                                         (ident 6 67 "Println")) []) ]
         48 78 ] |}.

(** The file of the standard library that declares [fmt.Println], cut down
    to that declaration; the analyzer only asks for its name. *)
Definition printSrc : string :=
"package fmt

func Println(a ...any) (n int, err error) {
	return Fprintln(os.Stdout, a...)
}
".

Definition fmtDisk : list SourceFile :=
[ {| Base := 1; Path := "/r/fmt.go"; Src := fmtSrc |};
  {| Base := 1000; Path := "/usr/local/go/src/fmt/print.go"; Src := printSrc |} ].

Definition mainPackage : types.Package :=
{| types.PackagePtr := 1; types.PackageName := "main" |}.

Definition fmtPkg : types.Package :=
{| types.PackagePtr := 2; types.PackageName := "fmt" |}.

(** [fmt.Println] of the standard library. *)
Definition libPrintln : types.Func :=
{| types.Func_Pos := 1018;
   types.Func_Name := "Println";
   types.Func_Pkg := Some fmtPkg;
   types.Func_Type := types.Signature None |}.

(** The type facts of [fmt.go]: in the call, [fmt] is the imported package
    and [Println] its function; a qualified identifier is no selection. *)
Definition fmtInfo : types.Info :=
{| types.Uses := {[ 5 := types.PkgName; 6 := types.FuncObj libPrintln ]};
   types.Selections := ∅ |}.

Definition fmtFiles : gmap string fileInfo :=
{[ "/r/fmt.go" :=
     {| file := fmtFile; info := Some fmtInfo; pkg := Some mainPackage;
        content := fmtSrc |} ]}.

Definition fmtEnv : Env :=
env fmtDisk
    [ {| packages.Syntax := [fmtFile]; packages.TypesInfo := Some fmtInfo;
         packages.Types := Some mainPackage |} ].

(** ** A file [flag.go] that declares [Usage] and calls the variable
    [flag.Usage] of the standard library *)

Definition flagSrc : string :=
"package main

import " +:+ quote +:+ "flag" +:+ quote +:+ "

func Usage() {}

func main() {
	flag.Usage()
}
".

Definition flagCall : ast.Node :=
ast.SelectorExpr 4 (ast.EIdent (ident 5 62 "flag")) (ident 6 67 "Usage").

Definition flagFile : ast.File :=
{| ast.Package := 1;
   ast.FileName := ident 1 9 "main";
   ast.Decls :=
     [ ast.GenDecl None token.IMPORT [ ast.OtherNode [] ];
       funcDecl (ident 2 35 "Usage") [] 30 45;
       funcDecl (ident 3 52 "main") [ exprStmt (ast.CallExpr 62 flagCall []) ]
         47 76 ] |}.

Definition flagDisk : list SourceFile :=
[ {| Base := 1; Path := "/r/flag.go"; Src := flagSrc |} ].

(** The type facts of [flag.go]: in the call, [flag] is the imported
    package and [Usage] its variable, of function type. *)
Definition flagInfo : types.Info :=
{| types.Uses := {[ 5 := types.PkgName; 6 := types.OtherObj ]};
   types.Selections := ∅ |}.

Definition flagFiles : gmap string fileInfo :=
{[ "/r/flag.go" :=
     {| file := flagFile; info := Some flagInfo; pkg := Some mainPackage;
        content := flagSrc |} ]}.

Definition flagEnv : Env :=
env flagDisk
    [ {| packages.Syntax := [flagFile]; packages.TypesInfo := Some flagInfo;
         packages.Types := Some mainPackage |} ].

(** ** A file whose name is the letter U+012F, encoded as the bytes C4 AF *)

Definition ogonekPath : string := "/r/" +:+ str1 196 +:+ str1 175 +:+ ".go".

Definition ogonekSrc : string :=
"package main

func F() {}
".

Definition ogonekFile : ast.File :=
{| ast.Package := 1;
   ast.FileName := ident 1 9 "main";
   ast.Decls := [ funcDecl (ident 2 20 "F") [] 15 26 ] |}.

Definition ogonekEnv : Env :=
env [ {| Base := 1; Path := ogonekPath; Src := ogonekSrc |} ]
    [ {| packages.Syntax := [ogonekFile]; packages.TypesInfo := None;
         packages.Types := None |} ].

End Examples.

(* ===================================================================== *)
(** * The properties of the specification *)
(* ===================================================================== *)

Module Claims.

Import GoString Props analyzer StringFacts LoopFacts CollectorFacts
       ResolverFacts RunFacts.

(** What a run from a fresh analyzer goes through, in one statement: the
    first pass ends in a state [a1]; the second pass, started from [a1],
    keeps its identifiers, nodes and setting and appends relationships that
    come from calls in the files. *)
Lemma run_shape {E : Env} (repoPath : string) (a0 : GoAnalyzer)
    (fileInfos : gmap string fileInfo) :
  NewGoAnalyzer repoPath = Ok a0 ->
  gatherFiles a0 = Ok fileInfos ->
  exists a1,
    firstPass (mapRange 0 fileInfos) a0 = Ok a1
    /\ Analyze a0 = Ok (secondPass (mapRange 1 fileInfos) a1)
    /\ fresh a0
    /\ frozen a1 (secondPass (mapRange 1 fileInfos) a1)
    /\ stage (fromFiles a1 (mapRange 1 fileInfos)) a1
             (secondPass (mapRange 1 fileInfos) a1).
Proof.
  intros Hnew Hg. destruct (Analyze_passes a0 fileInfos Hg) as (a1 & H1 & HA).
  exists a1. split; [exact H1 |]. split; [exact HA |].
  split; [now apply NewGoAnalyzer_fresh with repoPath |].
  pose proof (secondPass_stage a1 (mapRange 1 fileInfos) a1 (frozen_refl a1)) as Hst.
  split; [| exact Hst].
  now apply stage_frozen with (fromFiles a1 (mapRange 1 fileInfos)) a1;
    [apply frozen_refl |].
Qed.

(** The nodes of a run carry the identifier of their own fields. *)
Lemma run_round_trip {E : Env} (repoPath : string) (a0 : GoAnalyzer)
    (fileInfos : gmap string fileInfo) :
  NewGoAnalyzer repoPath = Ok a0 ->
  gatherFiles a0 = Ok fileInfos ->
  exists a,
    Analyze a0 = Ok a
    /\ forall node, In node (Nodes a) ->
         getComponentIDForFile a (models.FilePath node) (models.Name node)
                               (models.ClassName node) = models.ID node.
Proof.
  intros Hnew Hg.
  destruct (run_shape repoPath a0 fileInfos Hnew Hg)
    as (a1 & H1 & HA & Hfresh & (_ & Hn & _ & Habs & _) & _).
  eexists. split; [exact HA |]. intros node Hin. rewrite Hn in Hin.
  destruct (firstPass_fresh _ _ _ Hfresh H1) as (_ & _ & Hnodes & _).
  destruct (Hnodes node Hin) as (_ & Hid & _).
  rewrite <- Hid. now apply getComponentIDForFile_setting.
Qed.

(** C1 - round-trip consistency: a run of [Analyze] from a fresh analyzer
    over the gathered files ends, and every node of its output carries the
    identifier that [getComponentIDForFile] computes from the node's own
    [FilePath], [Name] and [ClassName]; [ClassName] is empty unless the node
    is a method. *)
Theorem C1_round_trip {E : Env} (repoPath : string) (a0 : GoAnalyzer)
    (fileInfos : gmap string fileInfo) :
  NewGoAnalyzer repoPath = Ok a0 ->
  gatherFiles a0 = Ok fileInfos ->
  exists a,
    Analyze a0 = Ok a
    /\ forall node, In node (Nodes a) ->
         getComponentIDForFile a (models.FilePath node) (models.Name node)
                               (models.ClassName node) = models.ID node
         /\ (models.ComponentType node = "method" \/ models.ClassName node = "").
Proof.
  intros Hnew Hg.
  destruct (run_shape repoPath a0 fileInfos Hnew Hg)
    as (a1 & H1 & HA & Hfresh & (_ & Hn & _ & Habs & _) & _).
  eexists. split; [exact HA |]. intros node Hin. rewrite Hn in Hin.
  destruct (firstPass_fresh _ _ _ Hfresh H1) as (_ & _ & Hnodes & _).
  destruct (Hnodes node Hin) as (_ & Hid & Hc). split; [| exact Hc].
  rewrite <- Hid. now apply getComponentIDForFile_setting.
Qed.

(** The run on the repository of [TestIsResolved], without type facts. *)
Lemma C1_round_trip_witness :
  NewGoAnalyzer (E := Examples.callsEnv) "/r" = Ok (Examples.analyzerAt Examples.callsEnv)
  /\ gatherFiles (E := Examples.callsEnv) (Examples.analyzerAt Examples.callsEnv)
     = Ok Examples.callsFiles
  /\ exists a,
      Analyze (E := Examples.callsEnv) (Examples.analyzerAt Examples.callsEnv) = Ok a
      /\ forall node, In node (Nodes a) ->
           getComponentIDForFile (E := Examples.callsEnv) a (models.FilePath node)
             (models.Name node) (models.ClassName node) = models.ID node
           /\ (models.ComponentType node = "method" \/ models.ClassName node = "").
Proof.
  split; [reflexivity |]. split; [vm_compute; reflexivity |].
  apply (C1_round_trip (E := Examples.callsEnv) "/r" _ Examples.callsFiles);
    [reflexivity |].
  vm_compute; reflexivity.
Defined.

(** C10 - test-file exclusion: in a run from a fresh analyzer, every file
    the two passes go over is a file the loader reported under a name that
    does not end in [_test.go], entered under the absolute form of that name;
    every node of the output has such a file as its [FilePath]; every
    relationship has as its caller the identifier of a declaration of such a
    file; and every identifier in [CollectedNodeIDs] is the identifier of a
    node of the output, hence of a declaration of such a file. *)
Theorem C10_test_files_excluded {E : Env} (repoPath : string) (a0 : GoAnalyzer)
    (fileInfos : gmap string fileInfo) :
  NewGoAnalyzer repoPath = Ok a0 ->
  gatherFiles a0 = Ok fileInfos ->
  exists a,
    Analyze a0 = Ok a
    /\ (forall fp info,
          fileInfos !! fp = Some info ->
          isTestFile (reportedName a0 (file info)) = false
          /\ fp = absOrSame (reportedName a0 (file info)))
    /\ (forall node,
          In node (Nodes a) ->
          exists info, fileInfos !! models.FilePath node = Some info)
    /\ (forall r,
          In r (Relationships a) ->
          exists fp info n name cls,
            fileInfos !! fp = Some info
            /\ In n (ast.InspectFile (file info))
            /\ declares n name cls
            /\ models.Caller r = getComponentIDForFile a fp name cls)
    /\ (forall id,
          lookupID (CollectedNodeIDs a) id = true ->
          exists node info,
            In node (Nodes a) /\ models.ID node = id
            /\ fileInfos !! models.FilePath node = Some info).
Proof.
  intros Hnew Hg.
  destruct (run_shape repoPath a0 fileInfos Hnew Hg)
    as (a1 & H1 & HA & Hfresh & (Hi & Hn & _ & Habs & _) & (new & Hem & Hq)).
  eexists. split; [exact HA |].
  destruct (firstPass_fresh _ _ _ Hfresh H1) as (_ & Hr1 & Hnodes & Hids).
  assert (Hfile : forall node, In node (Nodes a1) ->
            exists info, fileInfos !! models.FilePath node = Some info).
  { intros node Hin. destruct (Hnodes node Hin) as ((info & Hf) & _).
    exists info. now apply mapRange_In in Hf. }
  split; [| split; [| split]].
  - intros fp info Hl.
    destruct (gatherFiles_gathered a0 fileInfos Hg fp info Hl) as (_ & Ht & Hfp & _).
    now split.
  - intros node Hin. rewrite Hn in Hin. now apply Hfile.
  - intros r Hin. destruct Hem as (Hrel & _).
    rewrite Hrel, Hr1 in Hin. simpl in Hin.
    rewrite List.Forall_forall in Hq.
    destruct (Hq r Hin) as (fp & info & Hf & n & Hn' & name & cls & Hd & Hc & _).
    exists fp, info, n, name, cls. apply mapRange_In in Hf.
    repeat split; auto. rewrite Hc. symmetry.
    now apply getComponentIDForFile_setting.
  - intros id Hid. rewrite Hi in Hid. apply Hids in Hid as (node & Hin & Hid).
    destruct (Hfile node Hin) as [info Hf].
    exists node, info. rewrite Hn. now repeat split.
Qed.

(** The run on the repository of [TestIsResolved], without type facts. *)
Lemma C10_test_files_excluded_witness :
  NewGoAnalyzer (E := Examples.callsEnv) "/r" = Ok (Examples.analyzerAt Examples.callsEnv)
  /\ gatherFiles (E := Examples.callsEnv) (Examples.analyzerAt Examples.callsEnv)
     = Ok Examples.callsFiles
  /\ exists a,
      Analyze (E := Examples.callsEnv) (Examples.analyzerAt Examples.callsEnv) = Ok a
      /\ forall node,
          In node (Nodes a) ->
          exists info, Examples.callsFiles !! models.FilePath node = Some info.
Proof.
  split; [reflexivity |]. split; [vm_compute; reflexivity |].
  destruct (C10_test_files_excluded (E := Examples.callsEnv) "/r"
              (Examples.analyzerAt Examples.callsEnv) Examples.callsFiles eq_refl)
    as (a & HA & _ & Hnodes & _); [vm_compute; reflexivity |].
  exists a. split; [exact HA | exact Hnodes].
Defined.

(** ** Calls that the second pass is sure to process *)

Lemma Inspect_self (n : ast.Node) : In n (ast.Inspect n).
Proof. destruct n; simpl; now left. Qed.

Lemma InspectFile_decl (f : ast.File) (n : ast.Node) :
  In n (ast.Decls f) -> In n (ast.InspectFile f).
Proof.
  intros H. unfold ast.InspectFile. right. apply in_flat_map.
  exists n. split; [exact H | apply Inspect_self].
Qed.

Lemma stage_keeps {E : Env} Q (a b : GoAnalyzer) (r : models.CallRelationship) :
  stage Q a b -> In r (Relationships a) -> In r (Relationships b).
Proof.
  intros (new & (Hrel & _) & _) H. rewrite Hrel. apply in_or_app. now left.
Qed.

(** A relationship that the round of [x] appends, in whatever state of the
    second pass the round starts, is there when the loop ends. *)
Lemma fold_stage_emits {E : Env} {A : Type}
    (body : GoAnalyzer -> A -> GoAnalyzer)
    (Q : models.CallRelationship -> Prop) (a0 : GoAnalyzer) (l : list A)
    (x : A) (r : models.CallRelationship) :
  (forall y s, In y l -> frozen a0 s -> stage Q s (body s y)) ->
  In x l ->
  (forall s, frozen a0 s -> In r (Relationships (body s x))) ->
  forall s, frozen a0 s -> In r (Relationships (fold_left body l s)).
Proof.
  intros Hb Hin Hx s Hs.
  apply in_split in Hin as (l1 & l2 & ->).
  rewrite fold_left_app. simpl.
  assert (H1 : stage Q s (fold_left body l1 s)).
  { apply (fold_stage _ _ a0); [| exact Hs].
    intros y t Hy. apply Hb. apply in_or_app. now left. }
  assert (Hs1 : frozen a0 (fold_left body l1 s)) by now apply stage_frozen with Q s.
  assert (H2 : stage Q (fold_left body l1 s) (body (fold_left body l1 s) x)).
  { apply Hb; [| exact Hs1]. apply in_or_app. right. now left. }
  assert (Hs2 : frozen a0 (body (fold_left body l1 s) x))
    by now apply stage_frozen with Q (fold_left body l1 s).
  apply stage_keeps with Q (body (fold_left body l1 s) x).
  - apply (fold_stage _ _ a0); [| exact Hs2].
    intros y t Hy. apply Hb. apply in_or_app. right. now right.
  - now apply Hx.
Qed.

Lemma mkRel_frozen {E : Env} (a0 s : GoAnalyzer) callerID callee callPos resolved :
  frozen a0 s ->
  mkRel s callerID callee callPos resolved
  = mkRel a0 callerID callee callPos resolved.
Proof. intros (_ & _ & _ & _ & Hf). unfold mkRel. now rewrite Hf. Qed.

(** A call in the body of a function declared at the top of a gathered file
    has the relationship that its [processCall] appends in the output of the
    second pass. *)
Lemma secondPass_emits {E : Env} (a1 : GoAnalyzer)
    (files : list (string * fileInfo)) (fp : string) (info : fileInfo)
    doc recv name tps params results body fpos fend
    callPos callFun args (r : models.CallRelationship) :
  In (fp, info) files ->
  In (ast.FuncDecl doc recv name tps params results (Some body) fpos fend)
     (ast.Decls (file info)) ->
  In (ast.CallExpr callPos callFun args) (ast.Inspect body) ->
  (forall s, frozen a1 s ->
     In r (Relationships
             (processCall (callerOf a1 recv name fp) (recvNameOf recv) (classOf recv)
                          callPos callFun (analyzer.info info) (pkg info) fp s))) ->
  In r (Relationships (secondPass files a1)).
Proof.
  intros Hf Hd Hc Hr. unfold secondPass.
  apply (fold_stage_emits _ (fromFiles a1 files) a1 files (fp, info));
    [| exact Hf | | apply frozen_refl].
  { intros [fp' info'] s Hin Hs. apply stage_weaken with (fromFile a1 fp' info').
    - intros r' Hr'. now exists fp', info'.
    - now apply collectCalls_stage. }
  intros s Hs. unfold collectCalls.
  apply (fold_stage_emits _ (fromFile a1 fp info) a1 _
           (ast.FuncDecl doc recv name tps params results (Some body) fpos fend));
    [| now apply InspectFile_decl | | exact Hs].
  { intros n t Hn Ht. apply stage_weaken with (fromDecl a1 fp n).
    - intros r' Hr'. now exists n.
    - now apply collectCall_stage. }
  intros t Ht. unfold collectCall. rewrite visitFuncBodyForCalls_eq.
  assert (Hcaller : callerOf t recv name fp = callerOf a1 recv name fp).
  { destruct Ht as (_ & _ & _ & Habs & _). unfold callerOf.
    now apply getComponentIDForFile_setting. }
  rewrite Hcaller.
  apply (fold_stage_emits _ (fromCall a1 (callerOf a1 recv name fp)) a1 _
           (ast.CallExpr callPos callFun args)); [| exact Hc | | exact Ht].
  { intros n u _ Hu. now apply visitCall_stage. }
  intros u Hu. unfold visitCall. now apply Hr.
Qed.

(** The heuristic path on a bare name that is registered for the file. *)
Lemma processCall_local {E : Env} (a1 s : GoAnalyzer) (fp name : string)
    callerID recvName recvType callPos (callee : ast.Ident) typeInfo typePkg :
  frozen a1 s ->
  registered a1 fp name "" ->
  isBuiltin name = false ->
  typeInfo = None \/ typePkg = None ->
  ast.Name callee = name ->
  processCall callerID recvName recvType callPos (ast.EIdent callee)
              typeInfo typePkg fp s
  = appendRel (mkRel a1 callerID (getComponentIDForFile a1 fp name "") callPos true) s.
Proof.
  intros Hs (Hreg & _) Hb Hno Hname.
  assert (Hid : getComponentIDForFile s fp name "" = getComponentIDForFile a1 fp name "").
  { destruct Hs as (_ & _ & _ & Habs & _). now apply getComponentIDForFile_setting. }
  assert (Hh :
    (let calleeName := heuristicCallee s recvName recvType (ast.EIdent callee) fp in
     if negb (String.eqb calleeName "")
     then appendRel (mkRel s callerID calleeName callPos
                           (lookupID (CollectedNodeIDs s) calleeName)) s
     else s)
    = appendRel (mkRel a1 callerID (getComponentIDForFile a1 fp name "") callPos true) s).
  { cbv zeta. simpl heuristicCallee. rewrite Hname, Hb. simpl negb.
    cbv iota. rewrite Hid, getComponentIDForFile_nonempty. simpl negb. cbv iota.
    destruct Hs as (Hi & Hrest). rewrite Hi, Hreg.
    now rewrite (mkRel_frozen a1 s) by (split; [exact Hi | exact Hrest]). }
  unfold processCall.
  destruct Hno as [-> | ->]; [exact Hh |].
  destruct typeInfo; exact Hh.
Qed.

(** C4 - local resolution on the heuristic path: in a run from a fresh
    analyzer, let a gathered file without type facts declare a free function
    whose name is not a builtin name.  Then the function has a node, with an
    empty [ClassName] and the identifier computed for that name in that file
    with no enclosing type; processing a call of that bare name in that file,
    in any state of the second pass, appends exactly one relationship, with
    that identifier as callee and [IsResolved] true; and for a call in the
    body of a function declared in the file, this relationship is in the
    output of the run. *)
Theorem C4_local_resolution {E : Env} (repoPath : string) (a0 : GoAnalyzer)
    (fileInfos : gmap string fileInfo) (fp : string) (info : fileInfo)
    doc (fname : ast.Ident) tps params results body fpos fend :
  NewGoAnalyzer repoPath = Ok a0 ->
  gatherFiles a0 = Ok fileInfos ->
  fileInfos !! fp = Some info ->
  analyzer.info info = None \/ pkg info = None ->
  In (ast.FuncDecl doc None fname tps params results body fpos fend)
     (ast.Decls (file info)) ->
  isBuiltin (ast.Name fname) = false ->
  exists a1 a node,
    firstPass (mapRange 0 fileInfos) a0 = Ok a1
    /\ Analyze a0 = Ok a
    /\ In node (Nodes a)
    /\ models.Name node = ast.Name fname
    /\ models.ClassName node = ""
    /\ models.FilePath node = fp
    /\ models.ID node = getComponentIDForFile a fp (ast.Name fname) ""
    /\ (forall s callerID recvName recvType callPos callee typeInfo typePkg,
          frozen a1 s ->
          typeInfo = None \/ typePkg = None ->
          ast.Name callee = ast.Name fname ->
          processCall callerID recvName recvType callPos (ast.EIdent callee)
                      typeInfo typePkg fp s
          = appendRel (mkRel a callerID (models.ID node) callPos true) s)
    /\ (forall gdoc grecv gname gtps gparams gresults gbody gpos gend
               callPos callee args,
          In (ast.FuncDecl gdoc grecv gname gtps gparams gresults (Some gbody)
                           gpos gend) (ast.Decls (file info)) ->
          In (ast.CallExpr callPos (ast.EIdent callee) args) (ast.Inspect gbody) ->
          ast.Name callee = ast.Name fname ->
          In (mkRel a (getComponentIDForFile a fp (ast.Name gname) (classOf grecv))
                    (models.ID node) callPos true)
             (Relationships a)).
Proof.
  intros Hnew Hg Hl Hno Hd Hb.
  destruct (run_shape repoPath a0 fileInfos Hnew Hg)
    as (a1 & H1 & HA & Hfresh & Hfr & _).
  assert (Hreg : registered a1 fp (ast.Name fname) "").
  { apply (firstPass_declares (mapRange 0 fileInfos) fp info
             (ast.FuncDecl doc None fname tps params results body fpos fend)
             (ast.Name fname) "" a0 a1); auto.
    - now apply mapRange_In.
    - now apply InspectFile_decl.
    - constructor. }
  destruct Hreg as (Hlk & node & Hin & Hid & Hn & Hc & Hp).
  assert (Hreg : registered a1 fp (ast.Name fname) "").
  { split; [exact Hlk |]. exists node. repeat split; auto. }
  pose proof Hfr as (_ & Hnodes & _ & Habs & _).
  assert (Hida : forall n c, getComponentIDForFile (secondPass (mapRange 1 fileInfos) a1) fp n c
                             = getComponentIDForFile a1 fp n c).
  { intros n c. now apply getComponentIDForFile_setting. }
  assert (Hmk : forall callerID callee callPos res,
            mkRel (secondPass (mapRange 1 fileInfos) a1) callerID callee callPos res
            = mkRel a1 callerID callee callPos res).
  { intros. now apply mkRel_frozen. }
  exists a1, (secondPass (mapRange 1 fileInfos) a1), node.
  split; [exact H1 |]. split; [exact HA |].
  split; [now rewrite Hnodes |].
  split; [exact Hn |]. split; [exact Hc |]. split; [exact Hp |].
  split; [now rewrite Hida |]. split.
  - intros s callerID recvName recvType callPos callee typeInfo typePkg Hs Hty Hname.
    rewrite Hmk, Hid.
    now apply processCall_local.
  - intros gdoc grecv gname gtps gparams gresults gbody gpos gend
           callPos callee args Hgd Hcall Hname.
    rewrite Hmk, Hida, Hid.
    apply (secondPass_emits a1 (mapRange 1 fileInfos) fp info
             gdoc grecv gname gtps gparams gresults gbody gpos gend
             callPos (ast.EIdent callee) args); auto.
    + now apply mapRange_In.
    + intros s Hs.
      rewrite (processCall_local a1 s fp (ast.Name fname)); auto.
      simpl. apply in_or_app. right. now left.
Qed.

(** The run on the repository of [TestIsResolved], without type facts: the
    call of [InternalFunc] in the body of [Caller]. *)
Lemma C4_local_resolution_witness :
  NewGoAnalyzer (E := Examples.callsEnv) "/r" = Ok (Examples.analyzerAt Examples.callsEnv)
  /\ gatherFiles (E := Examples.callsEnv) (Examples.analyzerAt Examples.callsEnv)
     = Ok Examples.callsFiles
  /\ Examples.callsFiles !! "/r/test_resolved.go"
     = Some (Examples.callsInfoOf Examples.callsSrc)
  /\ isBuiltin "InternalFunc" = false
  /\ exists a node,
      Analyze (E := Examples.callsEnv) (Examples.analyzerAt Examples.callsEnv) = Ok a
      /\ In node (Nodes a)
      /\ models.Name node = "InternalFunc"
      /\ In (mkRel a
               (getComponentIDForFile (E := Examples.callsEnv) a
                  "/r/test_resolved.go" "Caller" "")
               (models.ID node) 35 true)
            (Relationships a).
Proof.
  split; [reflexivity |]. split; [vm_compute; reflexivity |].
  split; [vm_compute; reflexivity |]. split; [reflexivity |].
  destruct (C4_local_resolution (E := Examples.callsEnv) "/r"
              (Examples.analyzerAt Examples.callsEnv) Examples.callsFiles
              "/r/test_resolved.go" (Examples.callsInfoOf Examples.callsSrc)
              None (World.ident 7 155 "InternalFunc") [] (Some []) []
              (Some (World.block [])) 150 172)
    as (a1 & a & node & _ & HA & Hin & Hn & _ & _ & _ & _ & Hrun).
  - reflexivity.
  - vm_compute; reflexivity.
  - vm_compute; reflexivity.
  - now left.
  - simpl. right. now left.
  - reflexivity.
  - exists a, node. split; [exact HA |]. split; [exact Hin |]. split; [exact Hn |].
    apply (Hrun None None (World.ident 2 23 "Caller") [] (Some []) []
                (World.block
                   [ World.exprStmt
                       (ast.CallExpr 35 (ast.EIdent (World.ident 3 35 "InternalFunc")) []);
                     World.exprStmt
                       (ast.CallExpr 86
                          (ast.SelectorExpr 4 (ast.EIdent (World.ident 5 86 "fmt"))
                                            (World.ident 6 90 "Println")) []) ])
                18 148 35 (World.ident 3 35 "InternalFunc") []).
    + simpl. now left.
    + simpl. right. right. now left.
    + reflexivity.
Defined.

(** ** The heuristic path, as an equation *)

Lemma hasDot_nonempty (s : string) : hasDot s = true -> String.eqb s "" = false.
Proof. destruct s; [discriminate | reflexivity]. Qed.

Lemma processCall_heuristic_eq {E : Env} callerID recvName recvType callPos callFun
    typeInfo typePkg filePath (a : GoAnalyzer) :
  heuristicPath a callFun typeInfo typePkg ->
  processCall callerID recvName recvType callPos callFun typeInfo typePkg filePath a
  = (let callee := heuristicCallee a recvName recvType callFun filePath in
     if String.eqb callee "" then a
     else appendRel (mkRel a callerID callee callPos
                           (lookupID (CollectedNodeIDs a) callee)) a).
Proof.
  unfold heuristicPath, processCall. cbv zeta. intros H.
  assert (Hh :
    (if negb (String.eqb (heuristicCallee a recvName recvType callFun filePath) "")
     then appendRel (mkRel a callerID
               (heuristicCallee a recvName recvType callFun filePath) callPos
               (lookupID (CollectedNodeIDs a)
                  (heuristicCallee a recvName recvType callFun filePath))) a
     else a)
    = (if String.eqb (heuristicCallee a recvName recvType callFun filePath) ""
       then a
       else appendRel (mkRel a callerID
               (heuristicCallee a recvName recvType callFun filePath) callPos
               (lookupID (CollectedNodeIDs a)
                  (heuristicCallee a recvName recvType callFun filePath))) a))
    by now destruct (String.eqb _ "").
  destruct typeInfo as [ti |]; [| exact Hh].
  destruct typePkg as [tp |]; [| exact Hh].
  destruct (resolveCallWithTypes a callFun ti tp) as [[callee resolved] ok].
  simpl in H. subst ok. exact Hh.
Qed.

(** C6 - the heuristic selector rule: [visitFuncBodyForCalls] on a method
    hands every call of the body to [processCall] with the receiver name and
    the receiver type of the declaration (for a receiver [r T] or [r *T]: the
    name [r] and the text of [T]; the name is empty when the receiver has
    none).  For a selector call [X.Sel] with [X] an identifier, on the
    heuristic path: if [X] is the receiver name and the receiver type is not
    empty, the callee is the identifier computed from the caller's file, the
    receiver type and [Sel]; otherwise the callee is the text [X.Sel]; either
    way one relationship is appended, with [IsResolved] the membership of the
    callee in [CollectedNodeIDs]. *)
Theorem C6_heuristic_selector {E : Env} (a : GoAnalyzer)
    (fields : list ast.Field) (fnName : ast.Ident) (body : ast.Node)
    (filePath : string) (typeInfo : option types.Info)
    (typePkg : option types.Package) :
  let callerID := getComponentIDForFile a filePath (ast.Name fnName) (recvTypeOf fields) in
  let recvName := fst (recvOf fields) in
  let recvType := recvTypeOf fields in
  visitFuncBodyForCalls (Some fields) fnName (Some body) filePath typeInfo typePkg a
  = fold_left (visitCall callerID recvName recvType typeInfo typePkg filePath)
              (ast.Inspect body) a
  /\ (forall r names T,
        fields = [ast.mkField (r :: names) T] ->
        recvName = ast.Name r /\ recvType = stripStar (typeToString T))
  /\ (forall T, fields = [ast.mkField [] T] -> recvName = "")
  /\ (forall s callPos p x sel args,
        heuristicPath s (ast.SelectorExpr p (ast.EIdent x) sel) typeInfo typePkg ->
        recvName <> "" -> ast.Name x = recvName -> recvType <> "" ->
        let callee := getComponentIDForFile s filePath (ast.Name sel) recvType in
        visitCall callerID recvName recvType typeInfo typePkg filePath s
                  (ast.CallExpr callPos (ast.SelectorExpr p (ast.EIdent x) sel) args)
        = appendRel (mkRel s callerID callee callPos
                           (lookupID (CollectedNodeIDs s) callee)) s)
  /\ (forall s callPos p x sel args,
        heuristicPath s (ast.SelectorExpr p (ast.EIdent x) sel) typeInfo typePkg ->
        recvName = "" \/ ast.Name x <> recvName \/ recvType = "" ->
        let callee := ast.Name x +:+ "." +:+ ast.Name sel in
        visitCall callerID recvName recvType typeInfo typePkg filePath s
                  (ast.CallExpr callPos (ast.SelectorExpr p (ast.EIdent x) sel) args)
        = appendRel (mkRel s callerID callee callPos
                           (lookupID (CollectedNodeIDs s) callee)) s).
Proof.
  cbv zeta. split; [| split; [| split; [| split]]].
  - rewrite visitFuncBodyForCalls_eq. reflexivity.
  - intros r names T ->. split; reflexivity.
  - intros T ->. reflexivity.
  - intros s callPos p x sel args Hh Hrn Hx Hrt. unfold visitCall.
    rewrite processCall_heuristic_eq by exact Hh. cbv zeta.
    simpl heuristicCallee.
    apply String.eqb_neq in Hrn, Hrt. apply String.eqb_eq in Hx.
    rewrite Hrn, Hrt, Hx. simpl andb. cbv iota.
    now rewrite getComponentIDForFile_nonempty.
  - intros s callPos p x sel args Hh Hor. unfold visitCall.
    rewrite processCall_heuristic_eq by exact Hh. cbv zeta.
    simpl heuristicCallee.
    assert (Hc : negb (String.eqb (fst (recvOf fields)) "")
                 && negb (String.eqb (recvTypeOf fields) "")
                 && String.eqb (ast.Name x) (fst (recvOf fields)) = false).
    { destruct Hor as [H | [H | H]].
      - rewrite H. reflexivity.
      - apply String.eqb_neq in H. rewrite H. apply andb_false_r.
      - rewrite H. simpl. now rewrite andb_false_r. }
    rewrite Hc.
    rewrite hasDot_nonempty; [reflexivity |].
    rewrite hasDot_app. apply orb_true_iff. right. reflexivity.
Qed.

(** The method [A] of [TestAnalyzeMethodCalls], with receiver [t *T], and
    its call [t.B()]. *)
Lemma C6_heuristic_selector_witness :
  exists callee,
    callee = getComponentIDForFile (E := Examples.methodEnv)
               (Examples.analyzerAt Examples.methodEnv)
               "/r/test_method_calls.go" "B" "T"
    /\ visitCall (E := Examples.methodEnv)
         (getComponentIDForFile (E := Examples.methodEnv)
            (Examples.analyzerAt Examples.methodEnv) "/r/test_method_calls.go" "A" "T")
         "t" "T" None None "/r/test_method_calls.go"
         (Examples.analyzerAt Examples.methodEnv)
         (ast.CallExpr 54
            (ast.SelectorExpr 6 (ast.EIdent (World.ident 7 54 "t")) (World.ident 8 56 "B"))
            [])
       = appendRel
           (mkRel (Examples.analyzerAt Examples.methodEnv)
              (getComponentIDForFile (E := Examples.methodEnv)
                 (Examples.analyzerAt Examples.methodEnv)
                 "/r/test_method_calls.go" "A" "T")
              callee 54
              (lookupID (CollectedNodeIDs (Examples.analyzerAt Examples.methodEnv)) callee))
           (Examples.analyzerAt Examples.methodEnv).
Proof.
  eexists. split; [reflexivity |].
  destruct (C6_heuristic_selector (E := Examples.methodEnv)
              (Examples.analyzerAt Examples.methodEnv)
              [ast.mkField [World.ident 3 41 "t"]
                           (ast.StarExpr (ast.EIdent (World.ident 4 44 "T")))]
              (World.ident 5 47 "A") (World.block [])
              "/r/test_method_calls.go" None None)
    as (_ & _ & _ & Hrecv & _).
  apply (Hrecv (Examples.analyzerAt Examples.methodEnv) 54 6
               (World.ident 7 54 "t") (World.ident 8 56 "B") []).
  - exact I.
  - discriminate.
  - reflexivity.
  - discriminate.
Defined.

(** C8 - span-extraction safety: capturing the source never panics and
    never fails; for offsets out of bounds for the content (start negative,
    end past the content, or start after end) it gives the empty string;
    anything but the empty string is only ever taken with the offsets in
    bounds.  So [visitTypeSpec] and [visitFuncDecl] always return, and the
    node they append for out-of-bounds offsets has an empty [SourceCode]. *)
Theorem C8_span_extraction_safe {E : Env} :
  (forall content s e, exists src, captureSource content s e = Ok src)
  /\ (forall content s e,
        outOfBounds content s e -> captureSource content s e = Ok "")
  /\ (forall content s e src,
        captureSource content s e = Ok src -> src <> "" ->
        0 <= s /\ s <= e /\ e <= len content
        /\ sliceBytes content s e = Ok src)
  /\ (forall tsDoc tsName tsType tsEnd genDeclDoc fp content a,
        exists b,
          visitTypeSpec tsDoc tsName tsType tsEnd genDeclDoc fp content a = Ok b
          /\ (isStructOrInterface tsType = true ->
              outOfBounds content
                (startOffsetOf a (effectiveDoc tsDoc genDeclDoc) (ast.NamePos tsName))
                (token.Offset (FileSet a tsEnd)) ->
              exists node,
                Nodes b = Nodes a ++ [node] /\ models.SourceCode node = ""))
  /\ (forall fnDoc fnRecv fnName fnParams fnPos fnEnd fp content a,
        exists b,
          visitFuncDecl fnDoc fnRecv fnName fnParams fnPos fnEnd fp content a = Ok b
          /\ (outOfBounds content (startOffsetOf a fnDoc fnPos)
                          (token.Offset (FileSet a fnEnd)) ->
              exists node,
                Nodes b = Nodes a ++ [node] /\ models.SourceCode node = "")).
Proof.
  split; [apply captureSource_total |].
  split; [apply captureSource_outside |].
  split; [| split].
  - intros content s e src H Hne.
    destruct (captureSource_cases content s e) as [(H1 & H2 & H3) | Ho].
    + repeat split; auto. unfold captureSource in H.
      assert (Hg : (s >=? 0) && (e <=? len content) && (s <=? e) = true).
      { rewrite !andb_true_iff. repeat split; lia. }
      now rewrite Hg in H.
    + rewrite captureSource_outside in H by exact Ho.
      injection H as <-. now destruct Hne.
  - intros tsDoc tsName tsType tsEnd genDeclDoc fp content a.
    destruct (isStructOrInterface tsType) eqn:Hk.
    + destruct (visitTypeSpec_adds tsDoc tsName tsType tsEnd genDeclDoc fp content a Hk)
        as (node & H & _ & _ & _ & _ & _ & Hsrc).
      eexists. split; [exact H |]. intros _ Ho. exists node.
      split; [reflexivity |].
      rewrite captureSource_outside in Hsrc by exact Ho. now injection Hsrc.
    + exists a. split; [now apply visitTypeSpec_skips | discriminate].
  - intros fnDoc fnRecv fnName fnParams fnPos fnEnd fp content a.
    destruct (visitFuncDecl_adds fnDoc fnRecv fnName fnParams fnPos fnEnd fp content a)
      as (node & H & _ & _ & _ & Hsrc).
    eexists. split; [exact H |]. intros Ho. exists node.
    split; [reflexivity |].
    rewrite captureSource_outside in Hsrc by exact Ho. now injection Hsrc.
Qed.

(** An end offset past a buffer of three bytes. *)
Lemma C8_span_extraction_safe_witness :
  outOfBounds "abc" 2 7 /\ captureSource "abc" 2 7 = Ok "".
Proof.
  assert (Ho : outOfBounds "abc" 2 7) by (right; left; reflexivity).
  split; [exact Ho |].
  destruct (C8_span_extraction_safe (E := Examples.callsEnv)) as (_ & H & _).
  now apply H.
Defined.

(** The identifiers of two declarations of one file whose names and
    enclosing types have no dot tell the declarations apart. *)
Lemma getComponentIDForFile_inj {E : Env} (a : GoAnalyzer) fp name1 cls1 name2 cls2 :
  hasDot name1 = false -> hasDot cls1 = false ->
  hasDot name2 = false -> hasDot cls2 = false ->
  getComponentIDForFile a fp name1 cls1 = getComponentIDForFile a fp name2 cls2 ->
  name1 = name2 /\ cls1 = cls2.
Proof.
  intros Hn1 Hc1 Hn2 Hc2. rewrite !getComponentIDForFile_eq. cbv zeta.
  intros H. apply sapp_cancel_l in H.
  rewrite !sapp_cons, !sapp_nil_l in H. injection H as H.
  destruct (String.eqb_spec cls1 "") as [-> | Hne1],
           (String.eqb_spec cls2 "") as [-> | Hne2].
  - now split.
  - rewrite H, hasDot_app in Hn1. apply orb_false_elim in Hn1 as [_ Hn1].
    discriminate Hn1.
  - rewrite <- H, hasDot_app in Hn2. apply orb_false_elim in Hn2 as [_ Hn2].
    discriminate Hn2.
  - apply split_first_dot in H as [-> ->]; auto.
Qed.

(** C9, as amended - identifier uniqueness within a file: in a run from a
    fresh analyzer, two nodes of the same file whose [Name] and [ClassName]
    contain no dot have the same identifier only if they have the same
    [Name] and the same [ClassName].  (Nodes are appended without a check
    for duplicates: declarations that agree on file, enclosing type and name
    share their identifier.) *)
Theorem C9_ids_distinct_within_file {E : Env} (repoPath : string)
    (a0 : GoAnalyzer) (fileInfos : gmap string fileInfo) :
  NewGoAnalyzer repoPath = Ok a0 ->
  gatherFiles a0 = Ok fileInfos ->
  exists a,
    Analyze a0 = Ok a
    /\ forall n1 n2,
        In n1 (Nodes a) -> In n2 (Nodes a) ->
        models.FilePath n1 = models.FilePath n2 ->
        hasDot (models.Name n1) = false -> hasDot (models.ClassName n1) = false ->
        hasDot (models.Name n2) = false -> hasDot (models.ClassName n2) = false ->
        models.ID n1 = models.ID n2 ->
        models.Name n1 = models.Name n2
        /\ models.ClassName n1 = models.ClassName n2.
Proof.
  intros Hnew Hg.
  destruct (run_round_trip repoPath a0 fileInfos Hnew Hg) as (a & HA & Hrt).
  exists a. split; [exact HA |].
  intros n1 n2 H1 H2 Hfp Hn1 Hc1 Hn2 Hc2 Hid.
  rewrite <- (Hrt n1 H1), <- (Hrt n2 H2), Hfp in Hid.
  now apply (getComponentIDForFile_inj a (models.FilePath n2)).
Qed.

(** The run on the repository of [TestAnalyzeMethodCalls]: the type [T]
    and its methods [A] and [B]. *)
Lemma C9_ids_distinct_within_file_witness :
  NewGoAnalyzer (E := Examples.methodEnv) "/r" = Ok (Examples.analyzerAt Examples.methodEnv)
  /\ gatherFiles (E := Examples.methodEnv) (Examples.analyzerAt Examples.methodEnv)
     = Ok Examples.methodFiles
  /\ exists a,
      Analyze (E := Examples.methodEnv) (Examples.analyzerAt Examples.methodEnv) = Ok a
      /\ forall n1 n2,
          In n1 (Nodes a) -> In n2 (Nodes a) ->
          models.FilePath n1 = models.FilePath n2 ->
          hasDot (models.Name n1) = false -> hasDot (models.ClassName n1) = false ->
          hasDot (models.Name n2) = false -> hasDot (models.ClassName n2) = false ->
          models.ID n1 = models.ID n2 ->
          models.Name n1 = models.Name n2
          /\ models.ClassName n1 = models.ClassName n2.
Proof.
  split; [reflexivity |]. split; [vm_compute; reflexivity |].
  apply (C9_ids_distinct_within_file (E := Examples.methodEnv) "/r" _
           Examples.methodFiles); [reflexivity |].
  vm_compute; reflexivity.
Defined.

(** C9, as stated, fails: the two [init] functions of one file get two
    nodes, on lines 3 and 5, with the same identifier. *)
Lemma C9_counterexample :
  exists a n1 n2,
    Analyze (E := Examples.initEnv) (Examples.analyzerAt Examples.initEnv) = Ok a
    /\ Nodes a = [n1; n2]
    /\ models.StartLine n1 = 3 /\ models.StartLine n2 = 5
    /\ models.ComponentType n1 = "function" /\ models.ComponentType n2 = "function"
    /\ models.ID n1 = "main.init" /\ models.ID n2 = "main.init".
Proof.
  eexists. eexists. eexists. split; [vm_compute; reflexivity |].
  repeat split.
Qed.

(** ** The text of a one-line comment *)

Lemma splitLines_one_line (s cur : string) :
  hasNewline s = false -> splitLines s cur = [cur +:+ s].
Proof.
  revert cur. induction s as [|c s IH]; intros cur H.
  - simpl. now rewrite sapp_nil_r.
  - simpl in H. apply orb_false_elim in H as [Hc Hs].
    simpl. rewrite Hc. rewrite IH by exact Hs.
    now rewrite sapp_assoc, sapp_cons, sapp_nil_l.
Qed.

(** The text of the group of one comment [// t], for a [t] of one line that
    is not empty and does not end in white space: [t] and a newline. *)
Lemma Text_line_comment (c : ast.Comment) (t : string) :
  ast.Text c = "// " +:+ t ->
  hasNewline t = false -> ast.stripTrailingWhitespace t = t -> t <> "" ->
  ast.CommentGroup_Text {| ast.ListHead := c; ast.ListTail := [] |}
  = t +:+ newline.
Proof.
  intros Hc Hnl Hst Hne.
  unfold ast.CommentGroup_Text, ast.List. simpl ast.ListHead. simpl ast.ListTail.
  simpl flat_map. rewrite app_nil_r. unfold ast.commentLines. rewrite Hc.
  change (ast.unmarked ("// " +:+ t)) with (Some t). cbv beta iota.
  rewrite splitLines_one_line by exact Hnl. rewrite sapp_nil_l.
  simpl map. rewrite Hst. simpl fold_left. unfold ast.keepLine.
  rewrite eqb_empty_false by exact Hne. simpl negb. simpl orb. cbv iota.
  simpl app. simpl List.last.
  destruct t as [|c0 t']; [now destruct Hne |]. reflexivity.
Qed.

(** C7, as amended - documentation attachment: for a struct or interface
    declaration whose documentation is the one-line comment [// t], with [t]
    not empty and not ending in white space, and offsets in bounds, the node
    made has [HasDocstring] true, [Docstring] equal to [t] followed by a
    newline, and [SourceCode] equal to the content from the offset of the
    comment to the end of the declaration. *)
Theorem C7_documentation_attached {E : Env} (a : GoAnalyzer)
    (tsDoc genDeclDoc : option ast.CommentGroup) (tsName : ast.Ident)
    (tsType : ast.Node) (tsEnd : token.Pos) (fp content : string)
    (c : ast.Comment) (t : string) :
  isStructOrInterface tsType = true ->
  effectiveDoc tsDoc genDeclDoc = Some {| ast.ListHead := c; ast.ListTail := [] |} ->
  ast.Text c = "// " +:+ t ->
  hasNewline t = false -> ast.stripTrailingWhitespace t = t -> t <> "" ->
  let docOffset := token.Offset (FileSet a (ast.Slash c)) in
  let endOffset := token.Offset (FileSet a tsEnd) in
  0 <= docOffset -> docOffset <= endOffset -> endOffset <= len content ->
  exists node,
    visitTypeSpec tsDoc tsName tsType tsEnd genDeclDoc fp content a
    = Ok (appendNode node (registerID (models.ID node) a))
    /\ models.Name node = ast.Name tsName
    /\ models.HasDocstring node = true
    /\ models.Docstring node = t +:+ newline
    /\ models.SourceCode node = slice content docOffset endOffset.
Proof.
  intros Hk Hdoc Hc Hnl Hst Hne docOffset endOffset H1 H2 H3.
  destruct (visitTypeSpec_adds tsDoc tsName tsType tsEnd genDeclDoc fp content a Hk)
    as (node & H & _ & Hn & _ & Hh & Hd & Hsrc).
  exists node. split; [exact H |]. split; [exact Hn |].
  rewrite Hdoc in Hh, Hd, Hsrc. split; [exact Hh |]. split.
  - rewrite Hd. simpl ast.Doc_Text. now apply Text_line_comment.
  - unfold startOffsetOf, ast.CommentGroup_Pos in Hsrc. simpl ast.ListHead in Hsrc.
    fold docOffset endOffset in Hsrc.
    rewrite captureSource_inside in Hsrc by assumption. now injection Hsrc.
Qed.

(** The struct of [TestAnalyzeStructSourceExtraction]. *)
Lemma C7_documentation_attached_witness :
  exists node,
    visitTypeSpec (E := Examples.structEnv) None (World.ident 2 52 "MyStruct")
      (ast.StructType Examples.structFields) 86 (Some Examples.structDoc)
      "/r/test_struct.go" Examples.structSrc (Examples.analyzerAt Examples.structEnv)
    = Ok (appendNode node
            (registerID (models.ID node) (Examples.analyzerAt Examples.structEnv)))
    /\ models.Name node = "MyStruct"
    /\ models.HasDocstring node = true
    /\ models.Docstring node = "MyStruct is a test struct" +:+ newline
    /\ models.SourceCode node = slice Examples.structSrc 17 85.
Proof.
  apply (C7_documentation_attached (E := Examples.structEnv)
           (Examples.analyzerAt Examples.structEnv) None (Some Examples.structDoc)
           (World.ident 2 52 "MyStruct") (ast.StructType Examples.structFields) 86
           "/r/test_struct.go" Examples.structSrc
           (ast.ListHead Examples.structDoc) "MyStruct is a test struct").
  - reflexivity.
  - reflexivity.
  - reflexivity.
  - reflexivity.
  - reflexivity.
  - discriminate.
  - vm_compute. discriminate.
  - vm_compute. discriminate.
  - vm_compute. discriminate.
Defined.

(** C7, as stated, fails: for the struct of
    [TestAnalyzeStructSourceExtraction], documented by the comment
    [// MyStruct is a test struct], the run gives a [Docstring] that is not
    the comment text without its marker, trimmed: a newline follows it. *)
Lemma C7_counterexample :
  exists a node,
    Analyze (E := Examples.structEnv) (Examples.analyzerAt Examples.structEnv) = Ok a
    /\ Nodes a = [node]
    /\ models.Name node = "MyStruct"
    /\ models.HasDocstring node = true
    /\ String.eqb (models.Docstring node) "MyStruct is a test struct" = false
    /\ models.Docstring node = "MyStruct is a test struct" +:+ newline.
Proof.
  eexists. eexists. split; [vm_compute; reflexivity |].
  repeat split.
Qed.

(** ** Calls that stay unresolved *)

Lemma isBuiltin_plain (name : string) :
  isBuiltin name = true -> hasDot name = false /\ String.eqb name "" = false.
Proof.
  unfold isBuiltin. rewrite !orb_true_iff, !existsb_exists.
  intros [[(x & Hin & Heq) | (x & Hin & Heq)] | (x & Hin & Heq)];
    apply String.eqb_eq in Heq; subst x; simpl in Hin;
    repeat (destruct Hin as [<- | Hin]; [split; reflexivity |]);
    destruct Hin.
Qed.

Lemma resolveCallWithTypes_external {E : Env} (a : GoAnalyzer) callFun ti tp fn :
  calleeObject callFun ti = Some (types.FuncObj fn) ->
  isPosInRepo a (types.Func_Pos fn) = false ->
  resolveCallWithTypes a callFun ti tp
  = (externalName callFun ti tp fn, false, true).
Proof.
  intros Hc Hr. unfold calleeObject in Hc. unfold resolveCallWithTypes, externalName.
  destruct callFun as [f | | p x sel | | | | | | | | |]; try discriminate Hc.
  - rewrite Hc, Hr, andb_false_r. now destruct (types.Func_Pkg fn).
  - destruct (types.Selections ti !! p) as [s |].
    + injection Hc as Hc. now rewrite Hc, Hr, andb_false_r.
    + destruct x as [xi | | | | | | | | | | |]; try discriminate Hc.
      destruct (types.Uses ti !! ast.IdentPtr xi) as [[] |]; try discriminate Hc.
      now rewrite Hc, Hr, andb_false_r.
Qed.

Lemma processCall_typed {E : Env} callerID recvName recvType callPos callFun
    ti tp filePath (a : GoAnalyzer) callee resolved :
  resolveCallWithTypes a callFun ti tp = (callee, resolved, true) ->
  processCall callerID recvName recvType callPos callFun (Some ti) (Some tp) filePath a
  = if String.eqb callee "" then a
    else appendRel (mkRel a callerID callee callPos resolved) a.
Proof.
  intros H. unfold processCall. rewrite H. now destruct (String.eqb callee "").
Qed.

(** After the first pass of a fresh analyzer every registered identifier
    contains a dot. *)
Lemma firstPass_ids_dotted {E : Env} files (a0 a1 : GoAnalyzer) (id : string) :
  fresh a0 -> firstPass files a0 = Ok a1 ->
  lookupID (CollectedNodeIDs a1) id = true -> hasDot id = true.
Proof.
  intros Hf H1 Hid.
  destruct (firstPass_fresh _ _ _ Hf H1) as (_ & _ & Hnodes & Hids).
  apply Hids in Hid as (n & Hin & <-).
  destruct (Hnodes n Hin) as (_ & <- & _). apply getComponentIDForFile_hasDot.
Qed.

(** C5, as amended - calls that stay unresolved: in any state of the
    second pass of a run from a fresh analyzer,
    - on the type-informed path, a call whose callee the type facts give as
      a function declared outside the repository appends one relationship,
      with the qualified name of the function as callee and [IsResolved]
      false (none if that name is empty);
    - on the type-informed path, a call of a builtin appends one
      relationship, with the bare name as callee and [IsResolved] false;
    - on the heuristic path, a call of a builtin name appends one
      relationship, with the bare name as callee and [IsResolved] false;
    - on the heuristic path, every relationship appended has [IsResolved]
      equal to the membership of its callee in the identifier set of the
      run (true for the text [X.Sel] of a call into another package when a
      declaration of the repository has that identifier). *)
Theorem C5_unresolved_calls {E : Env} (repoPath : string) (a0 a1 s : GoAnalyzer)
    (fileInfos : gmap string fileInfo) :
  NewGoAnalyzer repoPath = Ok a0 ->
  gatherFiles a0 = Ok fileInfos ->
  firstPass (mapRange 0 fileInfos) a0 = Ok a1 ->
  frozen a1 s ->
  (forall callerID recvName recvType callPos callFun ti tp fp fn,
     calleeObject callFun ti = Some (types.FuncObj fn) ->
     isPosInRepo s (types.Func_Pos fn) = false ->
     processCall callerID recvName recvType callPos callFun
                 (Some ti) (Some tp) fp s
     = if String.eqb (externalName callFun ti tp fn) "" then s
       else appendRel (mkRel s callerID (externalName callFun ti tp fn)
                             callPos false) s)
  /\ (forall callerID recvName recvType callPos f ti tp fp,
        types.Uses ti !! ast.IdentPtr f = Some types.Builtin ->
        ast.Name f <> "" ->
        processCall callerID recvName recvType callPos (ast.EIdent f)
                    (Some ti) (Some tp) fp s
        = appendRel (mkRel s callerID (ast.Name f) callPos false) s)
  /\ (forall callerID recvName recvType callPos f typeInfo typePkg fp,
        heuristicPath s (ast.EIdent f) typeInfo typePkg ->
        isBuiltin (ast.Name f) = true ->
        processCall callerID recvName recvType callPos (ast.EIdent f)
                    typeInfo typePkg fp s
        = appendRel (mkRel s callerID (ast.Name f) callPos false) s)
  /\ (forall callerID recvName recvType callPos callFun typeInfo typePkg fp,
        heuristicPath s callFun typeInfo typePkg ->
        exists new,
          emitted s (processCall callerID recvName recvType callPos callFun
                                 typeInfo typePkg fp s) new
          /\ Forall (fun r => models.IsResolved r
                              = lookupID (CollectedNodeIDs a1) (models.Callee r))
                    new).
Proof.
  intros Hnew Hg H1 Hs.
  pose proof (NewGoAnalyzer_fresh repoPath a0 Hnew) as Hf.
  pose proof Hs as (Hids & _).
  split; [| split; [| split]].
  - intros callerID recvName recvType callPos callFun ti tp fp fn Hc Hr.
    apply processCall_typed. now apply resolveCallWithTypes_external.
  - intros callerID recvName recvType callPos f ti tp fp Hu Hne.
    rewrite (processCall_typed _ _ _ _ _ _ _ _ _ (ast.Name f) false).
    + now rewrite eqb_empty_false.
    + unfold resolveCallWithTypes. now rewrite Hu.
  - intros callerID recvName recvType callPos f typeInfo typePkg fp Hh Hb.
    rewrite processCall_heuristic_eq by exact Hh. cbv zeta.
    simpl heuristicCallee. rewrite Hb. simpl negb. cbv iota.
    destruct (isBuiltin_plain _ Hb) as [Hdot Hne]. rewrite Hne.
    destruct (lookupID (CollectedNodeIDs s) (ast.Name f)) eqn:Hl; [| reflexivity].
    rewrite Hids in Hl.
    rewrite (firstPass_ids_dotted _ a0 a1 _ Hf H1 Hl) in Hdot. discriminate Hdot.
  - intros callerID recvName recvType callPos callFun typeInfo typePkg fp Hh.
    eexists. split; [now apply processCall_heuristic |].
    unfold heuristicRels. cbv zeta. destruct (String.eqb _ ""); constructor.
    + simpl. now rewrite Hids.
    + constructor.
Qed.

(** The repository of [TestIsResolved] with its type facts, after the first
    pass: a call of the builtin [println], on either path. *)
Lemma C5_unresolved_calls_witness :
  NewGoAnalyzer (E := Examples.callsTypedEnv) "/r"
  = Ok (Examples.analyzerAt Examples.callsTypedEnv)
  /\ gatherFiles (E := Examples.callsTypedEnv)
                 (Examples.analyzerAt Examples.callsTypedEnv)
     = Ok Examples.callsTypedFiles
  /\ exists a1,
      firstPass (E := Examples.callsTypedEnv)
                (mapRange (Env := Examples.callsTypedEnv) 0 Examples.callsTypedFiles)
                (Examples.analyzerAt Examples.callsTypedEnv) = Ok a1
      /\ frozen a1 a1
      /\ processCall (E := Examples.callsTypedEnv) "caller" "" "" 40
           (ast.EIdent (World.ident 20 40 "println")) None None
           "/r/test_resolved.go" a1
         = appendRel (mkRel a1 "caller" "println" 40 false) a1.
Proof.
  split; [reflexivity |]. split; [vm_compute; reflexivity |].
  destruct (firstPass_total (E := Examples.callsTypedEnv)
              (mapRange (Env := Examples.callsTypedEnv) 0 Examples.callsTypedFiles)
              (Examples.analyzerAt Examples.callsTypedEnv)) as [a1 H1].
  exists a1. split; [exact H1 |]. split; [apply frozen_refl |].
  destruct (C5_unresolved_calls (E := Examples.callsTypedEnv) "/r"
              (Examples.analyzerAt Examples.callsTypedEnv) a1 a1
              Examples.callsTypedFiles eq_refl)
    as (_ & _ & Hb & _); [vm_compute; reflexivity | exact H1 | apply frozen_refl |].
  apply (Hb "caller" "" "" 40 (World.ident 20 40 "println") None None
            "/r/test_resolved.go"); [exact I | reflexivity].
Defined.

(** C5, as stated, fails where the type-informed path declines: the file
    [flag.go] declares [Usage] and calls [flag.Usage], a variable of the
    imported standard library.  The file is gathered with its type facts;
    these give the callee as an object that is no function, so
    [resolveCallWithTypes] declines, and the second half of [processCall]
    emits the callee [flag.Usage], which is the identifier of the function
    [Usage] of [flag.go]: [IsResolved] is true. *)
Lemma C5_counterexample :
  gatherFiles (E := Examples.flagEnv) (Examples.analyzerAt Examples.flagEnv)
  = Ok Examples.flagFiles
  /\ calleeObject Examples.flagCall Examples.flagInfo = Some types.OtherObj
  /\ exists a r,
      Analyze (E := Examples.flagEnv) (Examples.analyzerAt Examples.flagEnv) = Ok a
      /\ resolveCallWithTypes (E := Examples.flagEnv) a Examples.flagCall
            Examples.flagInfo Examples.mainPackage
          = ("", false, false)
      /\ Relationships a = [r]
      /\ models.Caller r = "flag.main"
      /\ models.Callee r = "flag.Usage"
      /\ models.CallLine r = 8
      /\ models.IsResolved r = true.
Proof.
  split; [vm_compute; reflexivity |]. split; [reflexivity |].
  eexists. eexists. split; [vm_compute; reflexivity |].
  repeat split.
Qed.

(** ** The identifier scheme on ASCII paths *)

Lemma byteZ_range (c : ascii) : 0 <= byteZ c < 256.
Proof.
  unfold byteZ. pose proof (N_ascii_bounded c) as H. lia.
Qed.

Lemma byteOf_byteZ (c : ascii) : byteOf (byteZ c) = c.
Proof. unfold byteOf, byteZ. rewrite N2Z.id. apply ascii_N_embedding. Qed.

Lemma uint8_byte (z : Z) : 0 <= z < 256 -> uint8 z = z.
Proof.
  intros H. unfold uint8. change 255 with (Z.ones 8).
  rewrite Z.land_ones by lia. apply Z.mod_small. simpl. lia.
Qed.

(** An ASCII byte is a rune of its own. *)
Lemma runes_ascii_byte (c : ascii) (r : string) :
  (byteZ c <? 128) = true -> runes (String c r) = byteZ c :: runes r.
Proof.
  intros H. simpl runes. destruct (acceptRange (byteZ c)) as [lo hi].
  unfold seqLen. now rewrite H.
Qed.

Lemma modulePath_ascii_acc (s acc : string) :
  isASCII s = true ->
  fold_left
    (fun modulePath c =>
       if IsPathSeparator (uint8 c) then modulePath +:+ "."
       else modulePath +:+ runeString c)
    (runes s) acc
  = acc +:+ dotted s.
Proof.
  revert acc. induction s as [|c s IH]; intros acc H.
  - simpl. now rewrite sapp_nil_r.
  - simpl in H. apply andb_true_iff in H as [Hc Hs].
    rewrite runes_ascii_byte by exact Hc. simpl fold_left.
    rewrite uint8_byte by apply byteZ_range. rewrite IH by exact Hs.
    simpl dotted. destruct (IsPathSeparator (byteZ c)).
    + now rewrite sapp_assoc.
    + rewrite sapp_assoc. f_equal. unfold runeString.
      pose proof (byteZ_range c) as Hr.
      assert (Hlo : (0 <=? byteZ c) && (byteZ c <? 128) = true)
        by (rewrite Hc, andb_true_r; apply Z.leb_le; lia).
      rewrite Hlo. unfold str1. now rewrite byteOf_byteZ.
Qed.

Lemma modulePath_ascii (s : string) :
  isASCII s = true -> modulePath s = dotted s.
Proof. intros H. unfold modulePath. now rewrite modulePath_ascii_acc. Qed.

Lemma isASCII_substring (n m : nat) (s : string) :
  isASCII s = true -> isASCII (String.substring n m s) = true.
Proof.
  revert n m. induction s as [|c s IH]; intros n m H.
  - now destruct n, m.
  - simpl in H. apply andb_true_iff in H as [Hc Hs].
    destruct n as [|n]; destruct m as [|m]; simpl; auto.
    rewrite Hc. simpl. now apply IH.
Qed.

(** On a relative path of ASCII bytes the identifier is the one the scheme
    is described to give. *)
Lemma getComponentIDForFile_ascii {E : Env} (a : GoAnalyzer) fp name recv :
  isASCII (relOrEmpty (RepoAbs a) fp) = true ->
  getComponentIDForFile a fp name recv
  = schemeID (relOrEmpty (RepoAbs a) fp) name recv.
Proof.
  intros H. unfold getComponentIDForFile, schemeID. cbv zeta.
  rewrite modulePath_ascii by (unfold slice; now apply isASCII_substring).
  now destruct (String.eqb recv "").
Qed.

(** C2 - the identifier scheme, where the code departs from it: take the
    file in [/r] whose name is the letter U+012F (bytes C4 AF) followed by
    [.go].  Its relative path has no separator, so the scheme gives that
    letter, a dot and [F] for a function [F].  The loop of
    [getComponentIDForFile] converts the rune 0x12F to the byte 0x2F, takes
    it for a separator, and gives [..F].  A byte that is not valid UTF-8 is
    replaced by the three bytes of U+FFFD.  (On a relative path of ASCII
    bytes the code gives what the scheme gives:
    [getComponentIDForFile_ascii].) *)
Theorem C2_rune_taken_for_separator :
  relOrEmpty (E := Examples.ogonekEnv)
             (RepoAbs (Examples.analyzerAt Examples.ogonekEnv)) Examples.ogonekPath
  = str1 196 +:+ str1 175 +:+ ".go"
  /\ schemeID (str1 196 +:+ str1 175 +:+ ".go") "F" ""
     = str1 196 +:+ str1 175 +:+ ".F"
  /\ getComponentIDForFile (E := Examples.ogonekEnv)
       (Examples.analyzerAt Examples.ogonekEnv) Examples.ogonekPath "F" ""
     = "..F"
  /\ runes (str1 196 +:+ str1 175) = [303]
  /\ uint8 303 = PathSeparator
  /\ modulePath (str1 255 +:+ "a")
     = str1 239 +:+ str1 191 +:+ str1 189 +:+ "a".
Proof. repeat split; vm_compute; reflexivity. Qed.

End Claims.

(* ===================================================================== *)
(** * A repository of two files *)
(* ===================================================================== *)

(** The source of the repository's test [TestAnalyzeCrossFileMethodCalls]: a
    method of [a.go] calls a method declared in [b.go], through a local
    variable.  The two files are in one package, loaded with type facts. *)
Module CrossFile.

Import GoString analyzer World.

Definition srcA : string :=
"package testpkg

type A struct{}

func (a *A) Foo() {
	b := &B{}
	b.Bar()
}
".

Definition srcB : string :=
"package testpkg

type B struct{}

func (b *B) Bar() {}
".

Definition disk : list SourceFile :=
[ {| Base := 1; Path := "/r/a.go"; Src := srcA |};
  {| Base := 78; Path := "/r/b.go"; Src := srcB |} ].

(** The call [b.Bar()] of [Foo]. *)
Definition callBar : ast.Node :=
ast.CallExpr 67 (ast.SelectorExpr 8 (ast.EIdent (ident 9 67 "b"))
                                  (ident 10 69 "Bar")) [].

(** The body of [Foo]: the assignment [b := &B{}] and the call. *)
Definition bodyFoo : list ast.Node :=
[ ast.OtherNode [ ast.EIdent (ident 6 56 "b");
                  ast.OtherNode [ ast.OtherNode [ ast.EIdent (ident 7 62 "B") ] ] ];
  exprStmt callBar ].

Definition fileA : ast.File :=
{| ast.Package := 1;
   ast.FileName := ident 1 9 "testpkg";
   ast.Decls :=
     [ ast.GenDecl None token.TYPE
         [ ast.TypeSpec None (ident 2 23 "A") [] (ast.StructType []) 33 ];
       methodDecl (ident 3 41 "a") (ident 4 44 "A") (ident 5 47 "Foo") bodyFoo 35 76 ] |}.

Definition fileB : ast.File :=
{| ast.Package := 78;
   ast.FileName := ident 11 86 "testpkg";
   ast.Decls :=
     [ ast.GenDecl None token.TYPE
         [ ast.TypeSpec None (ident 12 100 "B") [] (ast.StructType []) 110 ];
       methodDecl (ident 13 118 "b") (ident 14 121 "B") (ident 15 124 "Bar") [] 112 132 ] |}.

Definition testpkg : types.Package :=
{| types.PackagePtr := 1; types.PackageName := "testpkg" |}.

Definition typeB : types.Type_ := types.Named (Some testpkg) "B".

(** The method [Bar], declared at the identifier [Bar] of [b.go]. *)
Definition funcBar : types.Func :=
{| types.Func_Pos := 124;
   types.Func_Name := "Bar";
   types.Func_Pkg := Some testpkg;
   types.Func_Type := types.Signature (Some (types.Pointer typeB)) |}.

(** The type facts of the package: the selection [b.Bar] is the method [Bar]
    on a receiver of type [*B]; [b] and [B] are used as a variable and a
    type. *)
Definition typesInfo : types.Info :=
{| types.Uses :=
     {[ 7 := types.OtherObj; 9 := types.OtherObj; 10 := types.FuncObj funcBar ]};
   types.Selections :=
     {[ 8 := {| types.Selection_Obj := types.FuncObj funcBar;
                types.Selection_Recv := types.Pointer typeB |} ]} |}.

Definition pkgs : list packages.Package :=
[ {| packages.Syntax := [fileA; fileB]; packages.TypesInfo := Some typesInfo;
     packages.Types := Some testpkg |} ].

Definition infoA : fileInfo :=
{| file := fileA; info := Some typesInfo; pkg := Some testpkg; content := srcA |}.

Definition infoB : fileInfo :=
{| file := fileB; info := Some typesInfo; pkg := Some testpkg; content := srcB |}.

Definition files : gmap string fileInfo :=
{[ "/r/a.go" := infoA; "/r/b.go" := infoB ]}.

Definition crossEnv : Env := env disk pkgs.

(** The analyzer [NewGoAnalyzer] makes for the repository at [/r]. *)
Definition analyzer0 : GoAnalyzer :=
{| RepoPath := "/r"; RepoAbs := "/r"; FileSet := position disk;
   Nodes := []; Relationships := []; CollectedNodeIDs := ∅ |}.

End CrossFile.

(* ===================================================================== *)
(** * Invariants of a run *)
(* ===================================================================== *)

Module RunInvariants.

Import GoString Props analyzer StringFacts LoopFacts CollectorFacts
       ResolverFacts RunFacts Claims.

(** ** [Analyze] only ever appends *)

(** Whatever the analyzer holds when [Analyze] starts is still there when it
    returns: the setting is the same, the nodes and the relationships held
    before are a prefix of those held after, and the identifiers registered
    after are those registered before and those of the new nodes. *)
Theorem Analyze_appends {E : Env} (a b : GoAnalyzer) :
  Analyze a = Ok b ->
  sameSetting a b
  /\ exists newNodes newRels,
      Nodes b = Nodes a ++ newNodes
      /\ Relationships b = Relationships a ++ newRels
      /\ forall id,
          lookupID (CollectedNodeIDs b) id = true <->
          lookupID (CollectedNodeIDs a) id = true
          \/ exists n, In n newNodes /\ models.ID n = id.
Proof.
  intros H. apply Analyze_Ok in H as (fi & a1 & _ & H1 & ->).
  apply firstPass_extends in H1 as (Hs1 & Hr1 & newNodes & Hn1 & _ & Hi1).
  destruct (secondPass_stage a1 (mapRange 1 fi) a1 (frozen_refl a1))
    as (newRels & (Hr2 & Hn2 & Hi2 & Hs2) & _).
  split.
  - destruct Hs1 as (P1 & A1 & F1), Hs2 as (P2 & A2 & F2).
    repeat split; congruence.
  - exists newNodes, newRels. split; [congruence |]. split; [congruence |].
    intros id. rewrite Hi2. apply Hi1.
Qed.

(** The run on the repository of [TestIsResolved], started from an analyzer
    that already holds a relationship. *)
Lemma Analyze_appends_witness :
  exists b,
    Analyze (E := Examples.callsEnv)
            (appendRel (mkRel (Examples.analyzerAt Examples.callsEnv) "x" "y" 1 false)
                       (Examples.analyzerAt Examples.callsEnv)) = Ok b
    /\ exists newNodes newRels,
        Nodes b = [] ++ newNodes
        /\ Relationships b
           = [mkRel (Examples.analyzerAt Examples.callsEnv) "x" "y" 1 false] ++ newRels.
Proof.
  destruct (Analyze_passes (E := Examples.callsEnv)
              (appendRel (mkRel (Examples.analyzerAt Examples.callsEnv) "x" "y" 1 false)
                         (Examples.analyzerAt Examples.callsEnv))
              Examples.callsFiles) as (a1 & _ & HA); [vm_compute; reflexivity |].
  eexists. split; [exact HA |].
  destruct (Analyze_appends (E := Examples.callsEnv) _ _ HA)
    as (_ & newNodes & newRels & Hn & Hr & _).
  exists newNodes, newRels. split; [exact Hn | exact Hr].
Defined.

(** ** Every relationship is well formed *)

(** [processCall] leaves the analyzer as it is or appends one relationship,
    for the caller given and a callee that is not empty. *)
Lemma processCall_cases {E : Env} callerID recvName recvType callPos callFun
    typeInfo typePkg filePath (a : GoAnalyzer) :
  processCall callerID recvName recvType callPos callFun typeInfo typePkg filePath a = a
  \/ exists callee resolved,
      String.eqb callee "" = false
      /\ processCall callerID recvName recvType callPos callFun typeInfo typePkg
                     filePath a
         = appendRel (mkRel a callerID callee callPos resolved) a.
Proof.
  assert (Hh : heuristicPath a callFun typeInfo typePkg ->
    processCall callerID recvName recvType callPos callFun typeInfo typePkg filePath a = a
    \/ exists callee resolved,
        String.eqb callee "" = false
        /\ processCall callerID recvName recvType callPos callFun typeInfo typePkg
                       filePath a
           = appendRel (mkRel a callerID callee callPos resolved) a).
  { intros H. rewrite processCall_heuristic_eq by exact H. cbv zeta.
    destruct (String.eqb _ "") eqn:He; [now left |]. right. eauto. }
  destruct typeInfo as [ti |]; [| now apply Hh].
  destruct typePkg as [tp |]; [| now apply Hh].
  destruct (resolveCallWithTypes a callFun ti tp) as [[callee resolved] ok] eqn:Hr.
  destruct ok; [| apply Hh; simpl; now rewrite Hr].
  rewrite (processCall_typed _ _ _ _ _ _ _ _ _ callee resolved Hr).
  destruct (String.eqb callee "") eqn:He; [now left |]. right. eauto.
Qed.

(** A relationship with the tag [calls], a caller that contains a dot and a
    callee that is not empty. *)
Definition wellFormedRel (r : models.CallRelationship) : Prop :=
  models.RelationshipType r = "calls"
  /\ hasDot (models.Caller r) = true
  /\ String.eqb (models.Callee r) "" = false.

Lemma processCall_wellFormed {E : Env} callerID recvName recvType callPos callFun
    typeInfo typePkg filePath (a : GoAnalyzer) :
  hasDot callerID = true ->
  stage wellFormedRel a
        (processCall callerID recvName recvType callPos callFun typeInfo typePkg
                     filePath a).
Proof.
  intros Hc.
  destruct (processCall_cases callerID recvName recvType callPos callFun
              typeInfo typePkg filePath a) as [-> | (callee & res & He & ->)].
  - apply stage_refl.
  - eexists. split; [apply emitted_appendRel |].
    constructor; [| constructor]. now repeat split.
Qed.

(** The relationships of the second pass have a property that the
    relationships of each call have. *)
Lemma secondPass_stage_all {E : Env} (Q : models.CallRelationship -> Prop)
    (a0 : GoAnalyzer) (files : list (string * fileInfo)) :
  (forall recv name callPos callFun typeInfo typePkg fp s,
     frozen a0 s ->
     stage Q s (processCall (callerOf a0 recv name fp) (recvNameOf recv) (classOf recv)
                            callPos callFun typeInfo typePkg fp s)) ->
  forall s, frozen a0 s -> stage Q s (secondPass files s).
Proof.
  intros Hq s Hs. unfold secondPass. apply (fold_stage _ _ a0); [| exact Hs].
  intros [fp info] t _ Ht. unfold collectCalls. apply (fold_stage _ _ a0); [| exact Ht].
  intros n u _ Hu. destruct n; try apply stage_refl.
  unfold collectCall. destruct Body as [body |]; [| apply stage_refl].
  rewrite visitFuncBodyForCalls_eq.
  assert (Hc : callerOf u Recv FName fp = callerOf a0 Recv FName fp).
  { destruct Hu as (_ & _ & _ & Habs & _). unfold callerOf.
    now apply getComponentIDForFile_setting. }
  rewrite Hc. apply (fold_stage _ _ a0); [| exact Hu].
  intros x v _ Hv. destruct x; try apply stage_refl. unfold visitCall.
  now apply Hq.
Qed.

(** In a run from a fresh analyzer every relationship of the output has the
    tag [calls], a caller that is not empty (it contains a dot) and a callee
    that is not empty. *)
Theorem relationships_wellFormed {E : Env} (repoPath : string)
    (a0 a : GoAnalyzer) :
  NewGoAnalyzer repoPath = Ok a0 ->
  Analyze a0 = Ok a ->
  forall r, In r (Relationships a) -> wellFormedRel r.
Proof.
  intros Hnew HA r Hin.
  apply Analyze_Ok in HA as (fi & a1 & _ & H1 & ->).
  destruct (firstPass_fresh _ _ _ (NewGoAnalyzer_fresh _ _ Hnew) H1) as (_ & Hr1 & _).
  destruct (secondPass_stage_all wellFormedRel a1 (mapRange 1 fi)) with (s := a1)
    as (new & (Hrel & _) & Hq).
  - intros recv name callPos callFun typeInfo typePkg fp s _.
    apply processCall_wellFormed. apply getComponentIDForFile_hasDot.
  - apply frozen_refl.
  - rewrite Hrel, Hr1 in Hin. simpl in Hin.
    rewrite List.Forall_forall in Hq. now apply Hq.
Qed.

(** The run on the repository of [TestIsResolved]. *)
Lemma relationships_wellFormed_witness :
  exists a,
    Analyze (E := Examples.callsEnv) (Examples.analyzerAt Examples.callsEnv) = Ok a
    /\ forall r, In r (Relationships a) -> wellFormedRel r.
Proof.
  destruct (Analyze_passes (E := Examples.callsEnv)
              (Examples.analyzerAt Examples.callsEnv) Examples.callsFiles)
    as (a1 & _ & HA); [vm_compute; reflexivity |].
  eexists. split; [exact HA |].
  now apply (relationships_wellFormed (E := Examples.callsEnv) "/r"
               (Examples.analyzerAt Examples.callsEnv)).
Defined.

(** ** Every node comes from a declaration *)

(** From [a] to [b], nodes that satisfy [P] were appended. *)
Definition grows (P : models.Node -> Prop) (a b : GoAnalyzer) : Prop :=
  exists new, Nodes b = Nodes a ++ new /\ Forall P new.

Lemma grows_refl P a : grows P a a.
Proof. exists []. now rewrite app_nil_r. Qed.

Lemma grows_trans P a b c : grows P a b -> grows P b c -> grows P a c.
Proof.
  intros (n1 & H1 & F1) (n2 & H2 & F2). exists (n1 ++ n2). split.
  - now rewrite H2, H1, <- app_assoc.
  - now apply Forall_app.
Qed.

Lemma grows_weaken (P P' : models.Node -> Prop) a b :
  (forall n, P n -> P' n) -> grows P a b -> grows P' a b.
Proof.
  intros HP (new & H & F). exists new. split; [exact H |].
  revert F. apply List.Forall_impl. exact HP.
Qed.

(** The names of the parameters of a function, in order; a parameter without
    a name gives none. *)
Definition paramNames (params : option (list ast.Field)) : list string :=
  match params with
  | Some l => flat_map (fun p => map ast.Name (ast.Names p)) l
  | None => []
  end.

(** What the node made for the declaration [n] of file [fp] holds, apart from
    its lines, its documentation and its source. *)
Definition describes {E : Env} (a : GoAnalyzer) (fp : string) (n : ast.Node)
    (node : models.Node) : Prop :=
  models.FilePath node = fp
  /\ models.RelativePath node = relOrEmpty (RepoAbs a) fp
  /\ models.ID node
     = getComponentIDForFile a fp (models.Name node) (models.ClassName node)
  /\ models.ComponentID node = models.ID node
  /\ models.DependsOn node = []
  /\ models.BaseClasses node = []
  /\ match n with
     | ast.FuncDecl _ None name _ params _ _ _ _ =>
         models.Name node = ast.Name name
         /\ models.ClassName node = ""
         /\ models.ComponentType node = "function"
         /\ models.NodeType node = "function"
         /\ models.DisplayName node = "func " +:+ ast.Name name
         /\ models.Parameters node = paramNames params
     | ast.FuncDecl _ (Some fields) name _ params _ _ _ _ =>
         models.Name node = ast.Name name
         /\ models.ClassName node = recvTypeOf fields
         /\ models.ComponentType node = "method"
         /\ models.NodeType node = "method"
         /\ models.DisplayName node
            = "method " +:+ recvTypeOf fields +:+ "." +:+ ast.Name name
         /\ models.Parameters node = paramNames params
     | ast.GenDecl _ token.TYPE specs =>
         exists doc name tps t tend,
           In (ast.TypeSpec doc name tps t tend) specs
           /\ models.Name node = ast.Name name
           /\ models.ClassName node = ""
           /\ models.ComponentType node = "class"
           /\ models.Parameters node = []
           /\ match t with
              | ast.StructType _ =>
                  models.NodeType node = "struct"
                  /\ models.DisplayName node = "struct " +:+ ast.Name name
              | ast.InterfaceType _ =>
                  models.NodeType node = "interface"
                  /\ models.DisplayName node = "interface " +:+ ast.Name name
              | _ => False
              end
     | _ => False
     end.

Section WithEnv.

Context {E : Env}.

Lemma describes_setting (a b : GoAnalyzer) fp n node :
  RepoAbs b = RepoAbs a -> describes a fp n node -> describes b fp n node.
Proof.
  intros H (H1 & H2 & H3 & H4). unfold describes.
  rewrite H, (getComponentIDForFile_setting a b) by exact H. auto.
Qed.

Lemma visitFuncDecl_grows doc recv name tps params results body fpos fend
    fp content a b :
  visitFuncDecl doc recv name params fpos fend fp content a = Ok b ->
  grows (describes a fp (ast.FuncDecl doc recv name tps params results body fpos fend))
        a b.
Proof.
  unfold visitFuncDecl. cbv zeta.
  destruct (captureSource_total content (startOffsetOf a doc fpos)
              (token.Offset (FileSet a fend))) as [src Hsrc].
  destruct recv as [fields |]; cbv beta iota;
    fold (startOffsetOf a doc fpos); rewrite Hsrc; simpl;
    intros H; injection H as <-;
    (eexists; split; [reflexivity |]);
    (constructor; [| constructor]);
    unfold describes; simpl; repeat split; reflexivity.
Qed.

Lemma visitSpec_grows gdoc specs fp content spec a b :
  In spec specs ->
  visitSpec gdoc fp content spec a = Ok b ->
  grows (describes a fp (ast.GenDecl gdoc token.TYPE specs)) a b.
Proof.
  intros Hin H.
  destruct spec as [| | | | | | | |tsDoc tsName tsParams tsType tsEnd | | |];
    simpl in H; try (injection H as <-; apply grows_refl).
  unfold visitTypeSpec in H. cbv zeta in H.
  destruct tsType; try (injection H as <-; apply grows_refl);
    destruct (captureSource _ _ _) as [src | |]; simpl in H; try discriminate;
    injection H as <-;
    (eexists; split; [reflexivity |]);
    (constructor; [| constructor]);
    unfold describes; simpl; (repeat split; try reflexivity);
    eexists _, _, _, _, _; (split; [exact Hin |]); simpl; repeat split; reflexivity.
Qed.

Lemma collectNode_grows fp content n a b :
  collectNode fp content n a = Ok b -> grows (describes a fp n) a b.
Proof.
  destruct n; simpl; intros H; try (injection H as <-; apply grows_refl).
  - destruct Tok; try (injection H as <-; apply grows_refl).
    assert (Hg : forall l s t,
              (forall x, In x l -> In x Specs) -> RepoAbs s = RepoAbs a ->
              forM (visitSpec Doc fp content) l s = Ok t ->
              grows (describes a fp (ast.GenDecl Doc token.TYPE Specs)) s t
              /\ RepoAbs t = RepoAbs a).
    { induction l as [|x l IH]; intros s t Hl Hs Hf.
      - simpl in Hf. injection Hf as <-. split; [apply grows_refl | exact Hs].
      - apply forM_cons in Hf as (s1 & H1 & H2).
        assert (Hx : extends (eq fp) s s1) by (now apply visitSpec_extends in H1).
        destruct (extends_setting _ _ _ Hx) as (_ & Habs & _).
        destruct (IH s1 t) as (Hg & Ht); auto.
        { intros y Hy. apply Hl. now right. }
        { congruence. }
        split; [| exact Ht].
        apply grows_trans with s1; [| exact Hg].
        apply grows_weaken with (describes s fp (ast.GenDecl Doc token.TYPE Specs)).
        + intros node. now apply describes_setting.
        + apply visitSpec_grows with content x; [apply Hl; now left | exact H1]. }
    now apply (Hg Specs a b).
  - now apply visitFuncDecl_grows with content.
Qed.

(** A loop of the first pass, from its rounds. *)
Lemma forM_grows {A : Type} (body : A -> GoAnalyzer -> result GoAnalyzer)
    (P : A -> GoAnalyzer -> models.Node -> Prop) (a : GoAnalyzer) (l : list A) :
  (forall x s node, RepoAbs s = RepoAbs a -> P x s node -> P x a node) ->
  (forall x s t, In x l -> body x s = Ok t ->
                 RepoAbs t = RepoAbs s /\ grows (P x s) s t) ->
  forall s t,
    RepoAbs s = RepoAbs a -> forM body l s = Ok t ->
    RepoAbs t = RepoAbs a
    /\ grows (fun node => exists x, In x l /\ P x a node) s t.
Proof.
  intros HP. induction l as [|x l IH]; intros Hb s t Hs Hf.
  - simpl in Hf. injection Hf as <-. split; [exact Hs | apply grows_refl].
  - apply forM_cons in Hf as (s1 & H1 & H2).
    destruct (Hb x s s1 (or_introl eq_refl) H1) as (Hs1 & Hg1).
    destruct (IH (fun y u v Hy => Hb y u v (or_intror Hy)) s1 t) as (Ht & Hg2);
      [congruence | exact H2 |].
    split; [exact Ht |].
    apply grows_trans with s1.
    + revert Hg1. apply grows_weaken. intros node Hn. exists x.
      split; [now left | now apply HP with s].
    + revert Hg2. apply grows_weaken. intros node (y & Hy & Hn). exists y.
      split; [now right | exact Hn].
Qed.

Lemma collectNodes_grows fp info a b :
  collectNodes fp info a = Ok b ->
  RepoAbs b = RepoAbs a
  /\ grows (fun node => exists n,
              In n (ast.InspectFile (file info)) /\ describes a fp n node) a b.
Proof.
  unfold collectNodes. intros H.
  apply (forM_grows (collectNode fp (content info))
           (fun n s node => describes s fp n node) a) with (s := a) in H; auto.
  - intros n s node Hs. apply describes_setting. now symmetry.
  - intros n s t _ Hn. split.
    + apply collectNode_extends in Hn. now destruct (extends_setting _ _ _ Hn) as (_ & ? & _).
    + now apply collectNode_grows with (content info).
Qed.

Lemma firstPass_grows files a b :
  firstPass files a = Ok b ->
  grows (fun node => exists fp info n,
           In (fp, info) files
           /\ In n (ast.InspectFile (file info)) /\ describes a fp n node) a b.
Proof.
  unfold firstPass. intros H.
  apply (forM_grows (fun '(fp, info) => collectNodes fp info)
           (fun '(fp, info) s node =>
              exists n, In n (ast.InspectFile (file info)) /\ describes s fp n node)
           a) with (s := a) in H; auto.
  - destruct H as (_ & H). revert H. apply grows_weaken.
    intros node ([fp info] & Hin & n & Hn & Hd). now exists fp, info, n.
  - intros [fp info] s node Hs (n & Hn & Hd). exists n. split; [exact Hn |].
    revert Hd. apply describes_setting. now symmetry.
  - intros [fp info] s t _ Hc. now apply collectNodes_grows.
Qed.

End WithEnv.

(** In a run from a fresh analyzer every node of the output was made for a
    function, method, struct or interface declaration that [ast.Inspect]
    reaches in a gathered file, and holds the name, the enclosing type, the
    kind, the display name and the parameter names of that declaration, the
    path of the file and the identifier computed from them. *)
Theorem nodes_from_declarations {E : Env} (repoPath : string)
    (a0 a : GoAnalyzer) (fileInfos : gmap string fileInfo) :
  NewGoAnalyzer repoPath = Ok a0 ->
  gatherFiles a0 = Ok fileInfos ->
  Analyze a0 = Ok a ->
  forall node,
    In node (Nodes a) ->
    exists fp info n,
      fileInfos !! fp = Some info
      /\ In n (ast.InspectFile (file info))
      /\ declares n (models.Name node) (models.ClassName node)
      /\ describes a fp n node.
Proof.
  intros Hnew Hg HA node Hin.
  apply Analyze_Ok in HA as (fi & a1 & Hg' & H1 & ->).
  rewrite Hg in Hg'. injection Hg' as <-.
  destruct (NewGoAnalyzer_fresh _ _ Hnew) as (Hn0 & _).
  destruct (secondPass_stage a1 (mapRange 1 fileInfos) a1 (frozen_refl a1))
    as (newRels & (_ & Hn2 & _ & (_ & Habs2 & _)) & _).
  pose proof (firstPass_extends _ _ _ H1) as Hx.
  destruct (extends_setting _ _ _ Hx) as (_ & Habs1 & _).
  destruct (firstPass_grows _ _ _ H1) as (new & Hn1 & Hall).
  rewrite Hn2, Hn1, Hn0 in Hin. simpl in Hin.
  rewrite List.Forall_forall in Hall.
  destruct (Hall node Hin) as (fp & info & n & Hf & Hn & Hd).
  exists fp, info, n. split; [now apply mapRange_In in Hf |]. split; [exact Hn |].
  split.
  - destruct Hd as (_ & _ & _ & _ & _ & _ & Hk).
    destruct n; try contradiction.
    + destruct Tok; try contradiction.
      destruct Hk as (doc & name & tps & t & tend & Hs & -> & -> & _ & _ & Ht).
      destruct t; try contradiction.
      * now apply declares_struct with doc tps Fields tend.
      * now apply declares_interface with doc tps Methods tend.
    + destruct Recv as [fields |].
      * destruct Hk as (-> & -> & _). constructor.
      * destruct Hk as (-> & -> & _). constructor.
  - revert Hd. apply describes_setting. congruence.
Qed.

(** The run on the repository of [TestIsResolved]. *)
Lemma nodes_from_declarations_witness :
  exists a,
    Analyze (E := Examples.callsEnv) (Examples.analyzerAt Examples.callsEnv) = Ok a
    /\ forall node,
         In node (Nodes a) ->
         exists fp info n,
           Examples.callsFiles !! fp = Some info
           /\ In n (ast.InspectFile (file info))
           /\ declares n (models.Name node) (models.ClassName node)
           /\ describes (E := Examples.callsEnv) a fp n node.
Proof.
  destruct (Analyze_passes (E := Examples.callsEnv)
              (Examples.analyzerAt Examples.callsEnv) Examples.callsFiles)
    as (a1 & _ & HA); [vm_compute; reflexivity |].
  eexists. split; [exact HA |].
  apply (nodes_from_declarations (E := Examples.callsEnv) "/r"
           (Examples.analyzerAt Examples.callsEnv));
    [vm_compute; reflexivity | vm_compute; reflexivity | exact HA].
Defined.

End RunInvariants.

(* ===================================================================== *)
(** * Calls that are resolved *)
(* ===================================================================== *)

Module Resolution.

Import GoString Props analyzer StringFacts LoopFacts CollectorFacts
       ResolverFacts RunFacts Claims.

(** ** Calls resolved from the type facts *)

(** The enclosing type under which the type-informed path looks up the callee
    [fn] of a call: the receiver type of [fn] for a selection, none for a
    bare name or a name qualified by a package. *)
Definition calleeClass {E : Env} (callFun : ast.Node) (typeInfo : types.Info)
    (fn : types.Func) : string :=
  match callFun with
  | ast.SelectorExpr p _ _ =>
      match types.Selections typeInfo !! p with
      | Some _ => receiverTypeString (types.Func_Type fn)
      | None => ""
      end
  | _ => ""
  end.

(** The file in which the type facts place [fn], as the analyzer names it. *)
Definition calleeFile {E : Env} (a : GoAnalyzer) (fn : types.Func) : string :=
  absOrSame (token.Filename (FileSet a (types.Func_Pos fn))).

Section WithEnv.

Context {E : Env}.

Lemma isPosInRepo_true (a : GoAnalyzer) (pos : token.Pos) :
  isPosInRepo a pos = true ->
  (pos =? token.NoPos) = false
  /\ String.eqb (token.Filename (FileSet a pos)) "" = false
  /\ isPathInRepo (RepoAbs a) (absOrSame (token.Filename (FileSet a pos))) = true.
Proof.
  unfold isPosInRepo. destruct (pos =? token.NoPos); [discriminate |].
  destruct (String.eqb _ ""); [discriminate |]. auto.
Qed.

(** A callee that the type facts place in the repository gets the identifier
    of its file, its receiver type and its name, and counts as resolved if
    that identifier is registered. *)
Lemma resolveCallWithTypes_inRepo (a : GoAnalyzer) callFun ti tp fn :
  calleeObject callFun ti = Some (types.FuncObj fn) ->
  isPosInRepo a (types.Func_Pos fn) = true ->
  let id := getComponentIDForFile a (calleeFile a fn) (types.Func_Name fn)
                                  (calleeClass callFun ti fn) in
  resolveCallWithTypes a callFun ti tp = (id, lookupID (CollectedNodeIDs a) id, true).
Proof.
  intros Ho Hin. pose proof (isPosInRepo_true _ _ Hin) as (Hp & Hf & _).
  assert (Hid : forall recv,
            getComponentIDForPos a (types.Func_Pos fn) (types.Func_Name fn) recv
            = getComponentIDForFile a (calleeFile a fn) (types.Func_Name fn) recv).
  { intros recv. unfold getComponentIDForPos. now rewrite Hp, Hf. }
  cbv zeta. unfold resolveCallWithTypes, calleeObject, calleeClass in *.
  destruct callFun as [f | |p x sel | | | | | | | | |]; try discriminate.
  - rewrite Ho, Hid, getComponentIDForFile_nonempty, Hin. reflexivity.
  - destruct (types.Selections ti !! p) as [s |].
    + injection Ho as ->.
      rewrite Hid, getComponentIDForFile_nonempty, Hin. reflexivity.
    + destruct x as [xi | | | | | | | | | | |]; try discriminate.
      destruct (types.Uses ti !! ast.IdentPtr xi) as [[| | |] |]; try discriminate.
      rewrite Ho, Hid, getComponentIDForFile_nonempty, Hin. reflexivity.
Qed.

End WithEnv.

(** In a run from a fresh analyzer, take a call in the body of a function
    declared in a gathered file that was loaded with type facts.  If the type
    facts give the callee as a function placed in a gathered file - the same or
    another - that declares it under the receiver type the resolver computes,
    then the output has the relationship from the caller to the identifier of
    that declaration, with [IsResolved] true, and a node with that
    identifier. *)
Theorem typed_call_resolved {E : Env} (repoPath : string) (a0 a : GoAnalyzer)
    (fileInfos : gmap string fileInfo)
    (fp : string) (info : fileInfo) (ti : types.Info) (tp : types.Package)
    gdoc grecv gname gtps gparams gresults gbody gpos gend
    callPos callFun args (fn : types.Func)
    (info2 : fileInfo) (n2 : ast.Node) :
  NewGoAnalyzer repoPath = Ok a0 ->
  gatherFiles a0 = Ok fileInfos ->
  Analyze a0 = Ok a ->
  fileInfos !! fp = Some info ->
  analyzer.info info = Some ti -> pkg info = Some tp ->
  In (ast.FuncDecl gdoc grecv gname gtps gparams gresults (Some gbody) gpos gend)
     (ast.Decls (file info)) ->
  In (ast.CallExpr callPos callFun args) (ast.Inspect gbody) ->
  calleeObject callFun ti = Some (types.FuncObj fn) ->
  types.Func_Pos fn <> token.NoPos ->
  token.Filename (FileSet a0 (types.Func_Pos fn)) <> "" ->
  fileInfos !! calleeFile a0 fn = Some info2 ->
  In n2 (ast.InspectFile (file info2)) ->
  declares n2 (types.Func_Name fn) (calleeClass callFun ti fn) ->
  let callee := getComponentIDForFile a (calleeFile a0 fn) (types.Func_Name fn)
                                      (calleeClass callFun ti fn) in
  In (mkRel a (getComponentIDForFile a fp (ast.Name gname) (classOf grecv))
            callee callPos true)
     (Relationships a)
  /\ exists node,
      In node (Nodes a) /\ models.ID node = callee
      /\ models.Name node = types.Func_Name fn
      /\ models.FilePath node = calleeFile a0 fn.
Proof.
  intros Hnew Hg HA Hfp Hti Htp Hdecl Hcall Hobj Hpos Hname Hfp2 Hn2 Hd2.
  destruct (run_shape repoPath a0 fileInfos Hnew Hg)
    as (a1 & H1 & HA' & Hfresh & Hfr & _).
  rewrite HA in HA'. injection HA' as ->.
  pose proof (firstPass_extends _ _ _ H1) as Hx.
  destruct (extends_setting _ _ _ Hx) as (_ & Habs1 & Hfs1).
  destruct Hfr as (_ & Hnodes & _ & Habs & Hfs).
  assert (Hreg : registered a1 (calleeFile a0 fn) (types.Func_Name fn)
                            (calleeClass callFun ti fn)).
  { apply (firstPass_declares (mapRange 0 fileInfos) _ info2 n2 _ _ a0); auto.
    now apply mapRange_In. }
  assert (Hid : forall s name cls,
            RepoAbs s = RepoAbs a1 ->
            getComponentIDForFile s (calleeFile a0 fn) name cls
            = getComponentIDForFile a1 (calleeFile a0 fn) name cls).
  { intros s name cls Hs. now apply getComponentIDForFile_setting. }
  cbv zeta.
  rewrite (getComponentIDForFile_setting a1 _ fp),
          (getComponentIDForFile_setting a1 _ (calleeFile a0 fn)) by exact Habs.
  rewrite (mkRel_frozen a1 _ _ _ _ _
                (stage_frozen _ a1 a1 _ (frozen_refl a1)
                   (secondPass_stage a1 (mapRange 1 fileInfos) a1 (frozen_refl a1)))).
  split.
  - apply (secondPass_emits a1 (mapRange 1 fileInfos) fp info gdoc grecv gname gtps
             gparams gresults gbody gpos gend callPos callFun args);
      [now apply mapRange_In | exact Hdecl | exact Hcall |].
    intros s Hs. unfold callerOf. rewrite Hti, Htp.
    pose proof Hs as (Hi & _ & _ & Habs' & Hfs').
    assert (Hfile : calleeFile s fn = calleeFile a0 fn).
    { unfold calleeFile. now rewrite Hfs', Hfs1. }
    assert (Hrepo : isPosInRepo s (types.Func_Pos fn) = true).
    { unfold isPosInRepo.
      destruct (types.Func_Pos fn =? token.NoPos) eqn:Hp;
        [apply Z.eqb_eq in Hp; contradiction |].
      rewrite Hfs', Hfs1.
      destruct (String.eqb _ "") eqn:He; [apply String.eqb_eq in He; contradiction |].
      rewrite Habs', Habs1.
      now destruct (gatherFiles_gathered _ _ Hg _ _ Hfp2) as (_ & _ & _ & Hr & _). }
    rewrite (processCall_typed _ _ _ _ _ _ _ _ _ _ _
               (resolveCallWithTypes_inRepo s callFun ti tp fn Hobj Hrepo)).
    rewrite Hfile, (Hid s) by exact Habs'.
    rewrite getComponentIDForFile_nonempty, Hi.
    destruct Hreg as (-> & _).
    rewrite (mkRel_frozen a1 s) by exact Hs.
    simpl. apply in_or_app. right. now left.
  - destruct Hreg as (_ & node & Hin & Hnid & Hnn & _ & Hnf).
    exists node. rewrite Hnodes. auto.
Qed.

(** The call [b.Bar()] of [a.go], to the method declared in [b.go]. *)
Lemma typed_call_resolved_witness :
  NewGoAnalyzer (E := CrossFile.crossEnv) "/r" = Ok CrossFile.analyzer0
  /\ gatherFiles (E := CrossFile.crossEnv) CrossFile.analyzer0 = Ok CrossFile.files
  /\ calleeObject (ast.SelectorExpr 8 (ast.EIdent (World.ident 9 67 "b"))
                                    (World.ident 10 69 "Bar"))
                  CrossFile.typesInfo
     = Some (types.FuncObj CrossFile.funcBar)
  /\ calleeFile (E := CrossFile.crossEnv) CrossFile.analyzer0 CrossFile.funcBar
     = "/r/b.go"
  /\ exists a,
      Analyze (E := CrossFile.crossEnv) CrossFile.analyzer0 = Ok a
      /\ In (mkRel a "a.A.Foo" "b.B.Bar" 67 true) (Relationships a).
Proof.
  split; [reflexivity |]. split; [vm_compute; reflexivity |].
  split; [reflexivity |]. split; [reflexivity |].
  eexists. split; [vm_compute; reflexivity |].
  lazymatch goal with
  | |- In _ (Relationships ?a) =>
      destruct (typed_call_resolved (E := CrossFile.crossEnv) "/r"
                  CrossFile.analyzer0 a CrossFile.files
                  "/r/a.go" CrossFile.infoA CrossFile.typesInfo CrossFile.testpkg
                  None (Some [ast.mkField [World.ident 3 41 "a"]
                                (ast.StarExpr (ast.EIdent (World.ident 4 44 "A")))])
                  (World.ident 5 47 "Foo") [] (Some []) []
                  (World.block CrossFile.bodyFoo) 35 76
                  67 (ast.SelectorExpr 8 (ast.EIdent (World.ident 9 67 "b"))
                                       (World.ident 10 69 "Bar")) []
                  CrossFile.funcBar CrossFile.infoB
                  (World.methodDecl (World.ident 13 118 "b") (World.ident 14 121 "B")
                                    (World.ident 15 124 "Bar") [] 112 132))
        as [H _]
  end.
  - reflexivity.
  - vm_compute; reflexivity.
  - vm_compute; reflexivity.
  - vm_compute; reflexivity.
  - reflexivity.
  - reflexivity.
  - right. now left.
  - vm_compute. tauto.
  - reflexivity.
  - discriminate.
  - discriminate.
  - vm_compute; reflexivity.
  - vm_compute. tauto.
  - apply (declares_method None
             [ast.mkField [World.ident 13 118 "b"]
                          (ast.StarExpr (ast.EIdent (World.ident 14 121 "B")))]
             (World.ident 15 124 "Bar") [] (Some []) [] (Some (World.block [])) 112 132).
  - revert H. vm_compute. exact (fun H => H).
Defined.

(** ** Calls through the receiver, without type facts *)

(** In a run from a fresh analyzer, take a method declared in a gathered file
    without type facts, with a named receiver.  A call [r.M()] through that
    receiver in its body, where the same file declares a method [M] with the
    same receiver type text (through a pointer or not), gives the relationship
    from the caller to the identifier of [M], with [IsResolved] true. *)
Theorem receiver_call_resolved {E : Env} (repoPath : string) (a0 a : GoAnalyzer)
    (fileInfos : gmap string fileInfo) (fp : string) (info : fileInfo)
    gdoc fields gname gtps gparams gresults gbody gpos gend
    callPos p x sel args (n2 : ast.Node) :
  NewGoAnalyzer repoPath = Ok a0 ->
  gatherFiles a0 = Ok fileInfos ->
  Analyze a0 = Ok a ->
  fileInfos !! fp = Some info ->
  analyzer.info info = None \/ pkg info = None ->
  In (ast.FuncDecl gdoc (Some fields) gname gtps gparams gresults (Some gbody)
                   gpos gend)
     (ast.Decls (file info)) ->
  fst (recvOf fields) <> "" ->
  recvTypeOf fields <> "" ->
  In (ast.CallExpr callPos (ast.SelectorExpr p (ast.EIdent x) sel) args)
     (ast.Inspect gbody) ->
  ast.Name x = fst (recvOf fields) ->
  In n2 (ast.InspectFile (file info)) ->
  declares n2 (ast.Name sel) (recvTypeOf fields) ->
  In (mkRel a (getComponentIDForFile a fp (ast.Name gname) (recvTypeOf fields))
            (getComponentIDForFile a fp (ast.Name sel) (recvTypeOf fields))
            callPos true)
     (Relationships a).
Proof.
  intros Hnew Hg HA Hfp Hno Hdecl Hrn Hrt Hcall Hx Hn2 Hd2.
  destruct (run_shape repoPath a0 fileInfos Hnew Hg)
    as (a1 & H1 & HA' & Hfresh & Hfr & _).
  rewrite HA in HA'. injection HA' as ->.
  assert (Hreg : registered a1 fp (ast.Name sel) (recvTypeOf fields)).
  { apply (firstPass_declares (mapRange 0 fileInfos) _ info n2 _ _ a0); auto.
    now apply mapRange_In. }
  rewrite (mkRel_frozen a1 _ _ _ _ _ Hfr).
  destruct Hfr as (_ & _ & _ & Habs & _).
  rewrite (getComponentIDForFile_setting a1 _ fp (ast.Name gname)),
          (getComponentIDForFile_setting a1 _ fp (ast.Name sel)) by exact Habs.
  apply (secondPass_emits a1 (mapRange 1 fileInfos) fp info gdoc (Some fields) gname
           gtps gparams gresults gbody gpos gend callPos
           (ast.SelectorExpr p (ast.EIdent x) sel) args);
    [now apply mapRange_In | exact Hdecl | exact Hcall |].
  intros s Hs. unfold callerOf, recvNameOf, classOf.
  rewrite processCall_heuristic_eq
    by (unfold heuristicPath; destruct Hno as [-> | ->];
        [exact I | now destruct (analyzer.info info)]).
  cbv zeta. simpl heuristicCallee. rewrite Hx, String.eqb_refl.
  destruct (String.eqb (fst (recvOf fields)) "") eqn:E1;
    [apply String.eqb_eq in E1; contradiction |].
  destruct (String.eqb (recvTypeOf fields) "") eqn:E2;
    [apply String.eqb_eq in E2; contradiction |].
  simpl. pose proof Hs as (Hi & _ & _ & Habs' & _).
  rewrite (getComponentIDForFile_setting a1 s) by exact Habs'.
  rewrite getComponentIDForFile_nonempty, Hi.
  destruct Hreg as (-> & _).
  rewrite (mkRel_frozen a1 s) by exact Hs.
  simpl. apply in_or_app. right. now left.
Qed.

(** The call [t.B()] in the method [A] of the repository of
    [TestAnalyzeMethodCalls]. *)
Lemma receiver_call_resolved_witness :
  NewGoAnalyzer (E := Examples.methodEnv) "/r" = Ok (Examples.analyzerAt Examples.methodEnv)
  /\ gatherFiles (E := Examples.methodEnv) (Examples.analyzerAt Examples.methodEnv)
     = Ok Examples.methodFiles
  /\ exists a,
      Analyze (E := Examples.methodEnv) (Examples.analyzerAt Examples.methodEnv) = Ok a
      /\ In (mkRel a "test_method_calls.T.A" "test_method_calls.T.B" 54 true)
            (Relationships a).
Proof.
  split; [reflexivity |]. split; [vm_compute; reflexivity |].
  eexists. split; [vm_compute; reflexivity |].
  lazymatch goal with
  | |- In _ (Relationships ?a) =>
      pose proof (receiver_call_resolved (E := Examples.methodEnv) "/r"
                    (Examples.analyzerAt Examples.methodEnv) a Examples.methodFiles
                    "/r/test_method_calls.go"
                    {| file := Examples.methodFile; info := None; pkg := None;
                       content := Examples.methodSrc |}
                    None
                    [ast.mkField [World.ident 3 41 "t"]
                                 (ast.StarExpr (ast.EIdent (World.ident 4 44 "T")))]
                    (World.ident 5 47 "A") [] (Some []) []
                    (World.block
                       [ World.exprStmt
                           (ast.CallExpr 54
                              (ast.SelectorExpr 6 (ast.EIdent (World.ident 7 54 "t"))
                                                (World.ident 8 56 "B")) []) ])
                    35 61 54 6 (World.ident 7 54 "t") (World.ident 8 56 "B") []
                    (World.methodDecl (World.ident 9 69 "t") (World.ident 10 72 "T")
                                      (World.ident 11 75 "B") [] 63 81)) as H
  end.
  assert (H' := H eq_refl).
  clear H. revert H'. vm_compute. intros H. apply H; clear H.
  - reflexivity.
  - reflexivity.
  - reflexivity.
  - now left.
  - right. now left.
  - discriminate.
  - discriminate.
  - tauto.
  - reflexivity.
  - tauto.
  - apply (declares_method None
             [ast.mkField [World.ident 9 69 "t"]
                          (ast.StarExpr (ast.EIdent (World.ident 10 72 "T")))]
             (World.ident 11 75 "B") [] (Some []) [] (Some (World.block [])) 63 81).
Defined.

End Resolution.

(* ===================================================================== *)
(** * The order in which the files are ranged over *)
(* ===================================================================== *)

Module FileOrder.

Import GoString Props analyzer StringFacts LoopFacts CollectorFacts
       ResolverFacts RunFacts Claims.

(** The analyzer with the setting of [a] and the given output. *)
Definition withOutput (a : GoAnalyzer) (nodes : list models.Node)
    (rels : list models.CallRelationship) (ids : gmap string bool) : GoAnalyzer :=
  {| RepoPath := RepoPath a; RepoAbs := RepoAbs a; FileSet := FileSet a;
     Nodes := nodes; Relationships := rels; CollectedNodeIDs := ids |}.

(** The identifiers of the nodes [new], registered in [ids]. *)
Definition addIDs (new : list models.Node) (ids : gmap string bool)
  : gmap string bool :=
  fold_left (fun m node => <[models.ID node := true]> m) new ids.

(** [f] appends the nodes [new] and registers their identifiers, whatever
    output the analyzer holds. *)
Definition addsNodes (f : GoAnalyzer -> result GoAnalyzer) (a : GoAnalyzer)
    (new : list models.Node) : Prop :=
  forall nodes rels ids,
    f (withOutput a nodes rels ids)
    = Ok (withOutput a (nodes ++ new) rels (addIDs new ids)).

(** The nodes [f] appends to an analyzer that holds none. *)
Definition nodesOf (f : GoAnalyzer -> result GoAnalyzer) (a : GoAnalyzer)
  : list models.Node :=
  match f (withOutput a [] [] ∅) with
  | Ok b => Nodes b
  | _ => []
  end.

(** The nodes of one file, collected on their own. *)
Definition fileNodes {E : Env} (a : GoAnalyzer) (entry : string * fileInfo)
  : list models.Node :=
  nodesOf (collectNodes (fst entry) (snd entry)) a.

(** [f] appends the relationships [new], whatever nodes and relationships
    the analyzer holds, when the identifiers registered are [ids]. *)
Definition addsRels (f : GoAnalyzer -> GoAnalyzer) (a : GoAnalyzer)
    (ids : gmap string bool) (new : list models.CallRelationship) : Prop :=
  forall nodes rels,
    f (withOutput a nodes rels ids) = withOutput a nodes (rels ++ new) ids.

Definition relsOf (f : GoAnalyzer -> GoAnalyzer) (a : GoAnalyzer)
    (ids : gmap string bool) : list models.CallRelationship :=
  Relationships (f (withOutput a [] [] ids)).

(** The relationships of one file, collected on their own with the
    identifiers [ids] registered. *)
Definition fileRels {E : Env} (a : GoAnalyzer) (ids : gmap string bool)
    (entry : string * fileInfo) : list models.CallRelationship :=
  relsOf (collectCalls (fst entry) (snd entry)) a ids.

Lemma withOutput_self (a : GoAnalyzer) :
  withOutput a (Nodes a) (Relationships a) (CollectedNodeIDs a) = a.
Proof. now destruct a. Qed.

Lemma withOutput_setting (a s : GoAnalyzer) :
  sameSetting a s ->
  s = withOutput a (Nodes s) (Relationships s) (CollectedNodeIDs s).
Proof.
  destruct s, a. unfold sameSetting, withOutput. simpl.
  now intros (-> & -> & ->).
Qed.

Lemma addIDs_app (l1 l2 : list models.Node) (ids : gmap string bool) :
  addIDs (l1 ++ l2) ids = addIDs l2 (addIDs l1 ids).
Proof. apply fold_left_app. Qed.

Lemma addIDs_lookup (new : list models.Node) (ids : gmap string bool) (k : string) :
  addIDs new ids !! k
  = if decide (k ∈ map models.ID new) then Some true else ids !! k.
Proof.
  revert ids. induction new as [|x new IH]; intros ids.
  - simpl. destruct (decide (k ∈ [])) as [H | _]; [| reflexivity].
    now apply elem_of_nil in H.
  - change (addIDs (x :: new) ids) with (addIDs new (<[models.ID x := true]> ids)).
    rewrite IH. simpl map.
    destruct (decide (k ∈ map models.ID new)) as [Hin | Hnin].
    + destruct (decide (k ∈ models.ID x :: map models.ID new)) as [_ | Hn];
        [reflexivity |]. exfalso. apply Hn. now apply list_elem_of_further.
    + destruct (decide (models.ID x = k)) as [<- | Hne].
      * rewrite lookup_insert_eq.
        destruct (decide (models.ID x ∈ models.ID x :: map models.ID new))
          as [_ | Hn]; [reflexivity |]. exfalso. apply Hn. apply list_elem_of_here.
      * rewrite lookup_insert_ne by exact Hne.
        destruct (decide (k ∈ models.ID x :: map models.ID new)) as [H | _];
          [| reflexivity].
        apply elem_of_cons in H as [-> | H]; contradiction.
Qed.

(** The identifiers registered do not depend on the order of the nodes. *)
Lemma addIDs_perm (l1 l2 : list models.Node) (ids : gmap string bool) :
  l1 ≡ₚ l2 -> addIDs l1 ids = addIDs l2 ids.
Proof.
  intros Hp. apply map_eq. intros k. rewrite !addIDs_lookup.
  assert (Hiff : k ∈ map models.ID l1 <-> k ∈ map models.ID l2)
    by now rewrite Hp.
  destruct (decide (k ∈ map models.ID l1)), (decide (k ∈ map models.ID l2));
    tauto.
Qed.

Lemma addsNodes_nodesOf f a new : addsNodes f a new -> nodesOf f a = new.
Proof. intros H. unfold nodesOf. now rewrite H. Qed.

Lemma addsNodes_ex f a : (exists new, addsNodes f a new) -> addsNodes f a (nodesOf f a).
Proof. intros (new & H). now rewrite (addsNodes_nodesOf f a new H). Qed.

Lemma addsRels_relsOf f a ids new : addsRels f a ids new -> relsOf f a ids = new.
Proof. intros H. unfold relsOf. now rewrite H. Qed.

Lemma addsRels_ex f a ids :
  (exists new, addsRels f a ids new) -> addsRels f a ids (relsOf f a ids).
Proof. intros (new & H). now rewrite (addsRels_relsOf f a ids new H). Qed.

(** A loop of the first pass appends what its rounds append, in the order of
    the rounds. *)
Lemma forM_addsNodes {A : Type} (body : A -> GoAnalyzer -> result GoAnalyzer)
    (a : GoAnalyzer) (l : list A) :
  (forall x, In x l -> exists new, addsNodes (body x) a new) ->
  addsNodes (forM body l) a (flat_map (fun x => nodesOf (body x) a) l).
Proof.
  induction l as [|x l IH]; intros Hb nodes rels ids.
  - simpl. now rewrite app_nil_r.
  - simpl forM. rewrite (addsNodes_ex _ _ (Hb x (or_introl eq_refl))). simpl.
    rewrite IH by (intros y Hy; apply Hb; now right).
    now rewrite <- app_assoc, <- addIDs_app.
Qed.

(** A loop of the second pass likewise. *)
Lemma fold_addsRels {A : Type} (body : GoAnalyzer -> A -> GoAnalyzer)
    (a : GoAnalyzer) (ids : gmap string bool) (l : list A) :
  (forall x, In x l -> exists new, addsRels (fun s => body s x) a ids new) ->
  addsRels (fold_left body l) a ids
           (flat_map (fun x => relsOf (fun s => body s x) a ids) l).
Proof.
  induction l as [|x l IH]; intros Hb nodes rels.
  - simpl. now rewrite app_nil_r.
  - simpl fold_left.
    rewrite (addsRels_ex (fun s => body s x) _ _ (Hb x (or_introl eq_refl))).
    rewrite IH by (intros y Hy; apply Hb; now right).
    simpl. now rewrite <- app_assoc.
Qed.

Section WithEnv.

Context {E : Env}.

Lemma visitFuncDecl_addsNodes doc recv name params fpos fend fp content a :
  exists new, addsNodes (visitFuncDecl doc recv name params fpos fend fp content) a new.
Proof.
  destruct (captureSource_total content (startOffsetOf a doc fpos)
              (token.Offset (FileSet a fend))) as [src Hsrc].
  unfold addsNodes, visitFuncDecl. cbv zeta.
  destruct recv as [fields |]; cbv beta iota;
    (eexists [_]; intros nodes rels ids;
     change (FileSet (withOutput a nodes rels ids)) with (FileSet a);
     change (RepoAbs (withOutput a nodes rels ids)) with (RepoAbs a);
     repeat rewrite (getComponentIDForFile_setting a (withOutput a nodes rels ids))
       by reflexivity;
     fold (startOffsetOf a doc fpos); rewrite Hsrc;
     unfold appendNode, registerID, withOutput;
     cbn [RepoPath RepoAbs FileSet Nodes Relationships CollectedNodeIDs mbind
          result_bind];
     f_equal; f_equal).
Qed.

Lemma visitSpec_addsNodes gdoc fp content spec a :
  exists new, addsNodes (visitSpec gdoc fp content spec) a new.
Proof.
  assert (Hskip : exists new, addsNodes Ok a new).
  { exists []. intros nodes rels ids. now rewrite app_nil_r. }
  destruct spec as [| | | | | | | |tsDoc tsName tsParams tsType tsEnd | | |];
    try exact Hskip.
  unfold visitSpec, visitTypeSpec.
  destruct (captureSource_total content
              (startOffsetOf a (effectiveDoc tsDoc gdoc) (ast.NamePos tsName))
              (token.Offset (FileSet a tsEnd))) as [src Hsrc].
  destruct tsType; try exact Hskip; cbv zeta;
    (eexists [_]; intros nodes rels ids;
     change (FileSet (withOutput a nodes rels ids)) with (FileSet a);
     change (RepoAbs (withOutput a nodes rels ids)) with (RepoAbs a);
     repeat rewrite (getComponentIDForFile_setting a (withOutput a nodes rels ids))
       by reflexivity;
     fold (effectiveDoc tsDoc gdoc);
     fold (startOffsetOf a (effectiveDoc tsDoc gdoc) (ast.NamePos tsName));
     rewrite Hsrc;
     unfold appendNode, registerID, withOutput;
     cbn [RepoPath RepoAbs FileSet Nodes Relationships CollectedNodeIDs mbind
          result_bind];
     f_equal; f_equal).
Qed.

Lemma collectNode_addsNodes fp content n a :
  exists new, addsNodes (collectNode fp content n) a new.
Proof.
  assert (Hskip : exists new, addsNodes Ok a new).
  { exists []. intros nodes rels ids. now rewrite app_nil_r. }
  destruct n; try exact Hskip.
  - destruct Tok; try exact Hskip.
    eexists. intros nodes rels ids.
    rewrite collectNode_GenDecl.
    apply (forM_addsNodes (visitSpec Doc fp content) a Specs).
    intros x _. apply visitSpec_addsNodes.
  - apply visitFuncDecl_addsNodes.
Qed.

Lemma collectNodes_addsNodes fp info a :
  addsNodes (collectNodes fp info) a (fileNodes a (fp, info)).
Proof.
  apply addsNodes_ex. eexists. unfold collectNodes.
  apply forM_addsNodes. intros n _. apply collectNode_addsNodes.
Qed.

(** The first pass appends the nodes of each file, file after file. *)
Lemma firstPass_addsNodes files a :
  addsNodes (firstPass files) a (flat_map (fileNodes a) files).
Proof.
  unfold firstPass.
  assert (H : addsNodes (forM (fun '(filename, info) => collectNodes filename info) files)
                a (flat_map (fun x => nodesOf (let '(filename, info) := x in
                                               collectNodes filename info) a) files)).
  { apply forM_addsNodes. intros [fp info] _. eexists. apply collectNodes_addsNodes. }
  assert (Heq : flat_map (fun x => nodesOf (let '(filename, info) := x in
                                            collectNodes filename info) a) files
                = flat_map (fileNodes a) files).
  { apply flat_map_ext. now intros [fp info]. }
  now rewrite Heq in H.
Qed.

Lemma processCall_addsRels callerID recvName recvType callPos callFun typeInfo typePkg
    fp a ids :
  exists new,
    addsRels (processCall callerID recvName recvType callPos callFun typeInfo typePkg fp)
             a ids new.
Proof.
  unfold addsRels, processCall. cbv zeta.
  set (h := heuristicCallee (withOutput a [] [] ids) recvName recvType callFun fp).
  assert (Hh : exists new, forall nodes rels,
    (if negb (String.eqb (heuristicCallee (withOutput a nodes rels ids) recvName
                            recvType callFun fp) "")
     then appendRel
            (mkRel (withOutput a nodes rels ids) callerID
               (heuristicCallee (withOutput a nodes rels ids) recvName recvType
                                callFun fp)
               callPos
               (lookupID (CollectedNodeIDs (withOutput a nodes rels ids))
                  (heuristicCallee (withOutput a nodes rels ids) recvName recvType
                                   callFun fp)))
            (withOutput a nodes rels ids)
     else withOutput a nodes rels ids)
    = withOutput a nodes (rels ++ new) ids).
  { destruct (negb (String.eqb h "")) eqn:He.
    - exists [mkRel a callerID h callPos (lookupID ids h)]. intros nodes rels.
      change (heuristicCallee (withOutput a nodes rels ids) recvName recvType callFun fp)
        with h.
      rewrite He. reflexivity.
    - exists []. intros nodes rels.
      change (heuristicCallee (withOutput a nodes rels ids) recvName recvType callFun fp)
        with h.
      rewrite He. now rewrite app_nil_r. }
  destruct typeInfo as [ti |]; [| exact Hh].
  destruct typePkg as [tp |]; [| exact Hh].
  set (r := resolveCallWithTypes (withOutput a [] [] ids) callFun ti tp).
  destruct r as [[callee resolved] ok] eqn:Hr.
  destruct ok.
  - destruct (negb (String.eqb callee "")) eqn:He.
    + exists [mkRel a callerID callee callPos resolved]. intros nodes rels.
      change (resolveCallWithTypes (withOutput a nodes rels ids) callFun ti tp) with r.
      rewrite Hr, He. reflexivity.
    + exists []. intros nodes rels.
      change (resolveCallWithTypes (withOutput a nodes rels ids) callFun ti tp) with r.
      rewrite Hr, He. now rewrite app_nil_r.
  - destruct Hh as (new & Hh). exists new. intros nodes rels.
    change (resolveCallWithTypes (withOutput a nodes rels ids) callFun ti tp) with r.
    rewrite Hr. apply Hh.
Qed.

Lemma collectCall_addsRels fp info n a ids :
  exists new, addsRels (fun s => collectCall fp info s n) a ids new.
Proof.
  assert (Hskip : exists new, addsRels (fun s => s) a ids new).
  { exists []. intros nodes rels. now rewrite app_nil_r. }
  destruct n; try exact Hskip. unfold collectCall.
  destruct Body as [body |]; [| exact Hskip].
  eexists. intros nodes rels. rewrite visitFuncBodyForCalls_eq.
  change (callerOf (withOutput a nodes rels ids) Recv FName fp)
    with (callerOf a Recv FName fp).
  apply (fold_addsRels
           (visitCall (callerOf a Recv FName fp) (recvNameOf Recv) (classOf Recv)
                      (analyzer.info info) (pkg info) fp) a ids (ast.Inspect body)).
  intros x _. destruct x; try exact Hskip. apply processCall_addsRels.
Qed.

Lemma collectCalls_addsRels fp info a ids :
  addsRels (collectCalls fp info) a ids (fileRels a ids (fp, info)).
Proof.
  apply addsRels_ex. eexists. unfold collectCalls.
  apply fold_addsRels. intros n _. apply collectCall_addsRels.
Qed.

(** The second pass appends the relationships of each file, file after
    file. *)
Lemma secondPass_addsRels files a ids :
  addsRels (secondPass files) a ids (flat_map (fileRels a ids) files).
Proof.
  unfold secondPass.
  assert (H : addsRels (fold_left (fun a0 '(filename, info) =>
                                     collectCalls filename info a0) files) a ids
                (flat_map (fun x => relsOf (fun s => let '(filename, info) := x in
                                                     collectCalls filename info s)
                                      a ids) files)).
  { apply (fold_addsRels (fun a0 '(filename, info) => collectCalls filename info a0)).
    intros [fp info] _. eexists. apply collectCalls_addsRels. }
  assert (Heq : flat_map (fun x => relsOf (fun s => let '(filename, info) := x in
                                                    collectCalls filename info s)
                                     a ids) files
                = flat_map (fileRels a ids) files).
  { apply flat_map_ext. now intros [fp info]. }
  now rewrite Heq in H.
Qed.

(** The two passes over lists of files, as one equation. *)
Lemma passes_by_file order0 order1 (a : GoAnalyzer) :
  let newNodes := flat_map (fileNodes a) order0 in
  let ids := addIDs newNodes (CollectedNodeIDs a) in
  firstPass order0 a ≫= (fun a1 => Ok (secondPass order1 a1))
  = Ok (withOutput a (Nodes a ++ newNodes)
                   (Relationships a ++ flat_map (fileRels a ids) order1) ids).
Proof.
  cbv zeta. rewrite <- (withOutput_self a) at 1.
  rewrite firstPass_addsNodes. simpl.
  now rewrite (secondPass_addsRels order1 a).
Qed.

End WithEnv.

(** The files are kept in a map, and each pass ranges over it in an order
    that the runtime chooses.  Whatever the two orders, [Analyze] gives the
    same identifiers, the same nodes up to their order and the same
    relationships up to their order: the nodes of each gathered file on their
    own, file after file in the first order, and the relationships of each
    file, file after file in the second. *)
Theorem Analyze_order_independent {E : Env} (a b : GoAnalyzer)
    (fileInfos : gmap string fileInfo) (order0 order1 : list (string * fileInfo)) :
  gatherFiles a = Ok fileInfos ->
  Analyze a = Ok b ->
  order0 ≡ₚ map_to_list fileInfos ->
  order1 ≡ₚ map_to_list fileInfos ->
  exists a1,
    firstPass order0 a = Ok a1
    /\ Nodes a1 = Nodes a ++ flat_map (fileNodes a) order0
    /\ Relationships (secondPass order1 a1)
       = Relationships a ++ flat_map (fileRels a (CollectedNodeIDs b)) order1
    /\ Nodes (secondPass order1 a1) ≡ₚ Nodes b
    /\ Relationships (secondPass order1 a1) ≡ₚ Relationships b
    /\ CollectedNodeIDs (secondPass order1 a1) = CollectedNodeIDs b.
Proof.
  intros Hg HA H0 H1.
  assert (Hb : Analyze a = firstPass (mapRange 0 fileInfos) a
                           ≫= (fun a1 => Ok (secondPass (mapRange 1 fileInfos) a1))).
  { unfold Analyze. now rewrite Hg. }
  rewrite HA, passes_by_file in Hb. injection Hb as ->. simpl.
  assert (Hn : flat_map (fileNodes a) order0
               ≡ₚ flat_map (fileNodes a) (mapRange 0 fileInfos)).
  { apply Permutation_flat_map. rewrite H0. symmetry. apply mapRange_perm. }
  assert (Hi : addIDs (flat_map (fileNodes a) order0) (CollectedNodeIDs a)
               = addIDs (flat_map (fileNodes a) (mapRange 0 fileInfos))
                        (CollectedNodeIDs a)) by now apply addIDs_perm.
  pose proof (passes_by_file order0 order1 a) as Hp. cbv zeta in Hp.
  apply bind_Ok in Hp as (a1 & Hf & Hs). injection Hs as Hs.
  exists a1. split; [exact Hf |]. rewrite Hs. simpl. rewrite Hi.
  pose proof Hf as Hf'. rewrite <- (withOutput_self a) in Hf' at 1.
  rewrite firstPass_addsNodes in Hf'. injection Hf' as <-. simpl.
  repeat split.
  - now apply Permutation_app_head.
  - apply Permutation_app_head, Permutation_flat_map.
    rewrite H1. symmetry. apply mapRange_perm.
Qed.

(** The repository of two files, with the first pass going over [b.go] before
    [a.go] and the second pass the other way round. *)
Lemma Analyze_order_independent_witness :
  gatherFiles (E := CrossFile.crossEnv) CrossFile.analyzer0 = Ok CrossFile.files
  /\ [("/r/b.go", CrossFile.infoB); ("/r/a.go", CrossFile.infoA)]
     ≡ₚ map_to_list CrossFile.files
  /\ [("/r/a.go", CrossFile.infoA); ("/r/b.go", CrossFile.infoB)]
     ≡ₚ map_to_list CrossFile.files
  /\ exists b a1,
      Analyze (E := CrossFile.crossEnv) CrossFile.analyzer0 = Ok b
      /\ firstPass (E := CrossFile.crossEnv)
           [("/r/b.go", CrossFile.infoB); ("/r/a.go", CrossFile.infoA)]
           CrossFile.analyzer0 = Ok a1
      /\ Nodes (secondPass (E := CrossFile.crossEnv)
                  [("/r/a.go", CrossFile.infoA); ("/r/b.go", CrossFile.infoB)] a1)
         ≡ₚ Nodes b
      /\ Relationships (secondPass (E := CrossFile.crossEnv)
                          [("/r/a.go", CrossFile.infoA); ("/r/b.go", CrossFile.infoB)]
                          a1)
         ≡ₚ Relationships b
      /\ CollectedNodeIDs (secondPass (E := CrossFile.crossEnv)
                             [("/r/a.go", CrossFile.infoA); ("/r/b.go", CrossFile.infoB)]
                             a1)
         = CollectedNodeIDs b.
Proof.
  assert (Hg : gatherFiles (E := CrossFile.crossEnv) CrossFile.analyzer0
               = Ok CrossFile.files) by (vm_compute; reflexivity).
  assert (H0 : [("/r/b.go", CrossFile.infoB); ("/r/a.go", CrossFile.infoA)]
               ≡ₚ map_to_list CrossFile.files)
    by (vm_compute; first [reflexivity | apply perm_swap]).
  assert (H1 : [("/r/a.go", CrossFile.infoA); ("/r/b.go", CrossFile.infoB)]
               ≡ₚ map_to_list CrossFile.files)
    by (vm_compute; first [reflexivity | apply perm_swap]).
  split; [exact Hg |]. split; [exact H0 |]. split; [exact H1 |].
  destruct (Analyze_passes (E := CrossFile.crossEnv) CrossFile.analyzer0 CrossFile.files Hg)
    as (a1' & _ & HA).
  destruct (Analyze_order_independent (E := CrossFile.crossEnv) CrossFile.analyzer0 _
              CrossFile.files _ _ Hg HA H0 H1)
    as (a1 & Hf & _ & _ & Hn & Hr & Hi).
  eexists _, a1. split; [exact HA |]. split; [exact Hf |].
  split; [exact Hn |]. split; [exact Hr | exact Hi].
Defined.

End FileOrder.

(* ===================================================================== *)
(** * Every relationship comes from a call *)
(* ===================================================================== *)

Module Provenance.

Import GoString Props analyzer StringFacts LoopFacts CollectorFacts
       ResolverFacts RunFacts Claims RunInvariants FileOrder.

Section WithEnv.

Context {E : Env}.

(** What a loop of the second pass appends on its own is what its rounds
    append on their own, one after the other. *)
Lemma relsOf_fold {A : Type} (body : GoAnalyzer -> A -> GoAnalyzer)
    (a : GoAnalyzer) (ids : gmap string bool) (l : list A) :
  (forall x, In x l -> exists new, addsRels (fun s => body s x) a ids new) ->
  relsOf (fold_left body l) a ids
  = flat_map (fun x => relsOf (fun s => body s x) a ids) l.
Proof. intros H. apply addsRels_relsOf. now apply fold_addsRels. Qed.

(** A call appends one relationship at most, the same in every state of
    the second pass. *)
Lemma relsOf_processCall callerID recvName recvType callPos callFun typeInfo typePkg
    fp (a : GoAnalyzer) (r : models.CallRelationship) :
  In r (relsOf (processCall callerID recvName recvType callPos callFun
                            typeInfo typePkg fp) a (CollectedNodeIDs a)) ->
  processCall callerID recvName recvType callPos callFun typeInfo typePkg fp a
  = appendRel r a
  /\ models.Caller r = callerID
  /\ models.CallLine r = token.Line (FileSet a callPos).
Proof.
  intros Hin.
  destruct (processCall_addsRels callerID recvName recvType callPos callFun
              typeInfo typePkg fp a (CollectedNodeIDs a)) as (new & Hnew).
  rewrite (addsRels_relsOf _ _ _ _ Hnew) in Hin.
  pose proof (Hnew (Nodes a) (Relationships a)) as Ha.
  rewrite withOutput_self in Ha.
  destruct (processCall_cases callerID recvName recvType callPos callFun
              typeInfo typePkg fp a) as [Hc | (callee & res & _ & Hc)];
    rewrite Hc in Ha.
  - apply (f_equal Relationships) in Ha. simpl in Ha.
    rewrite <- (app_nil_r (Relationships a)) in Ha at 1.
    apply app_inv_head in Ha. subst new. destruct Hin.
  - apply (f_equal Relationships) in Ha. simpl in Ha.
    apply app_inv_head in Ha. subst new. destruct Hin as [<- | []].
    now rewrite Hc.
Qed.

End WithEnv.

(** In a run from a fresh analyzer every relationship of the output is the
    one that [processCall] appends for a call expression that [ast.Inspect]
    reaches in the body of a function declaration of a gathered file: its
    caller is the identifier of that declaration, its line the line of the
    call. *)
Theorem relationships_from_calls {E : Env} (repoPath : string)
    (a0 a : GoAnalyzer) (fileInfos : gmap string fileInfo) :
  NewGoAnalyzer repoPath = Ok a0 ->
  gatherFiles a0 = Ok fileInfos ->
  Analyze a0 = Ok a ->
  forall r,
    In r (Relationships a) ->
    exists fp info doc recv name tps params results body fpos fend
           callPos callFun args,
      fileInfos !! fp = Some info
      /\ In (ast.FuncDecl doc recv name tps params results (Some body) fpos fend)
            (ast.InspectFile (file info))
      /\ In (ast.CallExpr callPos callFun args) (ast.Inspect body)
      /\ processCall (getComponentIDForFile a fp (ast.Name name) (classOf recv))
                     (recvNameOf recv) (classOf recv) callPos callFun
                     (analyzer.info info) (pkg info) fp a
         = appendRel r a
      /\ models.Caller r = getComponentIDForFile a fp (ast.Name name) (classOf recv)
      /\ models.CallLine r = token.Line (FileSet a callPos).
Proof.
  intros Hnew Hg HA r Hin.
  destruct (run_shape repoPath a0 fileInfos Hnew Hg)
    as (a1 & H1 & HA' & Hfresh & Hfr & _).
  rewrite HA in HA'. injection HA' as Ha.
  destruct (firstPass_fresh _ _ _ Hfresh H1) as (_ & Hr1 & _).
  assert (Hself : a = withOutput a (Nodes a) (Relationships a) (CollectedNodeIDs a))
    by (symmetry; apply withOutput_self).
  (* the second pass, from the state in which it ends but without its
     relationships *)
  assert (Hrels : Relationships a
                  = flat_map (fileRels a (CollectedNodeIDs a)) (mapRange 1 fileInfos)).
  { pose proof (secondPass_addsRels (mapRange 1 fileInfos) a1 (CollectedNodeIDs a1)
                  (Nodes a1) (Relationships a1)) as Hs.
    rewrite withOutput_self, <- Ha, Hr1 in Hs. simpl in Hs.
    assert (Hi : CollectedNodeIDs a = CollectedNodeIDs a1) by (rewrite Hs; reflexivity).
    assert (Hf : forall entry, fileRels a (CollectedNodeIDs a) entry
                               = fileRels a1 (CollectedNodeIDs a1) entry).
    { intros entry. rewrite Hi. unfold fileRels, relsOf.
      assert (Hw : forall n rl, withOutput a n rl (CollectedNodeIDs a1)
                                = withOutput a1 n rl (CollectedNodeIDs a1)).
      { intros n rl. rewrite Hs. reflexivity. }
      now rewrite Hw. }
    rewrite (flat_map_ext _ _ Hf). now rewrite Hs at 1. }
  rewrite Hrels in Hin. apply in_flat_map in Hin as ([fp info] & Hfile & Hin).
  apply mapRange_In in Hfile.
  unfold fileRels in Hin. simpl fst in Hin. simpl snd in Hin.
  unfold collectCalls in Hin.
  rewrite relsOf_fold in Hin by (intros n _; apply collectCall_addsRels).
  apply in_flat_map in Hin as (n & Hn & Hin).
  destruct n as [| | | | | | | | | |doc recv name tps params results body fpos fend |];
    try (now destruct Hin).
  destruct body as [body |]; [| now destruct Hin].
  unfold collectCall in Hin.
  assert (Heq : relsOf (fun s => visitFuncBodyForCalls recv name (Some body) fp
                                   (analyzer.info info) (pkg info) s)
                       a (CollectedNodeIDs a)
                = relsOf (fold_left (visitCall (callerOf a recv name fp) (recvNameOf recv)
                                               (classOf recv) (analyzer.info info)
                                               (pkg info) fp)
                                    (ast.Inspect body))
                         a (CollectedNodeIDs a)).
  { unfold relsOf. now rewrite visitFuncBodyForCalls_eq. }
  rewrite Heq in Hin. clear Heq.
  rewrite relsOf_fold in Hin.
  2:{ intros c _. destruct c; try (exists []; intros ? ?; now rewrite app_nil_r).
      apply processCall_addsRels. }
  apply in_flat_map in Hin as (c & Hc & Hin).
  destruct c as [| | | | |callPos callFun args | | | | | |]; try (now destruct Hin).
  exists fp, info, doc, recv, name, tps, params, results, body, fpos, fend,
         callPos, callFun, args.
  split; [exact Hfile |]. split; [exact Hn |]. split; [exact Hc |].
  now apply relsOf_processCall.
Qed.

(** The run on the repository of two files. *)
Lemma relationships_from_calls_witness :
  NewGoAnalyzer (E := CrossFile.crossEnv) "/r" = Ok CrossFile.analyzer0
  /\ gatherFiles (E := CrossFile.crossEnv) CrossFile.analyzer0 = Ok CrossFile.files
  /\ exists a,
      Analyze (E := CrossFile.crossEnv) CrossFile.analyzer0 = Ok a
      /\ forall r,
          In r (Relationships a) ->
          exists fp info doc recv name tps params results body fpos fend
                 callPos callFun args,
            CrossFile.files !! fp = Some info
            /\ In (ast.FuncDecl doc recv name tps params results (Some body) fpos fend)
                  (ast.InspectFile (file info))
            /\ In (ast.CallExpr callPos callFun args) (ast.Inspect body)
            /\ processCall (E := CrossFile.crossEnv)
                 (getComponentIDForFile (E := CrossFile.crossEnv) a fp (ast.Name name)
                                        (classOf recv))
                 (recvNameOf recv) (classOf recv) callPos callFun
                 (analyzer.info info) (pkg info) fp a
               = appendRel r a
            /\ models.Caller r
               = getComponentIDForFile (E := CrossFile.crossEnv) a fp (ast.Name name)
                                       (classOf recv)
            /\ models.CallLine r = token.Line (FileSet a callPos).
Proof.
  assert (Hg : gatherFiles (E := CrossFile.crossEnv) CrossFile.analyzer0
               = Ok CrossFile.files) by (vm_compute; reflexivity).
  split; [reflexivity |]. split; [exact Hg |].
  destruct (Analyze_passes (E := CrossFile.crossEnv) CrossFile.analyzer0
              CrossFile.files Hg) as (a1 & _ & HA).
  eexists. split; [exact HA |].
  exact (relationships_from_calls (E := CrossFile.crossEnv) "/r" CrossFile.analyzer0 _
           CrossFile.files eq_refl Hg HA).
Defined.

End Provenance.

(* ===================================================================== *)
(** * The two passes and the flag of a relationship *)
(* ===================================================================== *)

Module TwoPass.

Import GoString Props analyzer StringFacts LoopFacts CollectorFacts
       ResolverFacts RunFacts Claims RunInvariants Resolution FileOrder
       Provenance.

(** The type-informed path answers for the call without a look in
    [CollectedNodeIDs]: the type facts give the callee as a builtin, or as a
    function that they place outside the repository. *)
Definition noLookup {E : Env} (a : GoAnalyzer) (callFun : ast.Node)
    (typeInfo : option types.Info) (typePkg : option types.Package) : bool :=
  match typeInfo, typePkg with
  | Some ti, Some _ =>
      match calleeObject callFun ti with
      | Some (types.FuncObj fn) => negb (isPosInRepo a (types.Func_Pos fn))
      | Some types.Builtin =>
          match callFun with ast.EIdent _ => true | _ => false end
      | _ => false
      end
  | _, _ => false
  end.

Section WithEnv.

Context {E : Env}.

Lemma isPosInRepo_setting (a b : GoAnalyzer) (pos : token.Pos) :
  RepoAbs b = RepoAbs a -> FileSet b = FileSet a ->
  isPosInRepo b pos = isPosInRepo a pos.
Proof. intros Ha Hf. unfold isPosInRepo. now rewrite Ha, Hf. Qed.

Lemma noLookup_setting (a b : GoAnalyzer) callFun typeInfo typePkg :
  RepoAbs b = RepoAbs a -> FileSet b = FileSet a ->
  noLookup b callFun typeInfo typePkg = noLookup a callFun typeInfo typePkg.
Proof.
  intros Ha Hf. unfold noLookup.
  destruct typeInfo as [ti |]; [| reflexivity].
  destruct typePkg as [tp |]; [| reflexivity].
  destruct (calleeObject callFun ti) as [[fn | | |] |]; try reflexivity.
  now rewrite (isPosInRepo_setting a b).
Qed.

(** The flag of the type-informed path: false without a look-up, or the
    look-up of the callee it names; where it declines, it would have
    looked. *)
Lemma resolveCallWithTypes_lookup (a : GoAnalyzer) callFun ti tp :
  (snd (resolveCallWithTypes a callFun ti tp) = false ->
   noLookup a callFun (Some ti) (Some tp) = false)
  /\ (snd (resolveCallWithTypes a callFun ti tp) = true ->
      snd (fst (resolveCallWithTypes a callFun ti tp))
      = if noLookup a callFun (Some ti) (Some tp) then false
        else lookupID (CollectedNodeIDs a)
                      (fst (fst (resolveCallWithTypes a callFun ti tp)))).
Proof.
  unfold noLookup.
  destruct (calleeObject callFun ti) as [[fn | | |] |] eqn:Ho.
  - destruct (isPosInRepo a (types.Func_Pos fn)) eqn:Hin.
    + rewrite (resolveCallWithTypes_inRepo a callFun ti tp fn Ho Hin). now split.
    + rewrite (resolveCallWithTypes_external a callFun ti tp fn Ho Hin). now split.
  - unfold calleeObject in Ho. unfold resolveCallWithTypes.
    destruct callFun as [f | |p x sel | | | | | | | | |]; try discriminate Ho.
    + rewrite Ho. now split.
    + split; [reflexivity |].
      destruct (types.Selections ti !! p) as [s |].
      * injection Ho as ->. discriminate.
      * destruct x as [xi | | | | | | | | | | |]; try discriminate Ho.
        destruct (types.Uses ti !! ast.IdentPtr xi) as [[| | |] |];
          try discriminate Ho.
        rewrite Ho. discriminate.
  - split; [reflexivity |].
    unfold calleeObject in Ho. unfold resolveCallWithTypes.
    destruct callFun as [f | |p x sel | | | | | | | | |]; try discriminate Ho.
    + rewrite Ho. discriminate.
    + destruct (types.Selections ti !! p) as [s |].
      * injection Ho as ->. discriminate.
      * destruct x as [xi | | | | | | | | | | |]; try discriminate Ho.
        destruct (types.Uses ti !! ast.IdentPtr xi) as [[| | |] |];
          try discriminate Ho.
        rewrite Ho. discriminate.
  - split; [reflexivity |].
    unfold calleeObject in Ho. unfold resolveCallWithTypes.
    destruct callFun as [f | |p x sel | | | | | | | | |]; try discriminate Ho.
    + rewrite Ho. discriminate.
    + destruct (types.Selections ti !! p) as [s |].
      * injection Ho as ->. discriminate.
      * destruct x as [xi | | | | | | | | | | |]; try discriminate Ho.
        destruct (types.Uses ti !! ast.IdentPtr xi) as [[| | |] |];
          try discriminate Ho.
        rewrite Ho. discriminate.
  - split; [reflexivity |].
    unfold calleeObject in Ho. unfold resolveCallWithTypes.
    destruct callFun as [f | |p x sel | | | | | | | | |]; try discriminate.
    + rewrite Ho. discriminate.
    + destruct (types.Selections ti !! p) as [s |]; [discriminate Ho |].
      destruct x as [xi | | | | | | | | | | |]; try discriminate.
      destruct (types.Uses ti !! ast.IdentPtr xi) as [[| | |] |];
        try discriminate.
      rewrite Ho. discriminate.
Qed.

Lemma appendRel_fresh (r : models.CallRelationship) (a : GoAnalyzer) :
  a <> appendRel r a.
Proof.
  intros H. apply (f_equal Relationships) in H. simpl in H.
  apply (f_equal (@List.length _)) in H. rewrite length_app in H. simpl in H. lia.
Qed.

Lemma appendRel_inj (r r' : models.CallRelationship) (a : GoAnalyzer) :
  appendRel r a = appendRel r' a -> r = r'.
Proof.
  intros H. apply (f_equal Relationships) in H. simpl in H.
  apply app_inv_head in H. now injection H.
Qed.

(** The flag of the relationship that a call appends: false where the
    type-informed path answers without a look-up, and otherwise the
    membership of the callee in [CollectedNodeIDs] as it is when the call is
    processed. *)
Lemma processCall_flag callerID recvName recvType callPos callFun typeInfo typePkg
    filePath (a : GoAnalyzer) (r : models.CallRelationship) :
  processCall callerID recvName recvType callPos callFun typeInfo typePkg filePath a
  = appendRel r a ->
  models.IsResolved r
  = if noLookup a callFun typeInfo typePkg then false
    else lookupID (CollectedNodeIDs a) (models.Callee r).
Proof.
  assert (Hh : heuristicPath a callFun typeInfo typePkg ->
               noLookup a callFun typeInfo typePkg = false ->
               processCall callerID recvName recvType callPos callFun typeInfo
                           typePkg filePath a = appendRel r a ->
               models.IsResolved r
               = if noLookup a callFun typeInfo typePkg then false
                 else lookupID (CollectedNodeIDs a) (models.Callee r)).
  { intros Hp Hn H. rewrite Hn.
    rewrite processCall_heuristic_eq in H by exact Hp. cbv zeta in H.
    destruct (String.eqb _ ""); [now apply appendRel_fresh in H |].
    apply appendRel_inj in H. now subst r. }
  destruct typeInfo as [ti |]; [| now apply Hh].
  destruct typePkg as [tp |]; [| now apply Hh].
  destruct (resolveCallWithTypes_lookup a callFun ti tp) as [Hno Hyes].
  destruct (resolveCallWithTypes a callFun ti tp) as [[callee resolved] ok] eqn:Hr.
  simpl in Hno, Hyes.
  destruct ok; [| now apply Hh; [simpl; rewrite Hr | apply Hno]].
  intros H.
  rewrite (processCall_typed _ _ _ _ _ _ _ _ _ callee resolved Hr) in H.
  destruct (String.eqb callee ""); [now apply appendRel_fresh in H |].
  apply appendRel_inj in H. subst r. simpl. now apply Hyes.
Qed.

(** Every relationship that the second pass appends over [files] is the one
    that [processCall] appends for a call in the body of a function
    declaration of one of the files. *)
Lemma secondPass_calls (files : list (string * fileInfo)) (a1 : GoAnalyzer)
    (r : models.CallRelationship) :
  In r (flat_map (fileRels a1 (CollectedNodeIDs a1)) files) ->
  exists fp info doc recv name tps params results body fpos fend
         callPos callFun args,
    In (fp, info) files
    /\ In (ast.FuncDecl doc recv name tps params results (Some body) fpos fend)
          (ast.InspectFile (file info))
    /\ In (ast.CallExpr callPos callFun args) (ast.Inspect body)
    /\ processCall (callerOf a1 recv name fp) (recvNameOf recv) (classOf recv)
                   callPos callFun (analyzer.info info) (pkg info) fp a1
       = appendRel r a1.
Proof.
  intros Hin. apply in_flat_map in Hin as ([fp info] & Hfile & Hin).
  unfold fileRels in Hin. simpl fst in Hin. simpl snd in Hin.
  unfold collectCalls in Hin.
  rewrite relsOf_fold in Hin by (intros n _; apply collectCall_addsRels).
  apply in_flat_map in Hin as (n & Hn & Hin).
  destruct n as [| | | | | | | | | |doc recv name tps params results body fpos fend |];
    try (now destruct Hin).
  destruct body as [body |]; [| now destruct Hin].
  unfold collectCall in Hin.
  assert (Heq : relsOf (fun s => visitFuncBodyForCalls recv name (Some body) fp
                                   (analyzer.info info) (pkg info) s)
                       a1 (CollectedNodeIDs a1)
                = relsOf (fold_left (visitCall (callerOf a1 recv name fp)
                                               (recvNameOf recv) (classOf recv)
                                               (analyzer.info info) (pkg info) fp)
                                    (ast.Inspect body))
                         a1 (CollectedNodeIDs a1)).
  { unfold relsOf. now rewrite visitFuncBodyForCalls_eq. }
  rewrite Heq in Hin. clear Heq.
  rewrite relsOf_fold in Hin.
  2:{ intros c _. destruct c; try (exists []; intros ? ?; now rewrite app_nil_r).
      apply processCall_addsRels. }
  apply in_flat_map in Hin as (c & Hc & Hin).
  destruct c as [| | | | |callPos callFun args | | | | | |]; try (now destruct Hin).
  exists fp, info, doc, recv, name, tps, params, results, body, fpos, fend,
         callPos, callFun, args.
  split; [exact Hfile |]. split; [exact Hn |]. split; [exact Hc |].
  now apply relsOf_processCall.
Qed.

End WithEnv.

(** C3, as amended - two-pass phase ordering and the flag of a
    relationship: in a run from a fresh analyzer, the first pass goes over
    every gathered file and ends in a state [a1] in which every declaration
    of every file is registered; only then does the second pass start, from
    [a1].  No call processed and no stretch of the second pass changes
    [CollectedNodeIDs], which holds exactly the identifiers of the nodes of
    the whole run.  Every relationship of the output is the one that
    [processCall] appends for a call in a gathered file, and its
    [IsResolved] is
    - false, set without a look in the set, where the type-informed path
      gives the callee as a builtin or as a function that it places outside
      the repository, whether or not the name it emits is in the set;
    - the membership of its callee in the identifier set of [a1], the set
      of the whole run, in every other case: on the heuristic path, and
      where the type facts place the callee in the repository.
    So a true [IsResolved] implies membership in the set of the whole run;
    a false one does not exclude it. *)
Theorem C3_two_pass_ordering {E : Env} (repoPath : string) (a0 : GoAnalyzer)
    (fileInfos : gmap string fileInfo) :
  NewGoAnalyzer repoPath = Ok a0 ->
  gatherFiles a0 = Ok fileInfos ->
  exists a1,
    firstPass (mapRange 0 fileInfos) a0 = Ok a1
    /\ Analyze a0 = Ok (secondPass (mapRange 1 fileInfos) a1)
    /\ (forall fp info n name cls,
          fileInfos !! fp = Some info ->
          In n (ast.InspectFile (file info)) -> declares n name cls ->
          registered a1 fp name cls)
    /\ (forall id,
          lookupID (CollectedNodeIDs a1) id = true <->
          exists node,
            In node (Nodes (secondPass (mapRange 1 fileInfos) a1))
            /\ models.ID node = id)
    /\ (forall callerID recvName recvType callPos callFun typeInfo typePkg fp s,
          CollectedNodeIDs (processCall callerID recvName recvType callPos callFun
                                        typeInfo typePkg fp s)
          = CollectedNodeIDs s)
    /\ (forall before after,
          mapRange 1 fileInfos = before ++ after ->
          CollectedNodeIDs (secondPass before a1) = CollectedNodeIDs a1)
    /\ (forall r,
          In r (Relationships (secondPass (mapRange 1 fileInfos) a1)) ->
          exists fp info doc recv name tps params results body fpos fend
                 callPos callFun args,
            fileInfos !! fp = Some info
            /\ In (ast.FuncDecl doc recv name tps params results (Some body)
                                fpos fend)
                  (ast.InspectFile (file info))
            /\ In (ast.CallExpr callPos callFun args) (ast.Inspect body)
            /\ processCall (getComponentIDForFile a1 fp (ast.Name name)
                                                  (classOf recv))
                           (recvNameOf recv) (classOf recv) callPos callFun
                           (analyzer.info info) (pkg info) fp a1
               = appendRel r a1
            /\ models.IsResolved r
               = if noLookup a1 callFun (analyzer.info info) (pkg info)
                 then false
                 else lookupID (CollectedNodeIDs a1) (models.Callee r))
    /\ (forall r,
          In r (Relationships (secondPass (mapRange 1 fileInfos) a1)) ->
          models.IsResolved r = true ->
          lookupID (CollectedNodeIDs a1) (models.Callee r) = true).
Proof.
  intros Hnew Hg.
  destruct (run_shape repoPath a0 fileInfos Hnew Hg)
    as (a1 & H1 & HA & Hfresh & (Hi & Hn & _) & _).
  exists a1. split; [exact H1 |]. split; [exact HA |].
  destruct (firstPass_fresh _ _ _ Hfresh H1) as (_ & Hr1 & _ & Hids).
  assert (Hcalls : forall r,
    In r (Relationships (secondPass (mapRange 1 fileInfos) a1)) ->
    exists fp info doc recv name tps params results body fpos fend
           callPos callFun args,
      fileInfos !! fp = Some info
      /\ In (ast.FuncDecl doc recv name tps params results (Some body) fpos fend)
            (ast.InspectFile (file info))
      /\ In (ast.CallExpr callPos callFun args) (ast.Inspect body)
      /\ processCall (getComponentIDForFile a1 fp (ast.Name name) (classOf recv))
                     (recvNameOf recv) (classOf recv) callPos callFun
                     (analyzer.info info) (pkg info) fp a1
         = appendRel r a1
      /\ models.IsResolved r
         = if noLookup a1 callFun (analyzer.info info) (pkg info) then false
           else lookupID (CollectedNodeIDs a1) (models.Callee r)).
  { intros r Hin.
    pose proof (secondPass_addsRels (mapRange 1 fileInfos) a1 (CollectedNodeIDs a1)
                  (Nodes a1) (Relationships a1)) as Hs.
    rewrite withOutput_self in Hs. rewrite Hs, Hr1 in Hin. simpl in Hin.
    destruct (secondPass_calls _ _ _ Hin)
      as (fp & info & doc & recv & name & tps & params & results & body & fpos
          & fend & callPos & callFun & args & Hfile & Hd & Hc & Hp).
    exists fp, info, doc, recv, name, tps, params, results, body, fpos, fend,
           callPos, callFun, args.
    split; [now apply mapRange_In in Hfile |]. split; [exact Hd |].
    split; [exact Hc |]. split; [exact Hp |].
    now apply processCall_flag in Hp. }
  split; [| split; [| split; [| split; [| split]]]].
  - intros fp info n name cls Hl Hin Hd.
    apply (firstPass_declares (mapRange 0 fileInfos) fp info n name cls a0 a1);
      auto. now apply mapRange_In.
  - intros id. rewrite Hn. apply Hids.
  - intros callerID recvName recvType callPos callFun typeInfo typePkg fp s.
    destruct (processCall_emitted callerID recvName recvType callPos callFun
                typeInfo typePkg fp s) as (new' & (_ & _ & H & _) & _).
    exact H.
  - intros before after _.
    destruct (secondPass_stage a1 before a1 (frozen_refl a1))
      as (new' & (_ & _ & H & _) & _).
    exact H.
  - exact Hcalls.
  - intros r Hin Hres.
    destruct (Hcalls r Hin)
      as (fp & info & doc & recv & name & tps & params & results & body & fpos
          & fend & callPos & callFun & args & _ & _ & _ & _ & Hflag).
    rewrite Hres in Hflag. now destruct (noLookup _ _ _ _).
Qed.

(** The run on the repository of [TestIsResolved], with its type facts. *)
Lemma C3_two_pass_ordering_witness :
  NewGoAnalyzer (E := Examples.callsTypedEnv) "/r"
  = Ok (Examples.analyzerAt Examples.callsTypedEnv)
  /\ gatherFiles (E := Examples.callsTypedEnv)
                 (Examples.analyzerAt Examples.callsTypedEnv)
     = Ok Examples.callsTypedFiles
  /\ exists a1,
      Analyze (E := Examples.callsTypedEnv)
              (Examples.analyzerAt Examples.callsTypedEnv)
      = Ok (secondPass (E := Examples.callsTypedEnv)
              (mapRange (Env := Examples.callsTypedEnv) 1 Examples.callsTypedFiles) a1)
      /\ forall r,
          In r (Relationships
                  (secondPass (E := Examples.callsTypedEnv)
                     (mapRange (Env := Examples.callsTypedEnv) 1
                               Examples.callsTypedFiles) a1)) ->
          exists fp info callFun,
            Examples.callsTypedFiles !! fp = Some info
            /\ models.IsResolved r
               = if noLookup (E := Examples.callsTypedEnv) a1 callFun
                             (analyzer.info info) (pkg info)
                 then false
                 else lookupID (CollectedNodeIDs a1) (models.Callee r).
Proof.
  split; [reflexivity |]. split; [vm_compute; reflexivity |].
  destruct (C3_two_pass_ordering (E := Examples.callsTypedEnv) "/r"
              (Examples.analyzerAt Examples.callsTypedEnv)
              Examples.callsTypedFiles eq_refl)
    as (a1 & _ & HA & _ & _ & _ & _ & Hcalls & _); [vm_compute; reflexivity |].
  exists a1. split; [exact HA |]. intros r Hin.
  destruct (Hcalls r Hin)
    as (fp & info & _ & _ & _ & _ & _ & _ & _ & _ & _ & _ & callFun & _
        & Hfile & _ & _ & _ & Hflag).
  exists fp, info, callFun. split; [exact Hfile | exact Hflag].
Defined.

(** C3, as stated, fails where the type-informed path answers without a
    look in the set: the file [fmt.go] declares [Println] and calls
    [fmt.Println] of the imported standard library.  The file is gathered
    with its type facts, which place the callee in a file of the library;
    [resolveCallWithTypes] names it [fmt.Println] and gives the flag false.
    [fmt.Println] is in the identifier set of the run, as the identifier of
    the function [Println] of [fmt.go]: [IsResolved] is not the membership
    of the callee in that set. *)
Lemma C3_counterexample :
  gatherFiles (E := Examples.fmtEnv) (Examples.analyzerAt Examples.fmtEnv)
  = Ok Examples.fmtFiles
  /\ exists a r node,
      Analyze (E := Examples.fmtEnv) (Examples.analyzerAt Examples.fmtEnv) = Ok a
      /\ resolveCallWithTypes (E := Examples.fmtEnv) a
           (ast.SelectorExpr 4 (ast.EIdent (World.ident 5 63 "fmt"))
                             (World.ident 6 67 "Println"))
           Examples.fmtInfo Examples.mainPackage
         = ("fmt.Println", false, true)
      /\ Relationships a = [r]
      /\ models.Caller r = "fmt.main"
      /\ models.Callee r = "fmt.Println"
      /\ models.CallLine r = 8
      /\ models.IsResolved r = false
      /\ lookupID (CollectedNodeIDs a) (models.Callee r) = true
      /\ In node (Nodes a)
      /\ models.ID node = models.Callee r
      /\ models.Name node = "Println"
      /\ models.FilePath node = "/r/fmt.go".
Proof.
  split; [vm_compute; reflexivity |].
  eexists. eexists. eexists. split; [vm_compute; reflexivity |].
  split; [vm_compute; reflexivity |].
  split; [reflexivity |]. split; [reflexivity |]. split; [reflexivity |].
  split; [reflexivity |]. split; [reflexivity |].
  split; [vm_compute; reflexivity |].
  split; [left; reflexivity |]. repeat split.
Qed.

End TwoPass.

(* ===================================================================== *)
(** * The files that are gathered *)
(* ===================================================================== *)

Module Gathering.

Import GoString Props analyzer StringFacts LoopFacts CollectorFacts
       ResolverFacts RunFacts Claims.

(** The module roots [Analyze] loads: those found, or the repository root
    when none is found. *)
Definition rootsOrRepo (a : GoAnalyzer) (found : list string) : list string :=
  match found with [] => [RepoAbs a] | _ => found end.

(** Every entry of [m] is an entry of [m']. *)
Definition keeps (m m' : gmap string fileInfo) : Prop :=
  forall k v, m !! k = Some v -> m' !! k = Some v.

Lemma keeps_refl m : keeps m m.
Proof. now intros k v. Qed.

Lemma keeps_trans m1 m2 m3 : keeps m1 m2 -> keeps m2 m3 -> keeps m1 m3.
Proof. intros H1 H2 k v H. now apply H2, H1. Qed.

Section WithEnv.

Context {E : Env}.

(** An entry is never replaced or removed. *)
Lemma addFile_keeps a pkg f fi fi' : addFile a pkg f fi = Ok fi' -> keeps fi fi'.
Proof.
  unfold addFile. cbv zeta.
  destruct (String.eqb _ "" || isTestFile _);
    [intros H; injection H as <-; apply keeps_refl |].
  destruct (negb (isPathInRepo _ _));
    [intros H; injection H as <-; apply keeps_refl |].
  destruct (fi !! absOrSame _) eqn:Hl;
    [intros H; injection H as <-; apply keeps_refl |].
  intros H. apply bind_Ok in H as (content & _ & H). injection H as <-.
  intros k v Hk. rewrite lookup_insert_ne; [exact Hk |].
  intros <-. rewrite Hl in Hk. discriminate.
Qed.

Lemma addPackage_keeps a pkg fi fi' : addPackage a pkg fi = Ok fi' -> keeps fi fi'.
Proof.
  unfold addPackage. apply forM_rel.
  - apply keeps_refl.
  - apply keeps_trans.
  - intros f s s' _. apply addFile_keeps.
Qed.

Lemma addRoot_keeps a root fi fi' : addRoot a root fi = Ok fi' -> keeps fi fi'.
Proof.
  unfold addRoot. intros H. apply bind_Ok in H as (pkgs & _ & H). revert H.
  apply forM_rel.
  - apply keeps_refl.
  - apply keeps_trans.
  - intros p s s' _. apply addPackage_keeps.
Qed.

(** After the round of a file that passes the three tests, the map has an
    entry under its absolute name. *)
Lemma addFile_enters a pkg f fi fi' :
  addFile a pkg f fi = Ok fi' ->
  String.eqb (reportedName a f) "" = false ->
  isTestFile (reportedName a f) = false ->
  isPathInRepo (RepoAbs a) (absOrSame (reportedName a f)) = true ->
  exists info, fi' !! absOrSame (reportedName a f) = Some info.
Proof.
  unfold addFile. cbv zeta. fold (reportedName a f). intros H Hn Ht Hr.
  rewrite Hn, Ht, Hr in H. simpl in H.
  destruct (fi !! absOrSame (reportedName a f)) as [info |] eqn:Hl.
  - injection H as <-. eauto.
  - apply bind_Ok in H as (content & _ & H). injection H as <-.
    rewrite lookup_insert_eq. eauto.
Qed.

End WithEnv.

(** Gathering is complete: when it succeeds, every file that the loader
    reports for a package of a module root - under a name that is not empty,
    does not end in [_test.go] and lies in the repository - has an entry under
    its absolute name, and that name could be read.  (So a file that cannot be
    read makes gathering, and with it [Analyze], fail.) *)
Theorem gatherFiles_complete {E : Env} (a : GoAnalyzer)
    (fileInfos : gmap string fileInfo) (found : list string) (root : string)
    (pkgs : list packages.Package) (pkg : packages.Package) (f : ast.File) :
  gatherFiles a = Ok fileInfos ->
  moduleRoots (RepoAbs a) = Ok found ->
  In root (rootsOrRepo a found) ->
  packages_Load root = Ok pkgs ->
  In pkg pkgs ->
  In f (packages.Syntax pkg) ->
  reportedName a f <> "" ->
  isTestFile (reportedName a f) = false ->
  isPathInRepo (RepoAbs a) (absOrSame (reportedName a f)) = true ->
  exists info,
    fileInfos !! absOrSame (reportedName a f) = Some info
    /\ absOrSame (reportedName a (file info)) = absOrSame (reportedName a f)
    /\ os_ReadFile (absOrSame (reportedName a f)) = Ok (content info).
Proof.
  intros Hg Hroots Hroot Hload Hpkg Hf Hn Ht Hr.
  assert (Hin : exists info, fileInfos !! absOrSame (reportedName a f) = Some info).
  { unfold gatherFiles in Hg. rewrite Hroots in Hg. simpl in Hg.
    fold (rootsOrRepo a found) in Hg.
    destruct (forM_round _ _ _ Hroot _ _ Hg) as (_ & l2 & s1 & s2 & _ & _ & Hstep & Hrest).
    assert (Hk2 : keeps s2 fileInfos).
    { revert Hrest. apply forM_rel; [apply keeps_refl | apply keeps_trans |].
      intros r s s' _. apply addRoot_keeps. }
    unfold addRoot in Hstep. rewrite Hload in Hstep. simpl in Hstep.
    destruct (forM_round _ _ _ Hpkg _ _ Hstep)
      as (_ & p2 & t1 & t2 & _ & _ & Hpstep & Hprest).
    assert (Hk1 : keeps t2 s2).
    { revert Hprest. apply forM_rel; [apply keeps_refl | apply keeps_trans |].
      intros r s s' _. apply addPackage_keeps. }
    unfold addPackage in Hpstep.
    destruct (forM_round _ _ _ Hf _ _ Hpstep)
      as (_ & f2 & u1 & u2 & _ & _ & Hfstep & Hfrest).
    assert (Hk0 : keeps u2 t2).
    { revert Hfrest. apply forM_rel; [apply keeps_refl | apply keeps_trans |].
      intros r s s' _. apply addFile_keeps. }
    destruct (addFile_enters a pkg f u1 u2 Hfstep) as (info & Hinfo); auto.
    { destruct (String.eqb _ "") eqn:He; [| reflexivity].
      apply String.eqb_eq in He. contradiction. }
    exists info. now apply Hk2, Hk1, Hk0. }
  destruct Hin as (info & Hinfo). exists info. split; [exact Hinfo |].
  destruct (gatherFiles_gathered _ _ Hg _ _ Hinfo) as (_ & _ & Hkey & _ & Hread).
  split; [now symmetry | exact Hread].
Qed.

(** The file [b.go] of the repository of two files. *)
Lemma gatherFiles_complete_witness :
  gatherFiles (E := CrossFile.crossEnv) CrossFile.analyzer0 = Ok CrossFile.files
  /\ reportedName CrossFile.analyzer0 CrossFile.fileB = "/r/b.go"
  /\ exists info,
      CrossFile.files !! "/r/b.go" = Some info
      /\ os_ReadFile (Env := CrossFile.crossEnv) "/r/b.go" = Ok (content info).
Proof.
  assert (Hg : gatherFiles (E := CrossFile.crossEnv) CrossFile.analyzer0
               = Ok CrossFile.files) by (vm_compute; reflexivity).
  split; [exact Hg |]. split; [reflexivity |].
  destruct (gatherFiles_complete (E := CrossFile.crossEnv) CrossFile.analyzer0
              CrossFile.files ["/r"] "/r" CrossFile.pkgs
              {| packages.Syntax := [CrossFile.fileA; CrossFile.fileB];
                 packages.TypesInfo := Some CrossFile.typesInfo;
                 packages.Types := Some CrossFile.testpkg |}
              CrossFile.fileB Hg)
    as (info & Hinfo & _ & Hread).
  - reflexivity.
  - now left.
  - reflexivity.
  - now left.
  - right. now left.
  - discriminate.
  - reflexivity.
  - reflexivity.
  - exists info. split; [exact Hinfo | exact Hread].
Defined.

End Gathering.

(* ===================================================================== *)
(** * The module roots *)
(* ===================================================================== *)

(** [findModuleRoots] looks for the modules of the repository: the
    repository root when it has a [go.work], else the directories that hold a
    [go.mod], found by [filepath.WalkDir].  The walk is the one of the Go
    library, over a file tree given as a value; the callback is the one of
    [findModuleRoots]. *)
Module ModuleRoots.

Import GoString analyzer.

(** An entry of the file tree: a file that is not a directory, or a
    directory with what [os.ReadDir] gives for it - the entries in the order
    of their names and, when reading fails, the error. *)
Inductive Entry : Type :=
| File (name : string)
| Dir (name : string) (readErr : option string) (entries : list Entry).

(** [d.Name()] and [d.IsDir()] *)
Definition Name (d : Entry) : string :=
  match d with File name => name | Dir name _ _ => name end.

Definition IsDir (d : Entry) : bool :=
  match d with File _ => false | Dir _ _ _ => true end.

(** The file system, as far as [findModuleRoots] asks: whether [os.Stat]
    succeeds on a path; what [os.Lstat] gives for the root of the walk, the
    tree below it or an error; [filepath.Join] of a path and a name;
    [filepath.Dir]. *)
Class FS := {
  os_Stat : string -> bool;
  os_Lstat : string -> Entry + string;
  filepath_Join : string -> string -> string;
  filepath_Dir : string -> string;
}.

(** The error a [fs.WalkDirFunc] returns: [nil], [filepath.SkipDir] or
    another error. *)
Inductive walkErr : Type :=
| nil_
| SkipDir
| Error (e : string).

Definition skipped (name : string) : bool :=
  String.eqb name ".git" || String.eqb name "vendor"
  || String.eqb name "node_modules".

Section WithFS.

Context {F : FS}.

(** The callback of [findModuleRoots], on the [roots] found so far.  The
    walk hands it an entry, or none together with an error (it never hands it
    neither, where the callback would ask nil for [IsDir]). *)
Definition visit (path : string) (d : option Entry) (err : option string)
    (roots : list string) : list string * walkErr :=
  match err with
  | Some e => (roots, Error e)
  | None =>
      match d with
      | None => (roots, Error "nil entry")
      | Some d =>
          if IsDir d then
            let name := Name d in
            if skipped name then (roots, SkipDir) else (roots, nil_)
          else if String.eqb (Name d) "go.mod"
          then (roots ++ [filepath_Dir path], nil_)
          else (roots, nil_)
      end
  end.

(** [walkDir] of [path/filepath], with the callback above. *)
Fixpoint walkDir (path : string) (d : Entry) (roots : list string)
  : list string * walkErr :=
  let '(roots, err) := visit path (Some d) None roots in
  match d with
  | File _ => (roots, err)
  | Dir _ readErr entries =>
      match err with
      | SkipDir => (roots, nil_)
      | Error e => (roots, Error e)
      | nil_ =>
          let loop :=
            (fix loop (dirs : list Entry) (roots : list string)
               : list string * walkErr :=
               match dirs with
               | [] => (roots, nil_)
               | d1 :: rest =>
                   let path1 := filepath_Join path (Name d1) in
                   let '(roots, err) := walkDir path1 d1 roots in
                   match err with
                   | nil_ => loop rest roots
                   | SkipDir => (roots, nil_)
                   | Error e => (roots, Error e)
                   end
               end) in
          match readErr with
          | None => loop entries roots
          | Some e =>
              let '(roots, err) := visit path (Some d) (Some e) roots in
              match err with
              | nil_ => loop entries roots
              | SkipDir => (roots, nil_)
              | Error e => (roots, Error e)
              end
          end
      end
  end.

(** The loop of [walkDir] over the entries of the directory [path]. *)
Fixpoint walkEntries (path : string) (dirs : list Entry) (roots : list string)
  : list string * walkErr :=
  match dirs with
  | [] => (roots, nil_)
  | d1 :: rest =>
      let path1 := filepath_Join path (Name d1) in
      let '(roots, err) := walkDir path1 d1 roots in
      match err with
      | nil_ => walkEntries path rest roots
      | SkipDir => (roots, nil_)
      | Error e => (roots, Error e)
      end
  end.

(** [filepath.WalkDir] *)
Definition WalkDir (root : string) (roots : list string)
  : list string * option string :=
  let '(roots, err) :=
    match os_Lstat root with
    | inl d => walkDir root d roots
    | inr e => visit root None (Some e) roots
    end in
  match err with
  | Error e => (roots, Some e)
  | _ => (roots, None)
  end.

(** [findModuleRoots]: the roots and the error. *)
Definition findModuleRoots (a : GoAnalyzer) : list string * option string :=
  if os_Stat (filepath_Join (RepoAbs a) "go.work") then ([RepoAbs a], None)
  else WalkDir (RepoAbs a) [].

(** The entry [e] at [p] is reached by the walk of [d] at [path]: it is [d],
    or is reached from an entry of [d], a directory that is not one of
    [.git], [vendor] and [node_modules]. *)
Inductive reaches : string -> Entry -> string -> Entry -> Prop :=
| reaches_here path d : reaches path d path d
| reaches_below path name readErr entries d1 p e :
    skipped name = false ->
    In d1 entries ->
    reaches (filepath_Join path (Name d1)) d1 p e ->
    reaches path (Dir name readErr entries) p e.

End WithFS.

(** Induction on a tree, with the entries of a directory. *)
Definition Entry_ind' (P : Entry -> Prop)
    (HF : forall name, P (File name))
    (HD : forall name readErr entries,
        Forall P entries -> P (Dir name readErr entries))
  : forall d, P d :=
  fix go (d : Entry) : P d :=
    match d with
    | File name => HF name
    | Dir name readErr entries =>
        HD name readErr entries
           ((fix all (l : list Entry) : Forall P l :=
               match l with
               | [] => @List.Forall_nil _ P
               | x :: r => @List.Forall_cons _ P x r (go x) (all r)
               end) entries)
    end.

(** A small tree for the examples: the repository [/r] with a module at the
    root, a module in [sub], and [go.mod] files in [.git] and below
    [vendor]. *)
Definition exampleTree : Entry :=
Dir "r" None
  [ Dir ".git" None [ File "go.mod" ];
    File "go.mod";
    File "main.go";
    Dir "sub" None [ File "go.mod"; File "x.go" ];
    Dir "vendor" (Some "permission denied") [ Dir "dep" None [ File "go.mod" ] ] ].

(** [filepath.Dir] on a clean absolute path whose directory is not the root
    directory: the path up to its last separator. *)
Fixpoint dirOf (s : string) : string :=
  match s with
  | EmptyString => EmptyString
  | String c r =>
      if existsb (fun b => byteZ b =? PathSeparator) (list_ascii_of_string r)
      then String c (dirOf r)
      else EmptyString
  end.

Definition exampleFS (tree : Entry) : FS :=
{| os_Stat := fun _ => false;
   os_Lstat := fun p => if String.eqb p "/r" then inl tree else inr "no such file";
   filepath_Join := fun p n => p +:+ "/" +:+ n;
   filepath_Dir := dirOf |}.

Definition exampleAnalyzer : GoAnalyzer :=
{| RepoPath := "/r"; RepoAbs := "/r";
   FileSet := fun _ => {| token.Filename := ""; token.Offset := 0;
                          token.Line := 0; token.Column := 0 |};
   Nodes := []; Relationships := []; CollectedNodeIDs := ∅ |}.

End ModuleRoots.

(* ===================================================================== *)
(** * Facts about the module roots *)
(* ===================================================================== *)

Module ModuleRootsFacts.

Import GoString analyzer LoopFacts ModuleRoots.

Section WithFS.

Context {F : FS}.

Lemma walkDir_File path name roots :
  walkDir path (File name) roots
  = if String.eqb name "go.mod" then (roots ++ [filepath_Dir path], nil_)
    else (roots, nil_).
Proof. simpl. now destruct (String.eqb name "go.mod"). Qed.

Lemma walkEntries_eq path dirs roots :
  walkEntries path dirs roots
  = (fix loop (dirs : list Entry) (roots : list string) : list string * walkErr :=
       match dirs with
       | [] => (roots, nil_)
       | d1 :: rest =>
           let path1 := filepath_Join path (Name d1) in
           let '(roots, err) := walkDir path1 d1 roots in
           match err with
           | nil_ => loop rest roots
           | SkipDir => (roots, nil_)
           | Error e => (roots, Error e)
           end
       end) dirs roots.
Proof.
  revert roots. induction dirs as [|d1 rest IH]; intros roots; [reflexivity |].
  simpl. destruct (walkDir _ d1 roots) as [roots1 [| |e]]; auto.
Qed.

(** [walkDir] on a directory: skipped, or read and walked through. *)
Lemma walkDir_Dir path name readErr entries roots :
  walkDir path (Dir name readErr entries) roots
  = if skipped name then (roots, nil_)
    else match readErr with
         | None => walkEntries path entries roots
         | Some e => (roots, Error e)
         end.
Proof.
  rewrite walkEntries_eq. simpl.
  destruct (skipped name); [reflexivity |]. now destruct readErr.
Qed.

(** What a walk from [d] at [path] has to find: the directories of the
    [go.mod] files it reaches. *)
Definition found (path : string) (d : Entry) (r : string) : Prop :=
  exists p, reaches path d p (File "go.mod") /\ r = filepath_Dir p.

(** A directory that the walk from [d] reads could not be read, with error
    [e]. *)
Definition unreadable (path : string) (d : Entry) (e : string) : Prop :=
  exists p name entries,
    reaches path d p (Dir name (Some e) entries) /\ skipped name = false.

(** The walk from [d]: it ends without error or with the error of a
    directory it could not read; the roots it appends are directories of
    [go.mod] files it reaches, and all of them when it ends without error. *)
Definition walked (path : string) (d : Entry) : Prop :=
  forall roots,
  exists new err,
    walkDir path d roots = (roots ++ new, err)
    /\ (forall r, In r new -> found path d r)
    /\ match err with
       | nil_ =>
           (forall r, found path d r -> In r new)
           /\ (forall e, ~ unreadable path d e)
       | SkipDir => False
       | Error e => unreadable path d e
       end.

Lemma reaches_File path name p e :
  reaches path (File name) p e -> p = path /\ e = File name.
Proof. inversion 1; subst; auto. Qed.

Lemma reaches_Dir path name readErr entries p e :
  reaches path (Dir name readErr entries) p e ->
  (p = path /\ e = Dir name readErr entries)
  \/ (skipped name = false
      /\ exists d1, In d1 entries /\ reaches (filepath_Join path (Name d1)) d1 p e).
Proof. inversion 1; subst; eauto. Qed.

Lemma walked_File path name : walked path (File name).
Proof.
  intros roots. rewrite walkDir_File.
  destruct (String.eqb name "go.mod") eqn:Hn.
  - apply String.eqb_eq in Hn as ->.
    exists [filepath_Dir path], nil_. split; [reflexivity |]. split; [| split].
    + intros r [<- | []]. exists path. split; [constructor | reflexivity].
    + intros r (p & Hp & ->). apply reaches_File in Hp as (-> & _). now left.
    + intros e (p & n & es & Hp & _). apply reaches_File in Hp as (_ & Hp).
      discriminate.
  - exists [], nil_. rewrite app_nil_r. split; [reflexivity |]. split; [| split].
    + intros r [].
    + intros r (p & Hp & ->). apply reaches_File in Hp as (_ & Hp).
      injection Hp as <-. rewrite String.eqb_refl in Hn. discriminate.
    + intros e (p & n & es & Hp & _). apply reaches_File in Hp as (_ & Hp).
      discriminate.
Qed.

(** The loop over the entries of a directory. *)
Lemma walkEntries_walked path dirs :
  Forall (fun d1 => forall path1, walked path1 d1) dirs ->
  forall roots,
  exists new err,
    walkEntries path dirs roots = (roots ++ new, err)
    /\ (forall r, In r new ->
          exists d1, In d1 dirs /\ found (filepath_Join path (Name d1)) d1 r)
    /\ match err with
       | nil_ =>
           (forall d1 r, In d1 dirs -> found (filepath_Join path (Name d1)) d1 r ->
                         In r new)
           /\ (forall d1 e, In d1 dirs ->
                  ~ unreadable (filepath_Join path (Name d1)) d1 e)
       | SkipDir => False
       | Error e =>
           exists d1, In d1 dirs /\ unreadable (filepath_Join path (Name d1)) d1 e
       end.
Proof.
  induction 1 as [|d1 rest Hd1 _ IH]; intros roots.
  - exists [], nil_. rewrite app_nil_r. split; [reflexivity |].
    split; [intros r [] |]. split; intros d1 ? [].
  - simpl.
    destruct (Hd1 (filepath_Join path (Name d1)) roots)
      as (new1 & err1 & -> & Hs1 & He1).
    destruct err1 as [| |e]; [| contradiction |].
    + destruct (IH (roots ++ new1)) as (new2 & err2 & -> & Hs2 & He2).
      exists (new1 ++ new2), err2. rewrite <- app_assoc.
      split; [reflexivity |]. split.
      * intros r Hr. apply in_app_or in Hr as [Hr | Hr].
        -- exists d1. split; [now left | now apply Hs1].
        -- destruct (Hs2 r Hr) as (d2 & Hin & Hf). exists d2. split; [now right | exact Hf].
      * destruct He1 as (Hc1 & Hr1).
        destruct err2 as [| |e]; [| contradiction |].
        -- destruct He2 as (Hc2 & Hr2). split.
           ++ intros d2 r [<- | Hin] Hf; apply in_or_app; [left | right]; eauto.
           ++ intros d2 e [<- | Hin]; eauto.
        -- destruct He2 as (d2 & Hin & Hu). exists d2. split; [now right | exact Hu].
    + exists new1, (Error e). split; [reflexivity |]. split.
      * intros r Hr. exists d1. split; [now left | now apply Hs1].
      * exists d1. split; [now left | exact He1].
Qed.

Lemma walked_all (d : Entry) : forall path, walked path d.
Proof.
  induction d as [name | name readErr entries IH] using Entry_ind'; intros path.
  - apply walked_File.
  - intros roots. rewrite walkDir_Dir.
    destruct (skipped name) eqn:Hs.
    { exists [], nil_. rewrite app_nil_r. split; [reflexivity |].
      split; [intros r [] |]. split.
      - intros r (p & Hp & ->). apply reaches_Dir in Hp as [(_ & Hp) | (Hp & _)];
          [discriminate | congruence].
      - intros e (p & n & es & Hp & Hn).
        apply reaches_Dir in Hp as [(_ & Hp) | (Hp & _)]; [| congruence].
        injection Hp as -> _ _. congruence. }
    destruct readErr as [e |].
    { exists [], (Error e). rewrite app_nil_r. split; [reflexivity |].
      split; [intros r [] |].
      exists path, name, entries. split; [constructor | exact Hs]. }
    destruct (walkEntries_walked path entries IH roots) as (new & err & -> & Hs1 & He1).
    exists new, err. split; [reflexivity |]. split.
    { intros r Hr. destruct (Hs1 r Hr) as (d1 & Hin & p & Hp & ->).
      exists p. split; [| reflexivity]. now apply reaches_below with d1. }
    destruct err as [| |e]; [| contradiction |].
    + destruct He1 as (Hc & Hr). split.
      * intros r (p & Hp & ->).
        apply reaches_Dir in Hp as [(_ & Hp) | (_ & d1 & Hin & Hp)]; [discriminate |].
        apply (Hc d1); [exact Hin |]. now exists p.
      * intros e (p & n & es & Hp & Hn).
        apply reaches_Dir in Hp as [(_ & Hp) | (_ & d1 & Hin & Hp)]; [discriminate |].
        apply (Hr d1 e Hin). now exists p, n, es.
    + destruct He1 as (d1 & Hin & p & n & es & Hp & Hn).
      exists p, n, es. split; [| exact Hn]. now apply reaches_below with d1.
Qed.

End WithFS.

(** Without a [go.work] at the root, [findModuleRoots] gives the directories
    of the [go.mod] files that are not directories and lie in the tree of the
    repository with no directory named [.git], [vendor] or [node_modules]
    on the way (the root of the tree counts): only such directories, and
    all of them when there is no error.  The error, if any, is that of a
    directory on such a way that could not be read. *)
Theorem findModuleRoots_walk {F : FS} (a : GoAnalyzer) (d : Entry) :
  os_Stat (filepath_Join (RepoAbs a) "go.work") = false ->
  os_Lstat (RepoAbs a) = inl d ->
  (forall r, In r (fst (findModuleRoots a)) -> found (RepoAbs a) d r)
  /\ (snd (findModuleRoots a) = None ->
      forall r, found (RepoAbs a) d r -> In r (fst (findModuleRoots a)))
  /\ (snd (findModuleRoots a) = None <-> forall e, ~ unreadable (RepoAbs a) d e)
  /\ (forall e, snd (findModuleRoots a) = Some e -> unreadable (RepoAbs a) d e).
Proof.
  intros Hw Hl. unfold findModuleRoots, WalkDir. rewrite Hw, Hl.
  destruct (walked_all d (RepoAbs a) []) as (new & err & -> & Hs & He). simpl.
  destruct err as [| |e]; [| contradiction |]; simpl.
  - destruct He as (Hc & Hr). repeat split; auto. discriminate.
  - split; [exact Hs |]. split; [discriminate |]. split.
    + split; [discriminate |]. intros H. now apply H in He.
    + intros e' H. now injection H as <-.
Qed.

(** The example tree: the modules at the root and in [sub]; the [go.mod]
    files in [.git] and below [vendor] are not looked at, and [vendor], which
    cannot be read, is not read. *)
Lemma findModuleRoots_walk_witness :
  os_Stat (FS := exampleFS exampleTree)
          (filepath_Join (FS := exampleFS exampleTree) "/r" "go.work") = false
  /\ os_Lstat (FS := exampleFS exampleTree) "/r" = inl exampleTree
  /\ findModuleRoots (F := exampleFS exampleTree) exampleAnalyzer
     = (["/r"; "/r/sub"], None)
  /\ (forall r,
        found (F := exampleFS exampleTree) "/r" exampleTree r ->
        In r ["/r"; "/r/sub"]).
Proof.
  split; [reflexivity |]. split; [reflexivity |]. split; [vm_compute; reflexivity |].
  destruct (findModuleRoots_walk (F := exampleFS exampleTree) exampleAnalyzer
              exampleTree eq_refl eq_refl) as (_ & Hc & _).
  exact (Hc eq_refl).
Defined.

(** A repository whose own directory is named [.git], [vendor] or
    [node_modules] and has no [go.work]: the walk skips it whole, so no module
    is found (and [Analyze] falls back to the repository root). *)
Theorem findModuleRoots_skipped_root {F : FS} (a : GoAnalyzer)
    name readErr entries :
  os_Stat (filepath_Join (RepoAbs a) "go.work") = false ->
  os_Lstat (RepoAbs a) = inl (Dir name readErr entries) ->
  skipped name = true ->
  findModuleRoots a = ([], None)
  /\ Gathering.rootsOrRepo a (fst (findModuleRoots a)) = [RepoAbs a].
Proof.
  intros Hw Hl Hs. unfold findModuleRoots, WalkDir.
  rewrite Hw, Hl, walkDir_Dir, Hs. split; reflexivity.
Qed.

(** A module checked out in a directory named [vendor]. *)
Lemma findModuleRoots_skipped_root_witness :
  findModuleRoots (F := exampleFS (Dir "vendor" None [ File "go.mod" ])) exampleAnalyzer
  = ([], None)
  /\ Gathering.rootsOrRepo exampleAnalyzer
       (fst (findModuleRoots (F := exampleFS (Dir "vendor" None [ File "go.mod" ]))
                             exampleAnalyzer))
     = ["/r"].
Proof.
  apply (findModuleRoots_skipped_root (F := exampleFS (Dir "vendor" None [ File "go.mod" ]))
           exampleAnalyzer "vendor" None [ File "go.mod" ]); reflexivity.
Defined.

End ModuleRootsFacts.

(* ===================================================================== *)
(** * The documentation of a node *)
(* ===================================================================== *)

Module Documentation.

Import GoString Props analyzer StringFacts LoopFacts CollectorFacts
       ResolverFacts RunFacts Claims RunInvariants.

(** Joined lines of which the last is empty: nothing, or a text that ends
    in a newline. *)
Lemma joinLines_last (l : list string) :
  List.last l "" = "" ->
  joinLines l = "" \/ exists t, joinLines l = t +:+ newline.
Proof.
  induction l as [|e l IH]; intros Hl; [now left |].
  destruct l as [|e2 rest].
  - simpl in *. now left.
  - change (List.last (e :: e2 :: rest) "") with (List.last (e2 :: rest) "") in Hl.
    change (joinLines (e :: e2 :: rest))
      with (e +:+ String (byteOf 10) (joinLines (e2 :: rest))).
    right. destruct (IH Hl) as [-> | (t & ->)].
    + exists e. reflexivity.
    + exists (e +:+ String (byteOf 10) t).
      change (String (byteOf 10) (t +:+ newline)) with (String (byteOf 10) t +:+ newline).
      now rewrite sapp_assoc.
Qed.

(** The text of a comment group is empty or ends in a newline. *)
Lemma CommentGroup_Text_shape (g : ast.CommentGroup) :
  ast.CommentGroup_Text g = ""
  \/ exists t, ast.CommentGroup_Text g = t +:+ newline.
Proof.
  unfold ast.CommentGroup_Text. cbv zeta.
  set (kept := fold_left ast.keepLine _ []).
  apply joinLines_last.
  destruct (List.last kept "") eqn:Hl; [exact Hl |].
  now rewrite last_last.
Qed.

(** The documentation of a node as the collector leaves it: without a doc
    comment, no text; with one, a text that is empty or ends in a newline. *)
Definition documented (node : models.Node) : Prop :=
  (models.HasDocstring node = false -> models.Docstring node = "")
  /\ (models.Docstring node = ""
      \/ exists t, models.Docstring node = t +:+ newline).

Lemma Doc_Text_documented (doc : option ast.CommentGroup) (node : models.Node) :
  models.HasDocstring node = match doc with Some _ => true | None => false end ->
  models.Docstring node = ast.Doc_Text doc ->
  documented node.
Proof.
  intros Hh Hd. unfold documented. rewrite Hh, Hd.
  destruct doc as [g |]; simpl.
  - split; [discriminate | apply CommentGroup_Text_shape].
  - split; [reflexivity | now left].
Qed.

Section WithEnv.

Context {E : Env}.

Lemma visitFuncDecl_documented doc recv name params fpos fend fp content a b :
  visitFuncDecl doc recv name params fpos fend fp content a = Ok b ->
  grows documented a b.
Proof.
  unfold visitFuncDecl. cbv zeta.
  destruct recv as [fields |]; cbv beta iota;
    (destruct (captureSource _ _ _) as [src | |]; simpl; try discriminate;
     intros H; injection H as <-;
     eexists; (split; [reflexivity |]);
     (constructor; [| constructor]);
     now apply (Doc_Text_documented doc)).
Qed.

Lemma visitSpec_documented gdoc fp content spec a b :
  visitSpec gdoc fp content spec a = Ok b -> grows documented a b.
Proof.
  intros H.
  destruct spec as [| | | | | | | |tsDoc tsName tsParams tsType tsEnd | | |];
    simpl in H; try (injection H as <-; apply grows_refl).
  unfold visitTypeSpec in H. cbv zeta in H.
  destruct tsType; try (injection H as <-; apply grows_refl);
    (destruct (captureSource _ _ _) as [src | |]; simpl in H; try discriminate;
     injection H as <-;
     eexists; (split; [reflexivity |]);
     (constructor; [| constructor]);
     now apply (Doc_Text_documented (effectiveDoc tsDoc gdoc))).
Qed.

Lemma collectNode_documented fp content n a b :
  collectNode fp content n a = Ok b -> grows documented a b.
Proof.
  destruct n; simpl; intros H; try (injection H as <-; apply grows_refl).
  - destruct Tok; try (injection H as <-; apply grows_refl).
    revert H. apply (forM_rel (visitSpec Doc fp content)).
    + apply grows_refl.
    + apply grows_trans.
    + intros x s s' _. apply visitSpec_documented.
  - now apply visitFuncDecl_documented in H.
Qed.

Lemma firstPass_documented files a b :
  firstPass files a = Ok b -> grows documented a b.
Proof.
  unfold firstPass. apply forM_rel.
  - apply grows_refl.
  - apply grows_trans.
  - intros [fp info] s s' _. unfold collectNodes. apply forM_rel.
    + apply grows_refl.
    + apply grows_trans.
    + intros n t t' _. apply collectNode_documented.
Qed.

End WithEnv.

(** In a run from a fresh analyzer, a node without a doc comment has an empty
    [Docstring], and the [Docstring] of every node is empty or ends in a
    newline. *)
Theorem docstrings_shape {E : Env} (repoPath : string) (a0 a : GoAnalyzer) :
  NewGoAnalyzer repoPath = Ok a0 ->
  Analyze a0 = Ok a ->
  forall node, In node (Nodes a) -> documented node.
Proof.
  intros Hnew HA node Hin.
  apply Analyze_Ok in HA as (fi & a1 & _ & H1 & ->).
  destruct (NewGoAnalyzer_fresh _ _ Hnew) as (Hn0 & _).
  destruct (secondPass_stage a1 (mapRange 1 fi) a1 (frozen_refl a1))
    as (newRels & (_ & Hn2 & _) & _).
  destruct (firstPass_documented _ _ _ H1) as (new & Hn1 & Hall).
  rewrite Hn2, Hn1, Hn0 in Hin. simpl in Hin.
  rewrite List.Forall_forall in Hall. now apply Hall.
Qed.

(** The run on the documented struct of [TestAnalyzeStructSourceExtraction]. *)
Lemma docstrings_shape_witness :
  NewGoAnalyzer (E := Examples.structEnv) "/r" = Ok (Examples.analyzerAt Examples.structEnv)
  /\ exists a,
      Analyze (E := Examples.structEnv) (Examples.analyzerAt Examples.structEnv) = Ok a
      /\ forall node, In node (Nodes a) -> documented node.
Proof.
  split; [reflexivity |].
  eexists. split; [vm_compute; reflexivity |].
  apply (docstrings_shape (E := Examples.structEnv) "/r"
           (Examples.analyzerAt Examples.structEnv)); [reflexivity |].
  vm_compute; reflexivity.
Defined.

(** A doc comment that holds nothing but a directive, such as
    [//go:noinline]: the node of the function has [HasDocstring] true and an
    empty [Docstring]. *)
Theorem directive_doc_empty {E : Env} (a : GoAnalyzer)
    (c : ast.Comment) (d : string)
    recv name params fpos fend fp content :
  ast.Text c = "//" +:+ d ->
  ast.isDirective d = true ->
  exists node,
    visitFuncDecl (Some {| ast.ListHead := c; ast.ListTail := [] |})
                  recv name params fpos fend fp content a
    = Ok (appendNode node (registerID (models.ID node) a))
    /\ models.HasDocstring node = true
    /\ models.Docstring node = "".
Proof.
  intros Hc Hd.
  assert (Ht : ast.Doc_Text (Some {| ast.ListHead := c; ast.ListTail := [] |}) = "").
  { unfold ast.Doc_Text, ast.CommentGroup_Text, ast.List. cbv zeta. simpl flat_map.
    unfold ast.commentLines. rewrite Hc.
    assert (Hu : ast.unmarked ("//" +:+ d) = None).
    { destruct d as [|sp rest]; [discriminate |].
      change ("//" +:+ String sp rest) with (String "/" (String "/" (String sp rest))).
      unfold ast.unmarked.
      change (byteZ "/" =? 47) with true. cbv iota.
      destruct (byteZ sp =? 32) eqn:Hs.
      - exfalso. apply Z.eqb_eq in Hs.
        assert (sp = " "%char) as ->.
        { rewrite <- (byteOf_byteZ sp), Hs. reflexivity. }
        cbv in Hd. discriminate.
      - now rewrite Hd. }
    rewrite Hu. reflexivity. }
  unfold visitFuncDecl. cbv zeta.
  destruct recv as [fields |]; cbv beta iota;
    (destruct (captureSource _ _ _) as [src | |] eqn:Hsrc;
     [| exfalso; destruct (captureSource_total content
          (startOffsetOf a (Some {| ast.ListHead := c; ast.ListTail := [] |}) fpos)
          (token.Offset (FileSet a fend))) as [src' Hsrc'];
        unfold startOffsetOf in Hsrc'; rewrite Hsrc' in Hsrc; discriminate ..];
     simpl;
     lazymatch goal with
     | |- context [appendNode ?n (registerID _ a)] => exists n
     end;
     (split; [reflexivity |]); split; [reflexivity | exact Ht]).
Qed.

(** A function under the comment [//go:noinline]. *)
Lemma directive_doc_empty_witness :
  ast.isDirective "go:noinline" = true
  /\ exists node,
      visitFuncDecl (E := Examples.initEnv)
        (Some (World.lineComment 15 "//go:noinline")) None (World.ident 2 34 "init")
        (Some []) 29 43 "/r/main.go" Examples.initSrc
        (Examples.analyzerAt Examples.initEnv)
      = Ok (appendNode node (registerID (models.ID node)
                                        (Examples.analyzerAt Examples.initEnv)))
      /\ models.HasDocstring node = true
      /\ models.Docstring node = "".
Proof.
  split; [reflexivity |].
  apply (directive_doc_empty (E := Examples.initEnv)
           (Examples.analyzerAt Examples.initEnv)
           {| ast.Slash := 15; ast.Text := "//go:noinline" |} "go:noinline");
    reflexivity.
Defined.

End Documentation.

(* ===================================================================== *)
(** * Calls that are dropped, and calls that are not calls *)
(* ===================================================================== *)

Module CallEdges.

Import GoString Props analyzer World StringFacts LoopFacts CollectorFacts
       ResolverFacts RunFacts Claims.

(** [n] is a function declaration with a body. *)
Definition hasBody (n : ast.Node) : bool :=
  match n with
  | ast.FuncDecl _ _ _ _ _ _ (Some _) _ _ => true
  | _ => false
  end.

(** The callee of a call has one of the two forms the heuristic path
    names: an identifier, or a selector on an identifier. *)
Definition plainCallee (callFun : ast.Node) : bool :=
  match callFun with
  | ast.EIdent _ => true
  | ast.SelectorExpr _ (ast.EIdent _) _ => true
  | _ => false
  end.

(** ** A file of declarations: a type, a variable initialised by a call and
    a function without a body *)

Definition declsSrc : string :=
"package main

type T struct{}

var x = f()

func f() int
".

Definition declsFile : ast.File :=
{| ast.Package := 1;
   ast.FileName := ident 1 9 "main";
   ast.Decls :=
     [ ast.GenDecl None token.TYPE
         [ ast.TypeSpec None (ident 2 20 "T") [] (ast.StructType []) 30 ];
       ast.GenDecl None token.VAR
         [ ast.OtherNode [ ast.EIdent (ident 3 36 "x");
                           ast.CallExpr 40 (ast.EIdent (ident 4 40 "f")) [] ] ];
       ast.FuncDecl None None (ident 5 50 "f") [] (Some [])
                    [ ast.mkField [] (ast.EIdent (ident 6 54 "int")) ]
                    None 45 57 ] |}.

Definition declsFiles : gmap string fileInfo :=
{[ "/r/decls.go" :=
     {| file := declsFile; info := None; pkg := None; content := declsSrc |} ]}.

Definition declsEnv : Env :=
env [ {| Base := 1; Path := "/r/decls.go"; Src := declsSrc |} ]
    [ {| packages.Syntax := [declsFile]; packages.TypesInfo := None;
         packages.Types := None |} ].

(** ** A conversion to a struct type, loaded with type facts *)

Definition convSrc : string :=
"package main

type T struct{}

func F(x T) T {
	return T(x)
}
".

(** The conversion [T(x)]. *)
Definition convCall : ast.Node :=
ast.CallExpr 56 (ast.EIdent (ident 7 56 "T")) [ ast.EIdent (ident 8 58 "x") ].

Definition convFile : ast.File :=
{| ast.Package := 1;
   ast.FileName := ident 1 9 "main";
   ast.Decls :=
     [ ast.GenDecl None token.TYPE
         [ ast.TypeSpec None (ident 2 20 "T") [] (ast.StructType []) 30 ];
       ast.FuncDecl None None (ident 3 37 "F") []
                    (Some [ ast.mkField [ident 4 39 "x"] (ast.EIdent (ident 5 41 "T")) ])
                    [ ast.mkField [] (ast.EIdent (ident 6 44 "T")) ]
                    (Some (block [ ast.OtherNode [ convCall ] ]))
                    32 62 ] |}.

Definition mainPkg : types.Package :=
{| types.PackagePtr := 1; types.PackageName := "main" |}.

(** The type facts: every [T] is used as a type name, [x] as a variable. *)
Definition convInfo : types.Info :=
{| types.Uses :=
     {[ 5 := types.OtherObj; 6 := types.OtherObj; 7 := types.OtherObj;
        8 := types.OtherObj ]};
   types.Selections := ∅ |}.

Definition convFileInfo : fileInfo :=
{| file := convFile; info := Some convInfo; pkg := Some mainPkg; content := convSrc |}.

Definition convFiles : gmap string fileInfo := {[ "/r/conv.go" := convFileInfo ]}.

Definition convEnv : Env :=
env [ {| Base := 1; Path := "/r/conv.go"; Src := convSrc |} ]
    [ {| packages.Syntax := [convFile]; packages.TypesInfo := Some convInfo;
         packages.Types := Some mainPkg |} ].

(** ** Calls outside function bodies *)

Lemma collectCalls_noBody {E : Env} fp info (a : GoAnalyzer) :
  (forall n, In n (ast.InspectFile (file info)) -> hasBody n = false) ->
  collectCalls fp info a = a.
Proof.
  unfold collectCalls. generalize (ast.InspectFile (file info)).
  intros l. revert a. induction l as [|n l IH]; intros a Hl; [reflexivity |].
  simpl. assert (Hn : collectCall fp info a n = a).
  { specialize (Hl n (or_introl eq_refl)).
    destruct n; try reflexivity. destruct Body; [discriminate | reflexivity]. }
  rewrite Hn. apply IH. intros m Hm. apply Hl. now right.
Qed.

(** Only the bodies of function declarations are searched for calls: in a
    run from a fresh analyzer over files in which no function declaration has
    a body, the output has no relationship, whatever calls the files hold (in
    the initialisers of package-level variables, say). *)
Theorem no_bodies_no_relationships {E : Env} (repoPath : string)
    (a0 a : GoAnalyzer) (fileInfos : gmap string fileInfo) :
  NewGoAnalyzer repoPath = Ok a0 ->
  gatherFiles a0 = Ok fileInfos ->
  Analyze a0 = Ok a ->
  (forall fp info n,
     fileInfos !! fp = Some info ->
     In n (ast.InspectFile (file info)) -> hasBody n = false) ->
  Relationships a = [].
Proof.
  intros Hnew Hg HA Hnb.
  destruct (run_shape repoPath a0 fileInfos Hnew Hg) as (a1 & H1 & HA' & Hfresh & _).
  rewrite HA in HA'. injection HA' as ->.
  destruct (firstPass_fresh _ _ _ Hfresh H1) as (_ & Hr1 & _).
  assert (Hs : forall l s,
            (forall fp info, In (fp, info) l -> fileInfos !! fp = Some info) ->
            secondPass l s = s).
  { induction l as [|[fp info] l IH]; intros s Hl; [reflexivity |].
    unfold secondPass in *. simpl. rewrite collectCalls_noBody.
    - apply IH. intros fp' info' Hin. apply Hl. now right.
    - intros n Hn. apply (Hnb fp info); [| exact Hn]. apply Hl. now left. }
  rewrite Hs; [exact Hr1 |].
  intros fp info Hin. now apply mapRange_In in Hin.
Qed.

(** The file of declarations: the call [f()] that initialises [x] leaves no
    relationship. *)
Lemma no_bodies_no_relationships_witness :
  NewGoAnalyzer (E := declsEnv) "/r" = Ok (Examples.analyzerAt declsEnv)
  /\ gatherFiles (E := declsEnv) (Examples.analyzerAt declsEnv) = Ok declsFiles
  /\ In (ast.CallExpr 40 (ast.EIdent (ident 4 40 "f")) []) (ast.InspectFile declsFile)
  /\ exists a,
      Analyze (E := declsEnv) (Examples.analyzerAt declsEnv) = Ok a
      /\ Relationships a = [].
Proof.
  split; [reflexivity |]. split; [vm_compute; reflexivity |].
  split; [vm_compute; tauto |].
  eexists. split; [vm_compute; reflexivity |].
  apply (no_bodies_no_relationships (E := declsEnv) "/r" (Examples.analyzerAt declsEnv)
           _ declsFiles);
    [reflexivity | vm_compute; reflexivity | vm_compute; reflexivity |].
  intros fp info n Hfp.
  destruct (decide (fp = "/r/decls.go")) as [-> | Hne].
  - unfold declsFiles in Hfp. rewrite lookup_singleton_eq in Hfp. injection Hfp as <-.
    simpl. intros Hn.
    repeat (destruct Hn as [<- | Hn]; [reflexivity |]). destruct Hn.
  - unfold declsFiles in Hfp. rewrite lookup_singleton_ne in Hfp by congruence.
    discriminate.
Defined.

(** ** Calls the heuristic path cannot name *)

(** On the heuristic path a call leaves a relationship exactly when its callee
    is an identifier or a selector on an identifier: one relationship then,
    none for any other callee (a selector on a selector or on a call, a
    function literal, an indexed or parenthesised expression). *)
Theorem heuristic_call_forms {E : Env} (a : GoAnalyzer)
    callerID recvName recvType callPos callFun typeInfo typePkg fp :
  heuristicPath a callFun typeInfo typePkg ->
  if plainCallee callFun
  then exists callee,
      String.eqb callee "" = false
      /\ processCall callerID recvName recvType callPos callFun typeInfo typePkg fp a
         = appendRel (mkRel a callerID callee callPos
                            (lookupID (CollectedNodeIDs a) callee)) a
  else processCall callerID recvName recvType callPos callFun typeInfo typePkg fp a = a.
Proof.
  intros Hh. rewrite processCall_heuristic_eq by exact Hh. cbv zeta.
  set (c := heuristicCallee a recvName recvType callFun fp).
  assert (Hc : plainCallee callFun = true -> String.eqb c "" = false).
  { subst c. destruct callFun as [f | |p x sel | | | | | | | | |]; try discriminate.
    - intros _. simpl. destruct (isBuiltin (ast.Name f)) eqn:Hb; simpl.
      + now apply isBuiltin_plain in Hb.
      + apply getComponentIDForFile_nonempty.
    - destruct x as [xi | | | | | | | | | | |]; try discriminate.
      intros _. simpl.
      destruct (negb (String.eqb recvName "") && negb (String.eqb recvType "")
                && String.eqb (ast.Name xi) recvName).
      + apply getComponentIDForFile_nonempty.
      + apply hasDot_nonempty. rewrite hasDot_app. apply orb_true_iff. now right. }
  destruct (plainCallee callFun) eqn:Hp.
  - exists c. split; [now apply Hc |]. now rewrite Hc.
  - subst c. destruct callFun as [f | |p x sel | | | | | | | | |];
      try discriminate; try reflexivity.
    destruct x; try discriminate; reflexivity.
Qed.

(** Without type facts: the call [a.b.c()], whose callee is a selector on a
    selector, and the call [f()]. *)
Lemma heuristic_call_forms_witness :
  processCall (E := Examples.callsEnv) "m.F" "" "" 10
    (ast.SelectorExpr 1
       (ast.SelectorExpr 2 (ast.EIdent (ident 3 10 "a")) (ident 4 12 "b"))
       (ident 5 14 "c"))
    None None "/r/m.go" (Examples.analyzerAt Examples.callsEnv)
  = Examples.analyzerAt Examples.callsEnv
  /\ exists callee,
      String.eqb callee "" = false
      /\ processCall (E := Examples.callsEnv) "m.F" "" "" 10
           (ast.EIdent (ident 3 10 "f")) None None "/r/m.go"
           (Examples.analyzerAt Examples.callsEnv)
         = appendRel (mkRel (Examples.analyzerAt Examples.callsEnv) "m.F" callee 10
                        (lookupID (CollectedNodeIDs (Examples.analyzerAt Examples.callsEnv))
                                  callee))
                     (Examples.analyzerAt Examples.callsEnv).
Proof.
  split.
  - exact (heuristic_call_forms (E := Examples.callsEnv)
             (Examples.analyzerAt Examples.callsEnv) "m.F" "" "" 10
             (ast.SelectorExpr 1
                (ast.SelectorExpr 2 (ast.EIdent (ident 3 10 "a")) (ident 4 12 "b"))
                (ident 5 14 "c"))
             None None "/r/m.go" I).
  - exact (heuristic_call_forms (E := Examples.callsEnv)
             (Examples.analyzerAt Examples.callsEnv) "m.F" "" "" 10
             (ast.EIdent (ident 3 10 "f")) None None "/r/m.go" I).
Defined.

(** ** Conversions *)

(** With type facts, a call whose callee is an identifier that the facts do
    not give as a function or a builtin - the name of a type in a conversion,
    a variable that holds a function - is left to the heuristic path.  So in a
    run from a fresh analyzer a conversion [T(x)], in the body of a function
    declared in a gathered file that also declares [T] (as a struct or an
    interface, say), gives a relationship from the function to the identifier
    of [T], with [IsResolved] true. *)
Theorem conversion_recorded_as_call {E : Env} (repoPath : string)
    (a0 a : GoAnalyzer) (fileInfos : gmap string fileInfo)
    (fp : string) (info : fileInfo) (ti : types.Info) (tp : types.Package)
    gdoc grecv gname gtps gparams gresults gbody gpos gend
    callPos (t : ast.Ident) args (n2 : ast.Node) :
  NewGoAnalyzer repoPath = Ok a0 ->
  gatherFiles a0 = Ok fileInfos ->
  Analyze a0 = Ok a ->
  fileInfos !! fp = Some info ->
  analyzer.info info = Some ti -> pkg info = Some tp ->
  In (ast.FuncDecl gdoc grecv gname gtps gparams gresults (Some gbody) gpos gend)
     (ast.Decls (file info)) ->
  In (ast.CallExpr callPos (ast.EIdent t) args) (ast.Inspect gbody) ->
  types.Uses ti !! ast.IdentPtr t = Some types.OtherObj ->
  isBuiltin (ast.Name t) = false ->
  In n2 (ast.InspectFile (file info)) ->
  declares n2 (ast.Name t) "" ->
  In (mkRel a (getComponentIDForFile a fp (ast.Name gname) (classOf grecv))
            (getComponentIDForFile a fp (ast.Name t) "") callPos true)
     (Relationships a).
Proof.
  intros Hnew Hg HA Hfp Hti Htp Hdecl Hcall Huse Hb Hn2 Hd2.
  destruct (run_shape repoPath a0 fileInfos Hnew Hg)
    as (a1 & H1 & HA' & Hfresh & Hfr & _).
  rewrite HA in HA'. injection HA' as ->.
  assert (Hreg : registered a1 fp (ast.Name t) "").
  { apply (firstPass_declares (mapRange 0 fileInfos) _ info n2 _ _ a0); auto.
    now apply mapRange_In. }
  rewrite (mkRel_frozen a1 _ _ _ _ _ Hfr).
  destruct Hfr as (_ & _ & _ & Habs & _).
  rewrite (getComponentIDForFile_setting a1 _ fp (ast.Name gname)),
          (getComponentIDForFile_setting a1 _ fp (ast.Name t)) by exact Habs.
  apply (secondPass_emits a1 (mapRange 1 fileInfos) fp info gdoc grecv gname
           gtps gparams gresults gbody gpos gend callPos (ast.EIdent t) args);
    [now apply mapRange_In | exact Hdecl | exact Hcall |].
  intros s Hs. unfold callerOf.
  rewrite processCall_heuristic_eq
    by (rewrite Hti, Htp; unfold heuristicPath, resolveCallWithTypes;
        now rewrite Huse).
  cbv zeta. simpl heuristicCallee. rewrite Hb. simpl negb. cbv iota.
  pose proof Hs as (Hi & _ & _ & Habs' & _).
  rewrite (getComponentIDForFile_setting a1 s) by exact Habs'.
  rewrite getComponentIDForFile_nonempty, Hi.
  destruct Hreg as (-> & _).
  rewrite (mkRel_frozen a1 s) by exact Hs.
  simpl. apply in_or_app. right. now left.
Qed.

(** The conversion [T(x)] in the function [F]. *)
Lemma conversion_recorded_as_call_witness :
  NewGoAnalyzer (E := convEnv) "/r" = Ok (Examples.analyzerAt convEnv)
  /\ gatherFiles (E := convEnv) (Examples.analyzerAt convEnv) = Ok convFiles
  /\ exists a,
      Analyze (E := convEnv) (Examples.analyzerAt convEnv) = Ok a
      /\ In (mkRel a "conv.F" "conv.T" 56 true) (Relationships a).
Proof.
  split; [reflexivity |]. split; [vm_compute; reflexivity |].
  eexists. split; [vm_compute; reflexivity |].
  lazymatch goal with
  | |- In _ (Relationships ?a) =>
      pose proof (conversion_recorded_as_call (E := convEnv) "/r"
                    (Examples.analyzerAt convEnv) a convFiles
                    "/r/conv.go" convFileInfo convInfo mainPkg
                    None None (ident 3 37 "F") []
                    (Some [ ast.mkField [ident 4 39 "x"] (ast.EIdent (ident 5 41 "T")) ])
                    [ ast.mkField [] (ast.EIdent (ident 6 44 "T")) ]
                    (block [ ast.OtherNode [ convCall ] ]) 32 62
                    56 (ident 7 56 "T") [ ast.EIdent (ident 8 58 "x") ]
                    (ast.GenDecl None token.TYPE
                       [ ast.TypeSpec None (ident 2 20 "T") [] (ast.StructType []) 30 ]))
        as H
  end.
  assert (H' := H eq_refl). clear H. revert H'. vm_compute. intros H.
  apply H; clear H.
  - reflexivity.
  - reflexivity.
  - reflexivity.
  - reflexivity.
  - reflexivity.
  - right. now left.
  - tauto.
  - reflexivity.
  - reflexivity.
  - tauto.
  - apply (declares_struct None
             [ ast.TypeSpec None (ident 2 20 "T") [] (ast.StructType []) 30 ]
             None (ident 2 20 "T") [] [] 30). now left.
Defined.

End CallEdges.

(* ===================================================================== *)
(** * Paths and names at their edges *)
(* ===================================================================== *)

Module PathEdges.

Import GoString Props analyzer World StringFacts LoopFacts CollectorFacts
       ResolverFacts RunFacts Claims.

(** [strings.Join(elems, sep)] *)
Fixpoint Join (elems : list string) (sep : string) : string :=
  match elems with
  | [] => ""
  | [e] => e
  | e :: rest => e +:+ sep +:+ Join rest sep
  end.

(** [filepath.Clean] on an absolute path without [.] and [..] elements and
    without a separator at its end: a run of separators becomes one. *)
Fixpoint squeeze (s : string) : string :=
  match s with
  | EmptyString => EmptyString
  | String c r =>
      match r with
      | String d _ =>
          if (byteZ c =? PathSeparator) && (byteZ d =? PathSeparator)
          then squeeze r
          else String c (squeeze r)
      | EmptyString => s
      end
  end.

(** A machine like that of [World.env], with the repository at the root
    directory. *)
Definition rootDisk : list SourceFile :=
[ {| Base := 1; Path := "/main.go"; Src := Examples.ogonekSrc |} ].

Definition rootEnv : Env :=
{| filepath_Abs := fun p => Some p;
   filepath_Rel := fun base target =>
     if HasPrefix target "/" then Some (slice target 1 (len target)) else None;
   filepath_Clean := squeeze;
   os_ReadFile := readFile rootDisk;
   types_TypeString := typeString;
   moduleRoots := fun root => Ok [root];
   packages_Load := fun _ =>
     Ok [ {| packages.Syntax := [Examples.ogonekFile]; packages.TypesInfo := None;
             packages.Types := None |} ];
   loadedFileSet := position rootDisk;
   mapRange := fun V _ m => map_to_list m;
   mapRange_perm := fun V _ m => reflexivity _ |}.

Definition rootAnalyzer : GoAnalyzer :=
{| RepoPath := "/"; RepoAbs := "/"; FileSet := position rootDisk;
   Nodes := []; Relationships := []; CollectedNodeIDs := ∅ |}.

(** ** Strings *)

Lemma list_ascii_app (s t : string) :
  list_ascii_of_string (s +:+ t) = list_ascii_of_string s ++ list_ascii_of_string t.
Proof.
  induction s as [|c s IH]; [reflexivity |].
  rewrite sapp_cons. simpl. now rewrite IH.
Qed.

Lemma Ext_go (x : string) : Ext (x +:+ ".go") = ".go".
Proof.
  unfold Ext. rewrite list_ascii_app, rev_app_distr. reflexivity.
Qed.

Lemma substring_app_l (x y : string) :
  String.substring 0 (String.length x) (x +:+ y) = x.
Proof.
  induction x as [|c x IH]; [now destruct y |].
  rewrite sapp_cons. simpl. now rewrite IH.
Qed.

(** The path without its extension [.go]. *)
Lemma stem_go (x : string) :
  slice (x +:+ ".go") 0 (len (x +:+ ".go") - len (Ext (x +:+ ".go"))) = x.
Proof.
  rewrite Ext_go, len_app. unfold slice.
  replace (len x + len ".go" - len ".go" - 0) with (len x) by lia.
  unfold len. rewrite Nat2Z.id. apply substring_app_l.
Qed.

Lemma dotted_app (s t : string) : dotted (s +:+ t) = dotted s +:+ dotted t.
Proof.
  induction s as [|c s IH]; [reflexivity |].
  rewrite sapp_cons. simpl. now rewrite IH.
Qed.

Lemma isASCII_app (s t : string) : isASCII (s +:+ t) = isASCII s && isASCII t.
Proof.
  induction s as [|c s IH]; [reflexivity |].
  rewrite sapp_cons. simpl. rewrite IH. now rewrite andb_assoc.
Qed.

(** ** Identifiers of different files *)

(** The identifier scheme writes the separators of the path as dots, and so
    cannot tell a directory from a dot in a file name: a declaration in
    [dir/base.go] and one of the same name (and enclosing type) in
    [dir.base.go] get the same identifier. *)
Theorem ids_collide_across_files {E : Env} (a : GoAnalyzer)
    (fp1 fp2 dir base name recv : string) :
  relOrEmpty (RepoAbs a) fp1 = dir +:+ "/" +:+ base +:+ ".go" ->
  relOrEmpty (RepoAbs a) fp2 = dir +:+ "." +:+ base +:+ ".go" ->
  isASCII dir = true -> isASCII base = true ->
  getComponentIDForFile a fp1 name recv = getComponentIDForFile a fp2 name recv.
Proof.
  intros H1 H2 Hd Hb.
  rewrite !getComponentIDForFile_ascii
    by (rewrite ?H1, ?H2, !isASCII_app, Hd, Hb; reflexivity).
  unfold schemeID. rewrite H1, H2.
  rewrite <- !(sapp_assoc _ base ".go"), <- !(sapp_assoc dir _ ".go").
  rewrite !stem_go, !dotted_app. reflexivity.
Qed.

(** The function [F] of [/r/a/b.go] and the function [F] of [/r/a.b.go]. *)
Lemma ids_collide_across_files_witness :
  String.eqb "/r/a/b.go" "/r/a.b.go" = false
  /\ getComponentIDForFile (E := Examples.callsEnv)
       (Examples.analyzerAt Examples.callsEnv) "/r/a/b.go" "F" ""
     = getComponentIDForFile (E := Examples.callsEnv)
         (Examples.analyzerAt Examples.callsEnv) "/r/a.b.go" "F" "".
Proof.
  split; [reflexivity |].
  apply (ids_collide_across_files (E := Examples.callsEnv)
           (Examples.analyzerAt Examples.callsEnv) "/r/a/b.go" "/r/a.b.go" "a" "b");
    reflexivity.
Defined.

(** ** A repository at the root directory *)

Lemma squeeze_head (c : ascii) (r : string) :
  (byteZ c =? PathSeparator) = false ->
  exists r', squeeze (String c r) = String c r'.
Proof.
  intros Hc. simpl. destruct r as [|d r]; [eauto |].
  rewrite Hc. simpl. eauto.
Qed.

Lemma squeeze_no_run_eq (p r : string) : squeeze p <> "//" +:+ r.
Proof.
  change ("//" +:+ r) with (String "/" (String "/" r)).
  induction p as [|c p IH]; [discriminate |].
  destruct p as [|d p]; [discriminate |].
  change (squeeze (String c (String d p)))
    with (if (byteZ c =? PathSeparator) && (byteZ d =? PathSeparator)
          then squeeze (String d p) else String c (squeeze (String d p))).
  destruct (byteZ c =? PathSeparator) eqn:Hc; simpl andb.
  - destruct (byteZ d =? PathSeparator) eqn:Hd; [exact IH |].
    destruct (squeeze_head d p Hd) as (r' & ->).
    intros H. injection H as _ -> _. discriminate.
  - intros H. injection H as -> _. discriminate.
Qed.

Lemma squeeze_no_run (p : string) : HasPrefix (squeeze p) "//" = false.
Proof.
  unfold HasPrefix. destruct (String.prefix "//" (squeeze p)) eqn:Hp; [| reflexivity].
  exfalso. apply String.prefix_correct in Hp.
  destruct (squeeze p) as [|x [|y r]] eqn:Hs; try discriminate.
  simpl in Hp. injection Hp as -> ->.
  now apply (squeeze_no_run_eq p r).
Qed.

(** [isPathInRepo] asks for the root followed by a separator at the start of
    the path.  For the root directory that is two separators, which no clean
    path starts with: with the repository at the root directory no file is in
    the repository, nothing is gathered, and [Analyze] leaves the analyzer as
    it is. *)
Theorem root_repository_gathers_nothing {E : Env} (a : GoAnalyzer)
    (fileInfos : gmap string fileInfo) :
  filepath_Clean (RepoAbs a) = "/" ->
  (forall p, HasPrefix (filepath_Clean p) "//" = false) ->
  (forall p content, filepath_Clean p = "/" -> os_ReadFile p <> Ok content) ->
  gatherFiles a = Ok fileInfos ->
  fileInfos = ∅ /\ Analyze a = Ok a.
Proof.
  intros Hroot Hclean Hread Hg.
  assert (He : fileInfos = ∅).
  { apply map_empty. intros fp.
    destruct (fileInfos !! fp) as [info |] eqn:Hfp; [exfalso | reflexivity].
    destruct (gatherFiles_gathered _ _ Hg _ _ Hfp) as (_ & _ & _ & Hin & Hr).
    unfold isPathInRepo in Hin. cbv zeta in Hin. rewrite Hroot in Hin.
    destruct (String.eqb "/" (filepath_Clean fp)) eqn:Heq.
    - apply String.eqb_eq in Heq. now apply (Hread fp (content info)).
    - change ("/" +:+ str1 PathSeparator) with "//" in Hin.
      rewrite Hclean in Hin. discriminate. }
  split; [exact He |]. subst fileInfos.
  unfold Analyze. rewrite Hg. simpl.
  assert (Hnil : forall i, mapRange i (∅ : gmap string fileInfo) = []).
  { intros i. apply Permutation_nil. symmetry.
    rewrite (mapRange_perm fileInfo i ∅). now rewrite map_to_list_empty. }
  now rewrite !Hnil.
Qed.

(** The repository [/] with the file [/main.go]. *)
Lemma root_repository_gathers_nothing_witness :
  os_ReadFile (Env := rootEnv) "/main.go" = Ok Examples.ogonekSrc
  /\ isPathInRepo (E := rootEnv) "/" "/main.go" = false
  /\ gatherFiles (E := rootEnv) rootAnalyzer = Ok ∅
  /\ Analyze (E := rootEnv) rootAnalyzer = Ok rootAnalyzer.
Proof.
  split; [reflexivity |]. split; [reflexivity |].
  assert (Hg : gatherFiles (E := rootEnv) rootAnalyzer = Ok ∅)
    by (vm_compute; reflexivity).
  split; [exact Hg |].
  apply (root_repository_gathers_nothing (E := rootEnv) rootAnalyzer ∅).
  - reflexivity.
  - apply squeeze_no_run.
  - intros p content Hp Hr.
    change (os_ReadFile p)
      with (if String.eqb "/main.go" p then Ok Examples.ogonekSrc
            else Failed "no such file") in Hr.
    destruct (String.eqb "/main.go" p) eqn:Heq; [| discriminate].
    apply String.eqb_eq in Heq. subst p. vm_compute in Hp. discriminate.
  - exact Hg.
Defined.

(** ** The text of a receiver type *)

(** For a type with a list of type arguments, [typeToString] gives the text
    of the type, then the texts of the arguments joined by a comma and a
    space, in square brackets. *)
Theorem typeToString_index_list (x : ast.Node) (indices : list ast.Node) :
  typeToString (ast.IndexListExpr x indices)
  = typeToString x +:+ "[" +:+ Join (map typeToString indices) ", " +:+ "]".
Proof.
  assert (Hrest : forall l,
    (fix loop (first : bool) (l : list ast.Node) : string :=
       match l with
       | [] => ""
       | idx :: rest =>
           (if first then "" else ", ") +:+ typeToString idx +:+ loop false rest
       end) false l
    = fold_right (fun e acc => ", " +:+ typeToString e +:+ acc) "" l).
  { induction l as [|e l IH]; [reflexivity |]. simpl fold_right. now rewrite <- IH. }
  assert (Hjoin : forall e l,
    typeToString e
    +:+ fold_right (fun e acc => ", " +:+ typeToString e +:+ acc) "" l
    = Join (map typeToString (e :: l)) ", ").
  { intros e l. revert e. induction l as [|e2 l IH]; intros e.
    - simpl. apply sapp_nil_r.
    - simpl fold_right.
      change (Join (map typeToString (e :: e2 :: l)) ", ")
        with (typeToString e +:+ ", " +:+ Join (map typeToString (e2 :: l)) ", ").
      now rewrite <- IH. }
  simpl typeToString. do 2 f_equal.
  destruct indices as [|e l]; [reflexivity |].
  rewrite Hrest, sapp_nil_l. f_equal. apply Hjoin.
Qed.

End PathEdges.

(* ===================================================================== *)
(** * The analyzer of one file, as a whole *)
(* ===================================================================== *)

(** The rest of the earlier analyzer (analyzer/analyzer.go): the visit of a
    function declaration, the search of a function body for calls, and
    [Analyze], which parses the file of the analyzer and makes the two passes
    over it. *)
Module OneFile.

Import GoString analyzer1.

Section WithEnv.

Context {E : Env}.

(** [NewGoAnalyzer(filePath, repoPath)] *)
Definition NewGoAnalyzer (filePath repoPath : string) : result GoAnalyzer :=
  content ← os_ReadFile filePath;
  Ok {| FilePath := filePath; Content := content; RepoPath := repoPath;
        FileSet := loadedFileSet; Nodes := []; Relationships := [];
        PackageName := ""; CollectedNodeIDs := ∅ |}.

(** [fn] is given by its fields [Doc], [Recv], [Name], [Type.Params] and
    its [Pos()] and [End()]. *)
Definition visitFuncDecl (fnDoc : option ast.CommentGroup)
    (fnRecv : option (list ast.Field)) (fnName : ast.Ident)
    (fnParams : option (list ast.Field)) (fnPos fnEnd : token.Pos)
    (a : GoAnalyzer) : result GoAnalyzer :=
  let relativePath := analyzer.relOrEmpty (RepoPath a) (FilePath a) in
  let startPos := FileSet a fnPos in
  let endPos := FileSet a fnEnd in
  let '(componentID, className, displayName) :=
    match fnRecv with
    | Some fields =>
        let recvType := analyzer.recvTypeOf fields in
        (getComponentID a (ast.Name fnName) recvType,
         recvType,
         "method " +:+ recvType +:+ "." +:+ ast.Name fnName)
    | None =>
        (getComponentID a (ast.Name fnName) "",
         "",
         "func " +:+ ast.Name fnName)
    end in
  let componentType :=
    match fnRecv with Some _ => "method" | None => "function" end in
  let nodeType :=
    match fnRecv with Some _ => "method" | None => "function" end in
  let startOffset :=
    match fnDoc with
    | Some d => token.Offset (FileSet a (ast.CommentGroup_Pos d))
    | None => token.Offset startPos
    end in
  let endOffset := token.Offset endPos in
  sourceCode ← analyzer.captureSource (Content a) startOffset endOffset;
  let params :=
    match fnParams with
    | Some l => flat_map (fun p => map ast.Name (ast.Names p)) l
    | None => []
    end in
  let node :=
    {| models.ID := componentID;
       models.Name := ast.Name fnName;
       models.ComponentType := componentType;
       models.FilePath := FilePath a;
       models.RelativePath := relativePath;
       models.DependsOn := [];
       models.SourceCode := sourceCode;
       models.StartLine := token.Line startPos;
       models.EndLine := token.Line endPos;
       models.HasDocstring :=
         match fnDoc with Some _ => true | None => false end;
       models.Docstring := ast.Doc_Text fnDoc;
       models.Parameters := params;
       models.NodeType := nodeType;
       models.BaseClasses := [];
       models.ClassName := className;
       models.DisplayName := displayName;
       models.ComponentID := componentID |} in
  Ok (appendNode node (registerID componentID a)).

(** The callback of the inner [ast.Inspect] of [visitFuncBodyForCalls]. *)
Definition visitCall (callerID : string) (a : GoAnalyzer) (n : ast.Node)
  : GoAnalyzer :=
  match n with
  | ast.CallExpr callPos callFun _ => processCall callerID callPos callFun a
  | _ => a
  end.

(** [fn] is given by its fields [Recv], [Name] and [Body]. *)
Definition visitFuncBodyForCalls (fnRecv : option (list ast.Field))
    (fnName : ast.Ident) (fnBody : option ast.Node) (a : GoAnalyzer)
  : GoAnalyzer :=
  match fnBody with
  | None => a
  | Some body =>
      let callerID :=
        match fnRecv with
        | Some fields =>
            getComponentID a (ast.Name fnName) (analyzer.recvTypeOf fields)
        | None => getComponentID a (ast.Name fnName) ""
        end in
      fold_left (visitCall callerID) (ast.Inspect body) a
  end.

(** The callback of the first [ast.Inspect] of [Analyze]. *)
Definition collectNode (n : ast.Node) (a : GoAnalyzer) : result GoAnalyzer :=
  match n with
  | ast.GenDecl doc tok specs =>
      match tok with
      | token.TYPE =>
          forM (fun spec a =>
                  match spec with
                  | ast.TypeSpec tsDoc tsName _ tsType tsEnd =>
                      visitTypeSpec tsDoc tsName tsType tsEnd doc a
                  | _ => Ok a
                  end) specs a
      | _ => Ok a
      end
  | ast.FuncDecl doc recv name _ params _ _ fpos fend =>
      visitFuncDecl doc recv name params fpos fend a
  | _ => Ok a
  end.

(** The callback of the second. *)
Definition collectCall (a : GoAnalyzer) (n : ast.Node) : GoAnalyzer :=
  match n with
  | ast.FuncDecl _ recv name _ _ _ body _ _ =>
      visitFuncBodyForCalls recv name body a
  | _ => a
  end.

(** [a.PackageName = f.Name.Name] *)
Definition setPackageName (name : string) (a : GoAnalyzer) : GoAnalyzer :=
  {| FilePath := FilePath a; Content := Content a; RepoPath := RepoPath a;
     FileSet := FileSet a; Nodes := Nodes a; Relationships := Relationships a;
     PackageName := name; CollectedNodeIDs := CollectedNodeIDs a |}.

(** [Analyze], given what [parser.ParseFile] returns for the file of the
    analyzer: the analyzer it leaves behind, or the error it returns. *)
Definition Analyze (parsed : result ast.File) (a : GoAnalyzer)
  : result GoAnalyzer :=
  f ← parsed;
  let a := setPackageName (ast.Name (ast.FileName f)) a in
  a ← forM collectNode (ast.InspectFile f) a;
  Ok (fold_left collectCall (ast.InspectFile f) a).

End WithEnv.

(** A result of the analyzer of one file, seen as one of the analyzer of a
    repository. *)
Definition liftRepo (r : result GoAnalyzer) : result analyzer.GoAnalyzer :=
  match r with
  | Ok b => Ok (asRepo b)
  | Failed e => Failed e
  | Panic => Panic
  end.

(** The file as the analyzer of a repository holds it: without type
    facts. *)
Definition asInfo (f : ast.File) (a : GoAnalyzer) : analyzer.fileInfo :=
  {| analyzer.file := f; analyzer.info := None; analyzer.pkg := None;
     analyzer.content := Content a |}.

(** No method of [f] calls through its own receiver: in the body of a
    method with a named receiver of a type with a text, no call has a
    selector on the receiver name as callee. *)
Definition receiverCallFree (f : ast.File) : Prop :=
  forall doc fields name tps params results body fpos fend callPos p x sel args,
    In (ast.FuncDecl doc (Some fields) name tps params results (Some body) fpos fend)
       (ast.InspectFile f) ->
    In (ast.CallExpr callPos (ast.SelectorExpr p (ast.EIdent x) sel) args)
       (ast.Inspect body) ->
    fst (analyzer.recvOf fields) = ""
    \/ analyzer.recvTypeOf fields = ""
    \/ ast.Name x <> fst (analyzer.recvOf fields).

End OneFile.

(* ===================================================================== *)
(** * The two analyzers compared *)
(* ===================================================================== *)

Module OneFileAgreement.

Import GoString Props analyzer1 OneFile LoopFacts.

(** [b] is a state of the passes of the analyzer of one file that started
    from [a]: it is for the same file, with the same content. *)
Definition sameFile (a b : GoAnalyzer) : Prop :=
  FilePath b = FilePath a /\ Content b = Content a.

Section WithEnv.

Context {E : Env}.

Lemma getComponentID_same (a : GoAnalyzer) name recv :
  getComponentID a name recv
  = analyzer.getComponentIDForFile (asRepo a) (FilePath a) name recv.
Proof. reflexivity. Qed.

Lemma visitFuncDecl_same doc recv name params fpos fend (a : GoAnalyzer) :
  liftRepo (visitFuncDecl doc recv name params fpos fend a)
  = analyzer.visitFuncDecl doc recv name params fpos fend
                           (FilePath a) (Content a) (asRepo a).
Proof.
  unfold visitFuncDecl, analyzer.visitFuncDecl. cbv zeta.
  destruct recv as [fields |]; cbv beta iota;
    rewrite <- getComponentID_same;
    change (analyzer.RepoAbs (asRepo a)) with (RepoPath a);
    change (analyzer.FileSet (asRepo a)) with (FileSet a);
    destruct (analyzer.captureSource _ _ _); reflexivity.
Qed.

Lemma visitFuncDecl_sameFile doc recv name params fpos fend (a b : GoAnalyzer) :
  visitFuncDecl doc recv name params fpos fend a = Ok b -> sameFile a b.
Proof.
  unfold visitFuncDecl. cbv zeta.
  destruct recv as [fields |]; cbv beta iota;
    destruct (analyzer.captureSource _ _ _); simpl; intros H;
      try discriminate; injection H as <-; now split.
Qed.

Lemma visitTypeSpec_lift tsDoc tsName tsType tsEnd genDeclDoc (a : GoAnalyzer) :
  liftRepo (visitTypeSpec tsDoc tsName tsType tsEnd genDeclDoc a)
  = analyzer.visitTypeSpec tsDoc tsName tsType tsEnd genDeclDoc
                           (FilePath a) (Content a) (asRepo a).
Proof.
  unfold visitTypeSpec, analyzer.visitTypeSpec.
  destruct tsType; try reflexivity;
    cbv zeta; rewrite <- getComponentID_same;
    change (analyzer.RepoAbs (asRepo a)) with (RepoPath a);
    change (analyzer.FileSet (asRepo a)) with (FileSet a);
    destruct (analyzer.captureSource _ _ _); reflexivity.
Qed.

Lemma visitTypeSpec_sameFile tsDoc tsName tsType tsEnd genDeclDoc (a b : GoAnalyzer) :
  visitTypeSpec tsDoc tsName tsType tsEnd genDeclDoc a = Ok b -> sameFile a b.
Proof.
  unfold visitTypeSpec.
  destruct tsType; try (intros H; injection H as <-; now split);
    cbv zeta; destruct (analyzer.captureSource _ _ _); simpl; intros H;
      try discriminate; injection H as <-; now split.
Qed.

Lemma sameFile_refl a : sameFile a a.
Proof. now split. Qed.

Lemma sameFile_trans a b c : sameFile a b -> sameFile b c -> sameFile a c.
Proof. intros (H1 & H2) (H3 & H4). split; congruence. Qed.

(** A loop of the first pass of one analyzer does what the same loop of the
    other does. *)
Lemma forM_lift {A : Type} (old : A -> GoAnalyzer -> result GoAnalyzer)
    (new : A -> string -> string -> analyzer.GoAnalyzer -> result analyzer.GoAnalyzer)
    (l : list A) :
  (forall x a, liftRepo (old x a) = new x (FilePath a) (Content a) (asRepo a)) ->
  (forall x a b, old x a = Ok b -> sameFile a b) ->
  forall a,
    liftRepo (forM old l a)
    = forM (fun x => new x (FilePath a) (Content a)) l (asRepo a)
    /\ forall b, forM old l a = Ok b -> sameFile a b.
Proof.
  intros Hl Hs. induction l as [|x l IH]; intros a.
  - split; [reflexivity |]. intros b H. injection H as <-. apply sameFile_refl.
  - simpl forM. specialize (Hl x a). specialize (Hs x a).
    destruct (old x a) as [a1 | e |]; simpl in Hl; rewrite <- Hl; simpl.
    + destruct (Hs a1 eq_refl) as (Hf & Hc). destruct (IH a1) as (IH1 & IH2).
      rewrite Hf, Hc in IH1. split; [exact IH1 |].
      intros b Hb. apply sameFile_trans with a1; [now split | now apply IH2].
    + split; [reflexivity | discriminate].
    + split; [reflexivity | discriminate].
Qed.

Lemma collectNode_lift n (a : GoAnalyzer) :
  liftRepo (collectNode n a)
  = analyzer.collectNode (FilePath a) (Content a) n (asRepo a).
Proof.
  destruct n as [| | | | | | | | |Doc Tok Specs
                |Doc Recv FName TypeParams Params Results Body FPos FEnd |];
    try reflexivity.
  - destruct Tok; try reflexivity. simpl.
    apply (forM_lift
             (fun spec a =>
                match spec with
                | ast.TypeSpec tsDoc tsName _ tsType tsEnd =>
                    visitTypeSpec tsDoc tsName tsType tsEnd Doc a
                | _ => Ok a
                end)
             (fun spec fp content a =>
                match spec with
                | ast.TypeSpec tsDoc tsName _ tsType tsEnd =>
                    analyzer.visitTypeSpec tsDoc tsName tsType tsEnd Doc fp content a
                | _ => Ok a
                end)).
    + intros x b. destruct x; try reflexivity. apply visitTypeSpec_lift.
    + intros x b c. destruct x; try (intros H; injection H as <-; apply sameFile_refl).
      apply visitTypeSpec_sameFile.
  - apply visitFuncDecl_same.
Qed.

Lemma collectNode_sameFile n (a b : GoAnalyzer) :
  collectNode n a = Ok b -> sameFile a b.
Proof.
  destruct n as [| | | | | | | | |Doc Tok Specs
                |Doc Recv FName TypeParams Params Results Body FPos FEnd |];
    try (intros H; injection H as <-; apply sameFile_refl).
  - destruct Tok; try (intros H; injection H as <-; apply sameFile_refl). simpl.
    apply (forM_rel _ sameFile); [apply sameFile_refl | apply sameFile_trans |].
    intros x s s' _. destruct x; try (intros H; injection H as <-; apply sameFile_refl).
    apply visitTypeSpec_sameFile.
  - apply visitFuncDecl_sameFile.
Qed.

(** ** The second pass *)

Lemma processCall_sameFile callerID callPos callFun (a : GoAnalyzer) :
  sameFile a (processCall callerID callPos callFun a).
Proof. unfold processCall. cbv zeta. destruct (negb _); now split. Qed.

(** The call does not go through the receiver [recvName] of a method of
    type [recvType]. *)
Definition notThroughReceiver (recvName recvType : string) (n : ast.Node) : Prop :=
  match n with
  | ast.CallExpr _ (ast.SelectorExpr _ (ast.EIdent x) _) _ =>
      recvName = "" \/ recvType = "" \/ ast.Name x <> recvName
  | _ => True
  end.

Lemma visitCall_same callerID recvName recvType n (a : GoAnalyzer) :
  notThroughReceiver recvName recvType n ->
  asRepo (visitCall callerID a n)
  = analyzer.visitCall callerID recvName recvType None None (FilePath a) (asRepo a) n.
Proof.
  intros Hn. destruct n as [| | | | |callPos callFun args | | | | | |]; try reflexivity.
  unfold visitCall, analyzer.visitCall, processCall, analyzer.processCall. cbv zeta.
  assert (Hc :
    match callFun with
    | ast.EIdent fun_ =>
        if negb (analyzer.isBuiltin (ast.Name fun_))
        then getComponentID a (ast.Name fun_) ""
        else ast.Name fun_
    | ast.SelectorExpr _ (ast.EIdent xIdent) sel_ =>
        ast.Name xIdent +:+ "." +:+ ast.Name sel_
    | _ => ""
    end
    = analyzer.heuristicCallee (asRepo a) recvName recvType callFun (FilePath a)).
  { destruct callFun as [f | |p x sel | | | | | | | | |]; try reflexivity.
    destruct x as [xi | | | | | | | | | | |]; try reflexivity.
    simpl in Hn. simpl.
    destruct (String.eqb recvName "") eqn:E1; [reflexivity |].
    destruct (String.eqb recvType "") eqn:E2; [reflexivity |].
    destruct (String.eqb (ast.Name xi) recvName) eqn:E3; [| reflexivity].
    apply String.eqb_neq in E1, E2. apply String.eqb_eq in E3.
    destruct Hn as [? | [? | ?]]; contradiction. }
  rewrite Hc. now destruct (negb (String.eqb _ "")).
Qed.

Lemma fold_visitCall_same callerID recvName recvType l :
  Forall (notThroughReceiver recvName recvType) l ->
  forall a : GoAnalyzer,
    asRepo (fold_left (visitCall callerID) l a)
    = fold_left (analyzer.visitCall callerID recvName recvType None None (FilePath a))
                l (asRepo a)
    /\ sameFile a (fold_left (visitCall callerID) l a).
Proof.
  induction 1 as [|n l Hn _ IH]; intros a; [split; [reflexivity | apply sameFile_refl] |].
  simpl. destruct (IH (visitCall callerID a n)) as (IH1 & IH2).
  assert (Hs : sameFile a (visitCall callerID a n)).
  { destruct n; try apply sameFile_refl. apply processCall_sameFile. }
  rewrite IH1, (visitCall_same callerID recvName recvType n a Hn).
  destruct Hs as (Hf & Hc). rewrite Hf. split; [reflexivity |].
  apply sameFile_trans with (visitCall callerID a n); [now split | exact IH2].
Qed.

Lemma collectCall_same (f : ast.File) n (a : GoAnalyzer) :
  receiverCallFree f ->
  In n (ast.InspectFile f) ->
  asRepo (collectCall a n)
  = analyzer.collectCall (FilePath a) (asInfo f a) (asRepo a) n
  /\ sameFile a (collectCall a n).
Proof.
  intros Hfree Hin.
  destruct n as [| | | | | | | | | |Doc Recv FName TypeParams Params Results Body FPos FEnd |];
    try (split; [reflexivity | apply sameFile_refl]).
  unfold collectCall, analyzer.collectCall.
  destruct Body as [body |]; [| split; [reflexivity | apply sameFile_refl]].
  change (analyzer.info (asInfo f a)) with (@None types.Info).
  change (analyzer.pkg (asInfo f a)) with (@None types.Package).
  rewrite ResolverFacts.visitFuncBodyForCalls_eq.
  unfold visitFuncBodyForCalls.
  assert (Hcaller :
    match Recv with
    | Some fields => getComponentID a (ast.Name FName) (analyzer.recvTypeOf fields)
    | None => getComponentID a (ast.Name FName) ""
    end
    = ResolverFacts.callerOf (asRepo a) Recv FName (FilePath a)).
  { now destruct Recv. }
  rewrite Hcaller.
  apply fold_visitCall_same.
  apply List.Forall_forall. intros c Hc.
  destruct c as [| | | | |callPos callFun args | | | | | |]; try exact I.
  destruct callFun as [| |p x sel | | | | | | | | |]; try exact I.
  destruct x as [xi | | | | | | | | | | |]; try exact I.
  destruct Recv as [fields |]; [| now left].
  simpl. unfold ResolverFacts.recvNameOf, CollectorFacts.classOf.
  now apply (Hfree Doc fields FName TypeParams Params Results body FPos FEnd
               callPos p xi sel args).
Qed.

End WithEnv.

(** On a file in which no method calls through its own receiver, the earlier
    analyzer does what the later one does on that file alone, without type
    facts: [Analyze] fails as parsing fails, and else leaves the nodes, the
    relationships and the identifiers that [collectNodes] and then
    [collectCalls] leave.  (A call through the receiver is where they part:
    the earlier analyzer names the callee by the text of the selector, the
    later one by the identifier of the method.) *)
Theorem earlier_analyzer_agrees {E : Env} (parsed : result ast.File)
    (a : GoAnalyzer) :
  (forall f, parsed = Ok f -> receiverCallFree f) ->
  liftRepo (Analyze parsed a)
  = (f ← parsed;
     a1 ← analyzer.collectNodes (FilePath a) (asInfo f a) (asRepo a);
     Ok (analyzer.collectCalls (FilePath a) (asInfo f a) a1)).
Proof.
  intros Hfree. unfold Analyze.
  destruct parsed as [f | e |]; try reflexivity.
  specialize (Hfree f eq_refl).
  set (a' := setPackageName (ast.Name (ast.FileName f)) a).
  change (liftRepo (a1 ← forM collectNode (ast.InspectFile f) a';
                    Ok (fold_left collectCall (ast.InspectFile f) a1))
          = (a1 ← forM (analyzer.collectNode (FilePath a') (Content a'))
                       (ast.InspectFile f) (asRepo a');
             Ok (fold_left (analyzer.collectCall (FilePath a') (asInfo f a))
                           (ast.InspectFile f) a1))).
  destruct (forM_lift (fun n a => collectNode n a)
              (fun n fp content a => analyzer.collectNode fp content n a)
              (ast.InspectFile f)
              (fun n b => collectNode_lift n b)
              (fun n b c => collectNode_sameFile n b c) a') as (H1 & H2).
  assert (H1' : liftRepo (forM collectNode (ast.InspectFile f) a')
                = forM (analyzer.collectNode (FilePath a') (Content a'))
                       (ast.InspectFile f) (asRepo a')) by exact H1.
  rewrite <- H1'.
  destruct (forM collectNode (ast.InspectFile f) a') as [a1 | e |] eqn:Hf;
    try reflexivity.
  change (Ok (asRepo (fold_left collectCall (ast.InspectFile f) a1))
          = Ok (fold_left (analyzer.collectCall (FilePath a') (asInfo f a))
                          (ast.InspectFile f) (asRepo a1))).
  f_equal.
  destruct (H2 a1 Hf) as (Hfp & Hct).
  assert (Hgen : forall l s,
            (forall n, In n l -> In n (ast.InspectFile f)) ->
            sameFile a' s ->
            asRepo (fold_left collectCall l s)
            = fold_left (analyzer.collectCall (FilePath a') (asInfo f a)) l (asRepo s)).
  { induction l as [|n l IH]; intros s Hl Hs; [reflexivity |].
    simpl. destruct (collectCall_same f n s Hfree (Hl n (or_introl eq_refl)))
      as (Hn & Hsn).
    rewrite IH.
    - rewrite Hn. destruct Hs as (Hsf & Hsc). rewrite Hsf.
      assert (Hinfo : asInfo f s = asInfo f a) by (unfold asInfo; now rewrite Hsc).
      now rewrite Hinfo.
    - intros m Hm. apply Hl. now right.
    - now apply sameFile_trans with s. }
  apply Hgen; [auto | now split].
Qed.

(** The file of [TestIsResolved], read by [NewGoAnalyzer] and parsed. *)
Lemma earlier_analyzer_agrees_witness :
  exists a b,
    NewGoAnalyzer (E := Examples.callsEnv) "/r/test_resolved.go" "/r" = Ok a
    /\ Analyze (E := Examples.callsEnv) (Ok Examples.callsFile) a = Ok b
    /\ analyzer.Analyze (E := Examples.callsEnv) (Examples.analyzerAt Examples.callsEnv)
       = Ok (asRepo b).
Proof.
  eexists. eexists. split; [vm_compute; reflexivity |].
  split; [vm_compute; reflexivity |].
  pose proof (earlier_analyzer_agrees (E := Examples.callsEnv) (Ok Examples.callsFile)
                {| FilePath := "/r/test_resolved.go"; Content := Examples.callsSrc;
                   RepoPath := "/r"; FileSet := World.position Examples.callsDisk;
                   Nodes := []; Relationships := []; PackageName := "";
                   CollectedNodeIDs := ∅ |}) as H.
  assert (Hfree : forall f, Ok Examples.callsFile = Ok f -> receiverCallFree f).
  { intros f Hf. injection Hf as <-.
    intros doc fields name tps params results body fpos fend callPos p x sel args Hin.
    exfalso. simpl in Hin.
    repeat (destruct Hin as [Hin | Hin]; [discriminate |]). destruct Hin. }
  specialize (H Hfree). revert H. vm_compute. intros H. exact (eq_sym H).
Defined.

End OneFileAgreement.

(* ===================================================================== *)
(** * Where [Analyze] fails *)
(* ===================================================================== *)

Module Failures.

Import GoString Props analyzer World StringFacts LoopFacts CollectorFacts
       ResolverFacts RunFacts Claims.

(** A loop that fails, fails in the round of one of its elements. *)
Lemma forM_Failed {A S : Type} (body : A -> S -> result S) (l : list A)
    (s : S) (e : string) :
  forM body l s = Failed e ->
  exists x s', In x l /\ body x s' = Failed e.
Proof.
  revert s. induction l as [|x l IH]; intros s H; [discriminate |].
  simpl in H. destruct (body x s) as [s1 | e1 |] eqn:Hb; simpl in H.
  - destruct (IH s1 H) as (y & s' & Hy & Hf). exists y, s'. split; [now right | exact Hf].
  - injection H as ->. exists x, s. split; [now left | exact Hb].
  - discriminate.
Qed.

(** A machine on which every file is reported and none can be read. *)
Definition unreadableEnv : Env :=
{| filepath_Abs := fun p => Some p;
   filepath_Rel := relBelow;
   filepath_Clean := fun p => p;
   os_ReadFile := fun _ => Failed "permission denied";
   types_TypeString := typeString;
   moduleRoots := fun root => Ok [root];
   packages_Load := fun _ => Ok Examples.callsPkgs;
   loadedFileSet := position Examples.callsDisk;
   mapRange := fun V _ m => map_to_list m;
   mapRange_perm := fun V _ m => reflexivity _ |}.

(** [Analyze] fails only while it gathers the files: with the error of
    [findModuleRoots], with the error of loading the packages of a module
    root, or with the error of reading a file that the loader reports under a
    name that is not empty, does not end in [_test.go] and lies in the
    repository.  The two passes do not fail. *)
Theorem Analyze_error_sources {E : Env} (a : GoAnalyzer) (e : string) :
  Analyze a = Failed e ->
  moduleRoots (RepoAbs a) = Failed e
  \/ (exists found root,
        moduleRoots (RepoAbs a) = Ok found
        /\ In root (Gathering.rootsOrRepo a found)
        /\ (packages_Load root = Failed e
            \/ exists pkgs pkg f,
                packages_Load root = Ok pkgs
                /\ In pkg pkgs /\ In f (packages.Syntax pkg)
                /\ String.eqb (reportedName a f) "" = false
                /\ isTestFile (reportedName a f) = false
                /\ isPathInRepo (RepoAbs a) (absOrSame (reportedName a f)) = true
                /\ os_ReadFile (absOrSame (reportedName a f)) = Failed e)).
Proof.
  intros HA.
  assert (Hg : gatherFiles a = Failed e).
  { destruct (gatherFiles a) as [fi | e' |] eqn:Hg.
    - destruct (Analyze_passes a fi Hg) as (a1 & _ & HA'). congruence.
    - unfold Analyze in HA. rewrite Hg in HA. simpl in HA. now injection HA as ->.
    - unfold Analyze in HA. rewrite Hg in HA. discriminate. }
  clear HA. unfold gatherFiles in Hg.
  destruct (moduleRoots (RepoAbs a)) as [found | e' |] eqn:Hroots; simpl in Hg;
    [| left; now injection Hg as -> | discriminate].
  right. fold (Gathering.rootsOrRepo a found) in Hg.
  apply forM_Failed in Hg as (root & fi & Hroot & Hr).
  exists found, root. split; [reflexivity |]. split; [exact Hroot |].
  unfold addRoot in Hr.
  destruct (packages_Load root) as [pkgs | e' |] eqn:Hload; simpl in Hr;
    [| left; now injection Hr as -> | discriminate].
  right. apply forM_Failed in Hr as (pkg & fi1 & Hpkg & Hp).
  unfold addPackage in Hp. apply forM_Failed in Hp as (f & fi2 & Hf & Hfile).
  exists pkgs, pkg, f. split; [reflexivity |]. split; [exact Hpkg |].
  split; [exact Hf |].
  unfold addFile in Hfile. cbv zeta in Hfile. fold (reportedName a f) in Hfile.
  destruct (String.eqb (reportedName a f) "") eqn:Hn; [discriminate |].
  destruct (isTestFile (reportedName a f)) eqn:Ht; [discriminate |]. simpl in Hfile.
  destruct (isPathInRepo (RepoAbs a) (absOrSame (reportedName a f))) eqn:Hin;
    [| discriminate]. simpl in Hfile.
  destruct (fi2 !! absOrSame (reportedName a f)); [discriminate |].
  destruct (os_ReadFile (absOrSame (reportedName a f))) as [c | e' |] eqn:Hread;
    simpl in Hfile; [discriminate | | discriminate].
  injection Hfile as ->. auto.
Qed.

(** The repository of [TestIsResolved] on the machine that reads no file. *)
Lemma Analyze_error_sources_witness :
  Analyze (E := unreadableEnv) (Examples.analyzerAt unreadableEnv)
  = Failed "permission denied"
  /\ (moduleRoots (Env := unreadableEnv) "/r" = Failed "permission denied"
      \/ exists found root,
          moduleRoots (Env := unreadableEnv) "/r" = Ok found
          /\ In root (Gathering.rootsOrRepo (Examples.analyzerAt unreadableEnv) found)
          /\ (packages_Load (Env := unreadableEnv) root = Failed "permission denied"
              \/ exists pkgs pkg f,
                  packages_Load (Env := unreadableEnv) root = Ok pkgs
                  /\ In pkg pkgs /\ In f (packages.Syntax pkg)
                  /\ String.eqb (reportedName (Examples.analyzerAt unreadableEnv) f) ""
                     = false
                  /\ isTestFile (reportedName (Examples.analyzerAt unreadableEnv) f)
                     = false
                  /\ isPathInRepo (E := unreadableEnv) "/r"
                       (absOrSame (E := unreadableEnv)
                          (reportedName (Examples.analyzerAt unreadableEnv) f))
                     = true
                  /\ os_ReadFile (Env := unreadableEnv)
                       (absOrSame (E := unreadableEnv)
                          (reportedName (Examples.analyzerAt unreadableEnv) f))
                     = Failed "permission denied")).
Proof.
  assert (HA : Analyze (E := unreadableEnv) (Examples.analyzerAt unreadableEnv)
               = Failed "permission denied") by (vm_compute; reflexivity).
  split; [exact HA |].
  exact (Analyze_error_sources (E := unreadableEnv)
           (Examples.analyzerAt unreadableEnv) "permission denied" HA).
Defined.

End Failures.

(* ===================================================================== *)
(** * Test files *)
(* ===================================================================== *)

Module TestFiles.

Import GoString Props analyzer StringFacts PathEdges.

Lemma substring_app_r (x y : string) :
  String.substring (String.length x) (String.length y) (x +:+ y) = y.
Proof.
  induction x as [|c x IH]; [| rewrite sapp_cons; exact IH].
  rewrite sapp_nil_l. simpl String.length.
  induction y as [|d y IHy]; [reflexivity |]. simpl. now rewrite IHy.
Qed.

(** A string is its first [n] bytes followed by the rest. *)
Lemma substring_split (s : string) (n : nat) :
  (n <= String.length s)%nat ->
  s = String.substring 0 n s
      +:+ String.substring n (String.length s - n) s.
Proof.
  revert n. induction s as [|c s IH]; intros n Hn.
  - simpl in Hn. assert (n = 0)%nat as -> by lia. reflexivity.
  - destruct n as [|n].
    + rewrite Nat.sub_0_r. simpl String.substring at 1. rewrite sapp_nil_l.
      change (String c s) with ("" +:+ String c s) at 2.
      change 0%nat with (String.length "").
      now rewrite substring_app_r.
    + simpl in Hn. simpl. rewrite sapp_cons. f_equal. apply IH. lia.
Qed.

(** [strings.HasSuffix]: [s] ends in [suffix]. *)
Lemma HasSuffix_iff (s suffix : string) :
  HasSuffix s suffix = true <-> exists stem, s = stem +:+ suffix.
Proof.
  unfold HasSuffix, slice, len. split.
  - intros H. apply andb_true_iff in H as (Hl & He).
    apply Z.leb_le in Hl. apply String.eqb_eq in He.
    replace (Z.to_nat (Z.of_nat (String.length s) - Z.of_nat (String.length suffix)))
      with (String.length s - String.length suffix)%nat in He by lia.
    replace (Z.to_nat (Z.of_nat (String.length s)
                       - (Z.of_nat (String.length s) - Z.of_nat (String.length suffix))))
      with (String.length s - (String.length s - String.length suffix))%nat in He by lia.
    exists (String.substring 0 (String.length s - String.length suffix) s).
    pose proof (substring_split s (String.length s - String.length suffix)) as H.
    rewrite He in H. apply H. lia.
  - intros (stem & ->).
    assert (Hlen : String.length (stem +:+ suffix)
                   = (String.length stem + String.length suffix)%nat).
    { pose proof (len_app stem suffix) as H. unfold len in H. lia. }
    rewrite Hlen. apply andb_true_iff. split; [apply Z.leb_le; lia |].
    apply String.eqb_eq.
    replace (Z.to_nat (Z.of_nat (String.length stem + String.length suffix)
                       - Z.of_nat (String.length suffix)))
      with (String.length stem) by lia.
    replace (Z.to_nat (Z.of_nat (String.length stem + String.length suffix)
                       - (Z.of_nat (String.length stem + String.length suffix)
                          - Z.of_nat (String.length suffix))))
      with (String.length suffix) by lia.
    apply substring_app_r.
Qed.

(** A file counts as a test file exactly when its name ends in [_test.go],
    wherever it lies and whatever comes before. *)
Theorem isTestFile_iff (path : string) :
  isTestFile path = true <-> exists stem, path = stem +:+ "_test.go".
Proof. apply HasSuffix_iff. Qed.

End TestFiles.
